(** * Container management service: the provisioning and bulk handlers

  A shallow embedding of the request handlers of [main.go]: the
  [POST /create] handler (image, name and port resolution, create with
  one retry, start and the classification of start failures),
  [POST /bulk/:action], [GET /remove/:id], [POST /images/pull],
  [GET /stop/:id], [GET /start/:id], [DELETE /images/:id], and the loop
  of [GET /stats] that counts the container states.

  The Docker daemon and the clock are external.  They are modelled as an
  oracle ([World], and [RouteWorld] for the routes that inspect, stop
  without a timeout or remove images) that answers every call from the
  list of calls issued so far ([Trace]); a handler is a function from the
  trace to its HTTP response and the extended trace.  Go's [int] is taken to be 64 bits
  wide, and Go strings are byte strings ([string] of [ascii]). *)

From Stdlib Require Import ZArith Lia Bool Strings.String Strings.Ascii
Numbers.DecimalString Numbers.DecimalPos Lists.List.
From stdpp Require Import gmap strings list fin_maps.

Local Open Scope string_scope.
Local Open Scope list_scope.
Local Open Scope Z_scope.

(** ** The [strings] and [strconv] functions the handlers call *)

Module GoStrings.

(** [strings.HasPrefix s prefix]. *)
Definition HasPrefix (s pre : string) : bool := String.prefix pre s.

(** Go's [s[n:]] for [0 <= n <= len(s)]. *)
Fixpoint dropBytes (n : nat) (s : string) : string :=
  match n, s with
  | O, _ => s
  | S _, EmptyString => EmptyString
  | S n', String _ s' => dropBytes n' s'
  end.

(** [strings.TrimPrefix s prefix]. *)
Definition TrimPrefix (s pre : string) : string :=
  if HasPrefix s pre then dropBytes (String.length pre) s else s.

(** Position of the first occurrence of [substr] in [s]. *)
Fixpoint indexFrom (s substr : string) : option nat :=
  if String.prefix substr s then Some O
  else match s with
       | EmptyString => None
       | String _ s' =>
           match indexFrom s' substr with
           | Some n => Some (S n)
           | None => None
           end
       end.

(** [strings.Index s substr]: the first occurrence, or -1. *)
Definition Index (s substr : string) : Z :=
  match indexFrom s substr with
  | Some n => Z.of_nat n
  | None => -1
  end.

(** [strings.Contains s substr] is [Index(s, substr) >= 0]. *)
Definition Contains (s substr : string) : bool := 0 <=? Index s substr.

(** [strings.Split s sep] for a separator of one byte. *)
Fixpoint Split (s : string) (sep : ascii) : list string :=
  match s with
  | EmptyString => [EmptyString]
  | String c s' =>
      if Ascii.eqb c sep then EmptyString :: Split s' sep
      else match Split s' sep with
           | p :: ps => String c p :: ps
           | [] => [String c EmptyString]
           end
  end.

(** Go's [s[a:]] and [s[a:b]] on [int] indices.  The handlers only slice
    within bounds (see [extractConflictPort_in_bounds]). *)
Definition sliceFrom (s : string) (a : Z) : string :=
  dropBytes (Z.to_nat a) s.

Definition slice (s : string) (a b : Z) : string :=
  String.substring (Z.to_nat a) (Z.to_nat (b - a)) s.

End GoStrings.

Module GoStrconv.

Definition minInt64 : Z := - 2 ^ 63.
Definition maxInt64 : Z := 2 ^ 63 - 1.

(** Wrap-around of Go's 64-bit [int] arithmetic. *)
Definition wrapInt (n : Z) : Z := (n - minInt64) mod 2 ^ 64 + minInt64.

Definition isDigit (c : ascii) : bool :=
  (48 <=? Z.of_nat (nat_of_ascii c)) && (Z.of_nat (nat_of_ascii c) <=? 57).

Fixpoint digitsValue (s : string) (acc : Z) : option Z :=
  match s with
  | EmptyString => Some acc
  | String c s' =>
      if isDigit c
      then digitsValue s' (10 * acc + (Z.of_nat (nat_of_ascii c) - 48))
      else None
  end.

(** [strconv.Atoi]: an optional sign, then one or more decimal digits, and
    a value that fits [int]; [None] stands for the returned error. *)
Definition Atoi (s : string) : option Z :=
  let '(neg, ds) :=
    match s with
    | String "+"%char r => (false, r)
    | String "-"%char r => (true, r)
    | _ => (false, s)
    end in
  match ds with
  | EmptyString => None
  | _ =>
      match digitsValue ds 0 with
      | None => None
      | Some v =>
          let n := if neg then - v else v in
          if (minInt64 <=? n) && (n <=? maxInt64) then Some n else None
      end
  end.

(** [strconv.FormatInt n 10] and [strconv.Itoa n]. *)
Definition FormatInt (n : Z) : string := NilZero.string_of_int (Z.to_int n).
Definition Itoa (n : Z) : string := FormatInt n.

End GoStrconv.

Import GoStrings GoStrconv.

(** ** Data of the daemon API and of the handlers *)

(** [types.Port] of a listed container; both ports are [uint16]. *)
Record Port := { PrivatePort : Z; PublicPort : Z }.

(** The fields of [types.Container] the handlers read. *)
Record Container := { ID : string; Names : list string; Ports : list Port }.

(** The field of [image.Summary] the handlers read. *)
Record ImageSummary := { RepoTags : list string }.

Record PortBinding := { HostIP : string; HostPort : string }.

(** [container.Config] and [container.HostConfig] as the create handler
    fills them: [nat.PortSet] is a set of ports, [nat.PortMap] a map from
    a port to its bindings. *)
Record Config := { Image : string; Tty : bool; ExposedPorts : gset string }.

Record HostConfig := { PortBindings : gmap string (list PortBinding) }.

Record CreateContainerRequest :=
  { Name : string; ReqImage : string; ReqPort : string }.

(** A Go [(value, error)] pair: the value, or the error's message. *)
Inductive Result (A : Type) : Type :=
| Ok (a : A)
| Err (msg : string).

Arguments Ok {A} a.
Arguments Err {A} msg.

(** The calls a handler issues to the outside, in the order of the source. *)
Inductive Call : Type :=
| CallNewClient
| CallPing
| CallImageList
| CallImagePull (ref : string)
| CallReadAll
| CallContainerList (all : bool)
| CallContainerCreate (cfg : Config) (host : HostConfig) (name : string)
| CallContainerStart (id : string)
| CallContainerStop (id : string) (timeout : Z)
| CallContainerRemove (id : string) (force : bool)
| CallContainerRestart (id : string) (timeout : Z)
| CallNow.

Definition Trace : Type := list Call.

(** The daemon and the clock.  Every answer may depend on all the calls
    made before it, so a daemon whose state changes between two calls of
    one request (another client creating a container, say) is covered.
    [now] is [time.Now()] in nanoseconds since the epoch. *)
Record World := {
  newClient : Trace -> option string;
  ping : Trace -> option string;
  imageList : Trace -> Result (list ImageSummary);
  imagePull : Trace -> string -> option string;
  readAll : Trace -> option string;
  containerList : Trace -> Result (list Container);
  containerCreate : Trace -> Config -> HostConfig -> string -> Result string;
  containerStart : Trace -> string -> option string;
  containerStop : Trace -> string -> Z -> option string;
  containerRemove : Trace -> string -> bool -> option string;
  containerRestart : Trace -> string -> Z -> option string;
  now : Trace -> Z
}.

(** [Time.Unix] and [Time.UnixNano] of a [time.Now()] reading. *)
Definition Unix (t : Z) : Z := t / 1000000000.
Definition UnixNano (t : Z) : Z := t.

(** ** Handlers: state passing over the trace, with early return *)

(** A step of a handler either writes the response and returns
    ([ctx.JSON(...); return]) or goes on with a value. *)
Inductive Outcome (R A : Type) : Type :=
| Respond (r : R)
| Continue (a : A).

Arguments Respond {R A} r.
Arguments Continue {R A} a.

Definition Handler (R A : Type) : Type := Trace -> Outcome R A * Trace.

Definition ret {R A : Type} (a : A) : Handler R A :=
  fun t => (Continue a, t).

Definition respond {R A : Type} (r : R) : Handler R A :=
  fun t => (Respond r, t).

Definition bind {R A B : Type} (m : Handler R A) (k : A -> Handler R B)
  : Handler R B :=
  fun t =>
    match m t with
    | (Respond r, t') => (Respond r, t')
    | (Continue a, t') => k a t'
    end.

(** Issue one call: read the oracle's answer at the current trace and
    record the call. *)
Definition call {R A : Type} (answer : Trace -> A) (c : Call) : Handler R A :=
  fun t => (Continue (answer t), t ++ [c]).

Declare Scope handler_scope.
Delimit Scope handler_scope with handler.

Notation "x <- m ;; k" := (bind m (fun x => k))
  (at level 100, m at next level, right associativity) : handler_scope.

Notation "m ;;; k" := (bind m (fun _ => k))
  (at level 100, right associativity) : handler_scope.

Local Open Scope handler_scope.

(** The response of a handler and the calls it made, from a given trace. *)
Definition serve {R : Type} (h : Handler R R) (t : Trace) : R * Trace :=
  match h t with
  | (Respond r, t') => (r, t')
  | (Continue r, t') => (r, t')
  end.

(** An HTTP response: the status and the JSON object's fields that carry
    data.  Fixed prose ([details], [suggestion], [note], the lists of next
    steps) is left out, as is [port_in_use] of the create-time bind
    failure, which no property below reads. *)
Record Response := { status : Z; body : list (string * string) }.

Definition StatusOK : Z := 200.
Definition StatusBadRequest : Z := 400.
Definition StatusConflict : Z := 409.
Definition StatusInternalServerError : Z := 500.

(** The address [main] passes to [r.Run], and its port. *)
Definition listenAddr : string := ":8081".

Definition listenPort : option Z :=
  match Split listenAddr ":"%char with
  | [_; p] => Atoi p
  | _ => None
  end.

(** ** Classification of a start failure *)

(** The port read out of a start failure's message (lines 336-341, and the
    same text at 555-560): the bytes between the first ["0.0.0.0:"] and the
    next colon; empty when the marker is absent or the colon comes first. *)
Definition extractConflictPort (errorDetails : string) : string :=
  if Contains errorDetails "0.0.0.0:" then
    let start := Index errorDetails "0.0.0.0:" + 8 in
    let end_ := Index (sliceFrom errorDetails start) ":" in
    if 0 <? end_ then slice errorDetails start (start + end_) else ""
  else "".

(** [conflictType] and [conflictPort] of the create handler after a failed
    start (lines 329-345). *)
Definition classifyStartFailure (errorDetails : string) : string * string :=
  if Contains errorDetails "bind host port" then
    ("port_binding_failed", extractConflictPort errorDetails)
  else if Contains errorDetails "address already in use" then
    ("address_in_use", "")
  else ("", "").

(** What [GET /start/:id] answers when [ContainerStart] fails with
    [errorDetails] (lines 551-583). *)
Definition startFailureResponse (errorDetails targetContainerName : string)
  : Response :=
  if Contains errorDetails "bind host port"
     || Contains errorDetails "address already in use"
  then
    let conflictPort := extractConflictPort errorDetails in
    {| status := StatusConflict;
       body := [("conflict_type", "port_conflict");
                ("port_in_conflict", conflictPort)] |}
  else
    {| status := StatusInternalServerError;
       body := [("error", "Error starting container: " +:+ errorDetails);
                ("container_name", targetContainerName)] |}.

(** ** [POST /create] *)

Section Create.

Variable W : World.

(** Lines 77-91: the client and the ping. *)
Definition connect : Handler Response unit :=
  e <- call (newClient W) CallNewClient ;;
  match e with
  | Some err =>
      respond {| status := StatusInternalServerError;
                 body := [("error",
                   "Cannot connect to Docker daemon. Is Docker running? "
                   +:+ err)] |}
  | None =>
      e <- call (ping W) CallPing ;;
      match e with
      | Some err =>
          respond {| status := StatusInternalServerError;
                     body := [("error",
                       "Docker daemon is not accessible: " +:+ err)] |}
      | None => ret tt
      end
  end.

(** Lines 93-139: the image, pulled unless a local tag equals it. *)
Definition resolveImage (req : CreateContainerRequest)
  : Handler Response string :=
  let imageName :=
    if String.eqb (ReqImage req) "" then "nginx:latest" else ReqImage req in
  r <- call (imageList W) CallImageList ;;
  match r with
  | Err _ => ret imageName
  | Ok images =>
      let imageExists :=
        existsb (fun img => existsb (String.eqb imageName) (RepoTags img))
                images in
      if imageExists then ret imageName
      else
        e <- call (fun t => imagePull W t imageName) (CallImagePull imageName) ;;
        match e with
        | Some err =>
            respond {| status := StatusInternalServerError;
                       body := [("error", "Error pulling image: " +:+ err)] |}
        | None =>
            e <- call (readAll W) CallReadAll ;;
            match e with
            | Some err =>
                respond {| status := StatusInternalServerError;
                           body := [("error",
                             "Error reading pull output: " +:+ err)] |}
            | None => ret imageName
            end
        end
  end.

(** Lines 150-157: the names of one container.  The first name equal to
    [containerName] appends a time stamp and leaves this inner loop. *)
Fixpoint renameOnConflict (names : list string) (containerName : string)
  : Handler Response string :=
  match names with
  | [] => ret containerName
  | name :: rest =>
      if String.eqb (TrimPrefix name "/") containerName then
        t <- call (now W) CallNow ;;
        ret (containerName +:+ "-" +:+ FormatInt (Unix t))
      else renameOnConflict rest containerName
  end.

(** Lines 149-158: the outer loop, which goes on with the next container
    and the name as changed so far. *)
Fixpoint renameOverContainers (containers : list Container)
  (containerName : string) : Handler Response string :=
  match containers with
  | [] => ret containerName
  | c :: rest =>
      containerName' <- renameOnConflict (Names c) containerName ;;
      renameOverContainers rest containerName'
  end.

(** Lines 142-160. *)
Definition resolveName (req : CreateContainerRequest)
  : Handler Response string :=
  let containerName := Name req in
  if String.eqb containerName "" then
    t <- call (now W) CallNow ;;
    ret ("my-container-" +:+ FormatInt (Unix t))
  else
    r <- call (containerList W) (CallContainerList true) ;;
    match r with
    | Ok containers => renameOverContainers containers containerName
    | Err _ => ret containerName
    end.

(** [p.PublicPort != 0 && int(p.PublicPort) == port] over all ports of all
    containers (lines 198-204). *)
Definition publishes (containers : list Container) (port : Z) : bool :=
  existsb (fun c =>
    existsb (fun p => negb (PublicPort p =? 0) && (PublicPort p =? port))
            (Ports c)) containers.

(** Lines 186-206. *)
Definition isPortInUse (port : Z) : Handler Response bool :=
  if port =? 8080 then ret true
  else
    r <- call (containerList W) (CallContainerList true) ;;
    match r with
    | Err _ => ret false
    | Ok containers => ret (publishes containers port)
    end.

(** [for i := lo; i <= 9999; i++ { if !isPortInUse(i) { ...; break } }]:
    [n] counts the iterations left, [i] is the loop variable. *)
Fixpoint scanPorts (n : nat) (i : Z) : Handler Response (option Z) :=
  match n with
  | O => ret None
  | S n' =>
      inUse <- isPortInUse i ;;
      if inUse then scanPorts n' (i + 1) else ret (Some i)
  end.

Definition scanRange (lo hi : Z) : Handler Response (option Z) :=
  scanPorts (Z.to_nat (hi - lo + 1)) lo.

(** Lines 208-256: [finalHostPort]. *)
Definition findHostPort (requestedHostPort : string) (hostPortInt : Z)
  : Handler Response string :=
  inUse <- isPortInUse hostPortInt ;;
  if inUse then
    first <- scanRange (wrapInt (hostPortInt + 1)) 9999 ;;
    match first with
    | Some i => ret (Itoa i)
    | None =>
        fallback <- scanRange 8081 9999 ;;
        match fallback with
        | Some i => ret (Itoa i)
        | None =>
            respond {| status := StatusConflict;
                       body := [("requested_port", requestedHostPort);
                                ("conflict_type", "port_unavailable")] |}
        end
    end
  else ret requestedHostPort.

(** Lines 163-274: the two configurations and [actualPortMapping]. *)
Definition configure (req : CreateContainerRequest) (imageName : string)
  : Handler Response (Config * HostConfig * string) :=
  let plain :=
    ({| Image := imageName; Tty := true; ExposedPorts := ∅ |},
     {| PortBindings := ∅ |}, "none") in
  if String.eqb (ReqPort req) "" then ret plain
  else
    match Split (ReqPort req) ":"%char with
    | [requestedHostPort; containerPort] =>
        match Atoi requestedHostPort with
        | None =>
            respond {| status := StatusBadRequest;
                       body := [("error",
                         "Invalid host port: " +:+ requestedHostPort)] |}
        | Some hostPortInt =>
            finalHostPort <- findHostPort requestedHostPort hostPortInt ;;
            ret ({| Image := imageName; Tty := true;
                    ExposedPorts := {[ containerPort +:+ "/tcp" ]} |},
                 {| PortBindings :=
                      {[ containerPort +:+ "/tcp" :=
                         [ {| HostIP := "0.0.0.0";
                              HostPort := finalHostPort |} ] ]} |},
                 finalHostPort +:+ ":" +:+ containerPort)
        end
    | _ => ret plain
    end.

(** Lines 278-321: create, with the retry on a name conflict.  Gives the
    container's id and the name it was created under. *)
Definition createContainer (cfg : Config) (host : HostConfig)
  (actualPortMapping containerName : string)
  : Handler Response (string * string) :=
  r <- call (fun t => containerCreate W t cfg host containerName)
            (CallContainerCreate cfg host containerName) ;;
  match r with
  | Ok id => ret (id, containerName)
  | Err err =>
      let failed (msg : string) : Handler Response (string * string) :=
        respond {| status := StatusInternalServerError;
                   body := [("error", "Error creating container: " +:+ msg)] |}
      in
      if Contains err "already in use" then
        if Contains err "container name" then
          t <- call (now W) CallNow ;;
          let containerName' :=
            containerName +:+ "-" +:+ FormatInt (UnixNano t) in
          r' <- call (fun t => containerCreate W t cfg host containerName')
                     (CallContainerCreate cfg host containerName') ;;
          match r' with
          | Ok id => ret (id, containerName')
          | Err err' => failed err'
          end
        else if Contains err "bind host port" then
          match Split actualPortMapping ":"%char with
          | _ :: _ :: _ =>
              respond {| status := StatusConflict;
                         body := [("conflict_type", "system_port_conflict")] |}
          | _ =>
              (* index out of range: gin's recovery answers 500 *)
              respond {| status := StatusInternalServerError; body := [] |}
          end
        else failed err
      else failed err
  end.

(** Lines 325-392: start, and the final response. *)
Definition startContainer (req : CreateContainerRequest)
  (imageName actualPortMapping id containerName : string)
  : Handler Response Response :=
  e <- call (fun t => containerStart W t id) (CallContainerStart id) ;;
  match e with
  | Some errorDetails =>
      let '(conflictType, conflictPort) := classifyStartFailure errorDetails in
      if negb (String.eqb conflictType "") then
        respond {| status := StatusConflict;
                   body := [("container_id", id);
                            ("conflict_type", conflictType);
                            ("port_in_conflict", conflictPort)] |}
      else
        respond {| status := StatusInternalServerError;
                   body := [("details", errorDetails);
                            ("container_id", id)] |}
  | None =>
      let response :=
        [("id", id); ("name", containerName); ("image", imageName);
         ("port", actualPortMapping)] in
      if negb (String.eqb actualPortMapping (ReqPort req))
         && negb (String.eqb (ReqPort req) "")
      then ret {| status := StatusOK;
                  body := response ++ [("original_port", ReqPort req)] |}
      else ret {| status := StatusOK; body := response |}
  end.

(** The handler; [body] is the outcome of [ShouldBindJSON]. *)
Definition createHandler (body : Result CreateContainerRequest)
  : Handler Response Response :=
  match body with
  | Err err =>
      respond {| status := StatusBadRequest;
                 body := [("error", "Invalid JSON format: " +:+ err)] |}
  | Ok req =>
      connect ;;;
      imageName <- resolveImage req ;;
      containerName <- resolveName req ;;
      plan <- configure req imageName ;;
      let '(cfg, host, actualPortMapping) := plan in
      created <- createContainer cfg host actualPortMapping containerName ;;
      let '(id, containerName') := created in
      startContainer req imageName actualPortMapping id containerName'
  end.

End Create.

(** ** [POST /bulk/:action] *)

(** One entry of [results]: [gin.H{"status": ..., "message": ...}]. *)
Record BulkOutcome := { outcomeStatus : string; outcomeMessage : option string }.

Record BulkSummary := { total : Z; success : Z; errors : Z }.

Inductive BulkResponse : Type :=
| BulkRefused (code : Z) (error : string)
| BulkDone (code : Z) (action : string)
    (results : gmap string BulkOutcome) (summary : BulkSummary).

(** The loop's variables: [results], [successCount], [errorCount]. *)
Record BulkState := {
  bulkResults : gmap string BulkOutcome;
  successCount : Z;
  errorCount : Z
}.

Section Bulk.

Variable W : World.

(** Lines 1054-1067: the [switch] on the action, giving [err]. *)
Definition bulkAction (action containerID : string)
  : Handler BulkResponse (option string) :=
  if String.eqb action "start" then
    call (fun t => containerStart W t containerID)
         (CallContainerStart containerID)
  else if String.eqb action "stop" then
    call (fun t => containerStop W t containerID 30)
         (CallContainerStop containerID 30)
  else if String.eqb action "remove" then
    call (fun t => containerRemove W t containerID true)
         (CallContainerRemove containerID true)
  else if String.eqb action "restart" then
    call (fun t => containerRestart W t containerID 30)
         (CallContainerRestart containerID 30)
  else ret (Some ("unknown action: " +:+ action)).

(** Lines 1069-1077: record the outcome of one target. *)
Definition bulkRecord (containerID : string) (err : option string)
  (st : BulkState) : BulkState :=
  match err with
  | Some msg =>
      {| bulkResults :=
           <[ containerID := {| outcomeStatus := "error";
                                outcomeMessage := Some msg |} ]>
             (bulkResults st);
         successCount := successCount st;
         errorCount := wrapInt (errorCount st + 1) |}
  | None =>
      {| bulkResults :=
           <[ containerID := {| outcomeStatus := "success";
                                outcomeMessage := None |} ]>
             (bulkResults st);
         successCount := wrapInt (successCount st + 1);
         errorCount := errorCount st |}
  end.

(** Lines 1051-1078: [for _, containerID := range req.Containers]. *)
Fixpoint bulkLoop (action : string) (containers : list string)
  (st : BulkState) : Handler BulkResponse BulkState :=
  match containers with
  | [] => ret st
  | containerID :: rest =>
      err <- bulkAction action containerID ;;
      bulkLoop action rest (bulkRecord containerID err st)
  end.

(** The handler; [body] is the outcome of [ShouldBindJSON]. *)
Definition bulkHandler (body : Result (list string)) (action : string)
  : Handler BulkResponse BulkResponse :=
  match body with
  | Err err => respond (BulkRefused StatusBadRequest ("Invalid JSON: " +:+ err))
  | Ok containers =>
      e <- call (newClient W) CallNewClient ;;
      match e with
      | Some err =>
          respond (BulkRefused StatusInternalServerError
                     ("Cannot connect to Docker daemon: " +:+ err))
      | None =>
          st <- bulkLoop action containers
                  {| bulkResults := ∅; successCount := 0; errorCount := 0 |} ;;
          ret (BulkDone StatusOK action (bulkResults st)
                 {| total := Z.of_nat (length containers);
                    success := successCount st;
                    errors := errorCount st |})
      end
  end.

End Bulk.

(** The daemon calls one target of a bulk request costs. *)
Definition bulkCalls (action containerID : string) : list Call :=
  if String.eqb action "start" then [CallContainerStart containerID]
  else if String.eqb action "stop" then [CallContainerStop containerID 30]
  else if String.eqb action "remove" then [CallContainerRemove containerID true]
  else if String.eqb action "restart" then [CallContainerRestart containerID 30]
  else [].

(** ** Worlds to run the handlers in *)

(** A daemon that answers every call without error, lists the given
    images and containers whatever was done before, creates every
    container under the id ["c0ffee"], and a clock stopped at [clock]. *)
Definition calmWorld (images : list ImageSummary)
  (containers : list Container) (clock : Z) : World :=
  {| newClient := fun _ => None;
     ping := fun _ => None;
     imageList := fun _ => Ok images;
     imagePull := fun _ _ => None;
     readAll := fun _ => None;
     containerList := fun _ => Ok containers;
     containerCreate := fun _ _ _ _ => Ok "c0ffee";
     containerStart := fun _ _ => None;
     containerStop := fun _ _ _ => None;
     containerRemove := fun _ _ _ => None;
     containerRestart := fun _ _ _ => None;
     now := fun _ => clock |}.

(** [calmWorld], except that listing the containers fails. *)
Definition blindWorld (clock : Z) : World :=
  {| newClient := fun _ => None;
     ping := fun _ => None;
     imageList := fun _ => Ok [];
     imagePull := fun _ _ => None;
     readAll := fun _ => None;
     containerList := fun _ => Err "Cannot connect to the Docker daemon";
     containerCreate := fun _ _ _ _ => Ok "c0ffee";
     containerStart := fun _ _ => None;
     containerStop := fun _ _ _ => None;
     containerRemove := fun _ _ _ => None;
     containerRestart := fun _ _ _ => None;
     now := fun _ => clock |}.

(** [calmWorld], except that every create fails with [msg]. *)
Definition refusingWorld (msg : string) (clock : Z) : World :=
  {| newClient := fun _ => None;
     ping := fun _ => None;
     imageList := fun _ => Ok [];
     imagePull := fun _ _ => None;
     readAll := fun _ => None;
     containerList := fun _ => Ok [];
     containerCreate := fun _ _ _ _ => Err msg;
     containerStart := fun _ _ => None;
     containerStop := fun _ _ _ => None;
     containerRemove := fun _ _ _ => None;
     containerRestart := fun _ _ _ => None;
     now := fun _ => clock |}.

(** [calmWorld] without images and containers, except that the first
    create of a request fails with [msg]. *)
Definition conflictOnceWorld (msg : string) (clock : Z) : World :=
  {| newClient := fun _ => None;
     ping := fun _ => None;
     imageList := fun _ => Ok [];
     imagePull := fun _ _ => None;
     readAll := fun _ => None;
     containerList := fun _ => Ok [];
     containerCreate := fun t _ _ _ =>
       if existsb (fun c => match c with
                            | CallContainerCreate _ _ _ => true
                            | _ => false
                            end) t
       then Ok "c0ffee" else Err msg;
     containerStart := fun _ _ => None;
     containerStop := fun _ _ _ => None;
     containerRemove := fun _ _ _ => None;
     containerRestart := fun _ _ _ => None;
     now := fun _ => clock |}.

(** [calmWorld] without containers, except that stopping or starting the
    container [missing] fails. *)
Definition lackingWorld (missing : string) : World :=
  let answer (id : string) : option string :=
    if String.eqb id missing then Some ("No such container: " +:+ id)
    else None in
  {| newClient := fun _ => None;
     ping := fun _ => None;
     imageList := fun _ => Ok [];
     imagePull := fun _ _ => None;
     readAll := fun _ => None;
     containerList := fun _ => Ok [];
     containerCreate := fun _ _ _ _ => Ok "c0ffee";
     containerStart := fun _ id => answer id;
     containerStop := fun _ id _ => answer id;
     containerRemove := fun _ id _ => answer id;
     containerRestart := fun _ id _ => answer id;
     now := fun _ => 0 |}.

Definition container (id name : string) (publicPorts : list Z) : Container :=
  {| ID := id; Names := [name];
     Ports := map (fun p => {| PrivatePort := 80; PublicPort := p |})
                  publicPorts |}.

Definition request (name image port : string) : CreateContainerRequest :=
  {| Name := name; ReqImage := image; ReqPort := port |}.

(** ** Vocabulary of the properties *)

(** The first three stages of [createHandler]: connect, image, name. *)
Definition preamble (W : World) (req : CreateContainerRequest)
  : Handler Response (string * string) :=
  connect W ;;;
  imageName <- resolveImage W req ;;
  containerName <- resolveName W req ;;
  ret (imageName, containerName).

(** What [createHandler] does once the configuration is known. *)
Definition provision (W : World) (req : CreateContainerRequest)
  (imageName containerName : string) (plan : Config * HostConfig * string)
  : Handler Response Response :=
  let '(cfg, host, actualPortMapping) := plan in
  created <- createContainer W cfg host actualPortMapping containerName ;;
  let '(id, containerName') := created in
  startContainer W req imageName actualPortMapping id containerName'.

(** The calls that create or change a container. *)
Definition mutatesContainer (c : Call) : bool :=
  match c with
  | CallContainerCreate _ _ _ | CallContainerStart _
  | CallContainerStop _ _ | CallContainerRemove _ _
  | CallContainerRestart _ _ => true
  | _ => false
  end.

Definition isCreate (c : Call) : bool :=
  match c with
  | CallContainerCreate _ _ _ => true
  | _ => false
  end.

(** Names without the daemon's leading slash. *)
Definition trimmed (names : list string) : list string :=
  map (fun name => TrimPrefix name "/") names.

(** The names of the listed containers, without the daemon's leading
    slash. *)
Definition existingNames (containers : list Container) : list string :=
  flat_map (fun c => map (fun name => TrimPrefix name "/") (Names c))
           containers.

(** A port the allocator takes as in use when the daemon lists
    [containers]: the hardcoded one, or one a container publishes. *)
Definition portTaken (containers : list Container) (port : Z) : bool :=
  (port =? 8080) || publishes containers port.

(** The text appended by one or more renamings at the given clock
    readings. *)
Fixpoint stamps (readings : list Z) : string :=
  match readings with
  | [] => ""
  | t :: rest => "-" +:+ FormatInt (Unix t) +:+ stamps rest
  end.

(** The configuration of a request with the port mapping
    [hostPort:containerPort]. *)
Definition boundConfig (imageName containerPort : string) : Config :=
  {| Image := imageName; Tty := true;
     ExposedPorts := {[ containerPort +:+ "/tcp" ]} |}.

Definition boundHost (hostPort containerPort : string) : HostConfig :=
  {| PortBindings :=
       {[ containerPort +:+ "/tcp" :=
          [ {| HostIP := "0.0.0.0"; HostPort := hostPort |} ] ]} |}.

(** [h] only adds calls satisfying [P] to the trace. *)
Definition adds {R A : Type} (P : Call -> Prop) (h : Handler R A) : Prop :=
  forall t, exists d, snd (h t) = t ++ d /\ Forall P d.

Definition quiet (c : Call) : Prop := mutatesContainer c = false.

Definition anyCall (c : Call) : Prop := True.

(** The first call [h] adds to the trace is [c]. *)
Definition startsWith {R A : Type} (c : Call) (h : Handler R A) : Prop :=
  forall t, exists rest, snd (h t) = t ++ c :: rest.

(** ** [GET /remove/:id], [POST /images/pull] and the lookups *)

(** Lines 619-631, and the same loop at 451-463 of [GET /stop/:id]: the
    container meant by [containerID].  A container whose ID or whose
    first 12 bytes of ID equal [containerID] ends the loop; a container
    with a name equal to it is remembered in [targetContainer] and the
    loop goes on.  [None] is the run-time panic of [c.ID[:12]] on an ID
    shorter than 12 bytes. *)
Fixpoint findContainer (containers : list Container)
  (containerID targetContainer : string) : option string :=
  match containers with
  | [] => Some targetContainer
  | c :: rest =>
      if String.eqb (ID c) containerID then Some (ID c)
      else if (String.length (ID c) <? 12)%nat then None
      else if String.eqb (slice (ID c) 0 12) containerID then Some (ID c)
      else
        findContainer rest containerID
          (if existsb (fun name => String.eqb (TrimPrefix name "/") containerID)
                      (Names c)
           then ID c else targetContainer)
  end.

(** Lines 503-520 of [GET /start/:id]: the same loop, which also keeps
    the name of the container found. *)
Fixpoint findContainerNamed (containers : list Container)
  (containerID targetContainer targetContainerName : string)
  : option (string * string) :=
  match containers with
  | [] => Some (targetContainer, targetContainerName)
  | c :: rest =>
      let byID :=
        Some (ID c,
              match Names c with
              | name :: _ => TrimPrefix name "/"
              | [] => targetContainerName
              end) in
      if String.eqb (ID c) containerID then byID
      else if (String.length (ID c) <? 12)%nat then None
      else if String.eqb (slice (ID c) 0 12) containerID then byID
      else
        if existsb (fun name => String.eqb (TrimPrefix name "/") containerID)
                   (Names c)
        then findContainerNamed rest containerID (ID c) containerID
        else findContainerNamed rest containerID
               targetContainer targetContainerName
  end.

(** [containerID] names [c]: by ID, by the first 12 bytes of the ID, or by
    one of its names. *)
Definition matchesID (c : Container) (containerID : string) : bool :=
  String.eqb (ID c) containerID || String.eqb (slice (ID c) 0 12) containerID.

Definition matchesName (c : Container) (containerID : string) : bool :=
  existsb (fun name => String.eqb (TrimPrefix name "/") containerID) (Names c).

(** Every listed ID has the 12 bytes that [c.ID[:12]] takes. *)
Definition longIDs (containers : list Container) : Prop :=
  Forall (fun c => (12 <= String.length (ID c))%nat) containers.

Section Remove.

Variable W : World.

(** Lines 594-643. *)
Definition removeHandler (containerID : string) : Handler Response Response :=
  connect W ;;;
  r <- call (containerList W) (CallContainerList true) ;;
  match r with
  | Err err =>
      respond {| status := StatusInternalServerError;
                 body := [("error", "Error listing containers: " +:+ err)] |}
  | Ok containers =>
      match findContainer containers containerID "" with
      | None =>
          (* slice bounds out of range: gin's recovery answers 500 *)
          respond {| status := StatusInternalServerError; body := [] |}
      | Some targetContainer =>
          if String.eqb targetContainer "" then
            respond {| status := 404;
                       body := [("error",
                         "Container not found: " +:+ containerID)] |}
          else
            e <- call (fun t => containerRemove W t targetContainer true)
                      (CallContainerRemove targetContainer true) ;;
            match e with
            | Some err =>
                respond {| status := StatusInternalServerError;
                           body := [("error",
                             "Error removing container: " +:+ err)] |}
            | None =>
                ret {| status := StatusOK;
                       body := [("message",
                         "Container " +:+ containerID
                         +:+ " removed successfully")] |}
            end
      end
  end.

End Remove.

Record ImageRequest := { ImgName : string; ImgTag : string }.

(** Lines 696-699: the reference that [POST /images/pull] pulls. *)
Definition pullReference (req : ImageRequest) : string :=
  if String.eqb (ImgTag req) "" then ImgName req
  else ImgName req +:+ ":" +:+ ImgTag req.

Section Pull.

Variable W : World.

(** Lines 675-724; [body] is the outcome of [ShouldBindJSON]. *)
Definition pullHandler (body : Result ImageRequest)
  : Handler Response Response :=
  match body with
  | Err err =>
      respond {| status := StatusBadRequest;
                 body := [("error", "Invalid JSON format: " +:+ err)] |}
  | Ok req =>
      connect W ;;;
      let imageName := pullReference req in
      if String.eqb imageName "" then
        respond {| status := StatusBadRequest;
                   body := [("error", "Image name is required")] |}
      else
        e <- call (fun t => imagePull W t imageName) (CallImagePull imageName) ;;
        match e with
        | Some err =>
            respond {| status := StatusInternalServerError;
                       body := [("error", "Error pulling image: " +:+ err)] |}
        | None =>
            e <- call (readAll W) CallReadAll ;;
            match e with
            | Some err =>
                respond {| status := StatusInternalServerError;
                           body := [("error",
                             "Error reading pull output: " +:+ err)] |}
            | None =>
                ret {| status := StatusOK;
                       body := [("message", "Image pulled successfully");
                                ("image", imageName)] |}
            end
        end
  end.

End Pull.

(** The fields of [image.Summary] that [DELETE /images/:id] reads. *)
Record LocalImage := { ImageID : string; ImageTags : list string }.

(** Lines 757-784: the image meant by [imageID], [""] when none is. *)
Fixpoint findImage (images : list LocalImage) (imageID : string) : string :=
  match images with
  | [] => ""
  | img :: rest =>
      if String.eqb (ImageID img) imageID
         || String.eqb (ImageID img) ("sha256:" +:+ imageID)
      then ImageID img
      else if HasPrefix (ImageID img) ("sha256:" +:+ imageID)
              || HasPrefix (ImageID img) imageID
      then ImageID img
      else
        let targetImage :=
          if existsb (fun tag => String.eqb tag imageID || Contains tag imageID)
                     (ImageTags img)
          then ImageID img else "" in
        if negb (String.eqb targetImage "") then targetImage
        else findImage rest imageID
  end.

(** [imageID] names [img] by one of the rules of the loop. *)
Definition matchesImage (img : LocalImage) (imageID : string) : bool :=
  HasPrefix (ImageID img) ("sha256:" +:+ imageID)
  || HasPrefix (ImageID img) imageID
  || existsb (fun tag => Contains tag imageID) (ImageTags img).

(** ** [GET /stop/:id], [GET /start/:id] and [DELETE /images/:id] *)

(** The calls of these routes.  [RouteContainerStop] carries the
    [Timeout] of its [StopOptions], [None] for the nil pointer of
    [container.StopOptions{}]. *)
Inductive RouteCall : Type :=
| RouteNewClient
| RoutePing
| RouteContainerList (all : bool)
| RouteContainerInspect (id : string)
| RouteContainerStart (id : string)
| RouteContainerStop (id : string) (timeout : option Z)
| RouteImageRemove (id : string) (force : bool)
| RouteImageList.

(** The daemon as these routes see it; [routeInspect] gives
    [State.Running] of the inspected container. *)
Record RouteWorld := {
  routeNewClient : list RouteCall -> option string;
  routePing : list RouteCall -> option string;
  routeContainerList : list RouteCall -> Result (list Container);
  routeInspect : list RouteCall -> string -> Result bool;
  routeStart : list RouteCall -> string -> option string;
  routeStop : list RouteCall -> string -> option Z -> option string;
  routeImageRemove : list RouteCall -> string -> bool -> option string;
  routeImageList : list RouteCall -> Result (list LocalImage)
}.

Definition Route (R A : Type) : Type :=
  list RouteCall -> Outcome R A * list RouteCall.

Definition routeRet {R A : Type} (a : A) : Route R A :=
  fun t => (Continue a, t).

Definition routeRespond {R A : Type} (r : R) : Route R A :=
  fun t => (Respond r, t).

Definition routeBind {R A B : Type} (m : Route R A) (k : A -> Route R B)
  : Route R B :=
  fun t =>
    match m t with
    | (Respond r, t') => (Respond r, t')
    | (Continue a, t') => k a t'
    end.

Definition routeCall {R A : Type} (answer : list RouteCall -> A)
  (c : RouteCall) : Route R A :=
  fun t => (Continue (answer t), t ++ [c]).

Definition routeServe {R : Type} (h : Route R R) (t : list RouteCall)
  : R * list RouteCall :=
  match h t with
  | (Respond r, t') => (r, t')
  | (Continue r, t') => (r, t')
  end.

Declare Scope route_scope.
Delimit Scope route_scope with route.

Notation "x <- m ;; k" := (routeBind m (fun x => k))
  (at level 100, m at next level, right associativity) : route_scope.

Notation "m ;;; k" := (routeBind m (fun _ => k))
  (at level 100, right associativity) : route_scope.

(** Lines 788-794: the tags and short IDs listed with a 404; [None] is
    the panic of [img.ID[:12]]. *)
Fixpoint availableImages (images : list LocalImage) : option (list string) :=
  match images with
  | [] => Some []
  | img :: rest =>
      if (String.length (ImageID img) <? 12)%nat then None
      else match availableImages rest with
           | None => None
           | Some l => Some (ImageTags img ++ slice (ImageID img) 0 12 :: l)
           end
  end.

(** The response of [DELETE /images/:id]; [available_images] is empty
    except with a 404. *)
Record DeleteResponse :=
  { answer : Response; available_images : list string }.

Section Routes.

Variable W : RouteWorld.

(** The client and the ping, as in [connect]. *)
Definition routeConnect : Route Response unit :=
  (e <- routeCall (routeNewClient W) RouteNewClient ;;
   match e with
   | Some err =>
       routeRespond
         {| status := StatusInternalServerError;
            body := [("error",
              "Cannot connect to Docker daemon. Is Docker running? "
              +:+ err)] |}
   | None =>
       e <- routeCall (routePing W) RoutePing ;;
       match e with
       | Some err =>
           routeRespond
             {| status := StatusInternalServerError;
                body := [("error",
                  "Docker daemon is not accessible: " +:+ err)] |}
       | None => routeRet tt
       end
   end)%route.

(** Lines 426-475. *)
Definition stopHandler (containerID : string) : Route Response Response :=
  (routeConnect ;;;
   r <- routeCall (routeContainerList W) (RouteContainerList true) ;;
   match r with
   | Err err =>
       routeRespond
         {| status := StatusInternalServerError;
            body := [("error", "Error listing containers: " +:+ err)] |}
   | Ok containers =>
       match findContainer containers containerID "" with
       | None =>
           (* slice bounds out of range: gin's recovery answers 500 *)
           routeRespond {| status := StatusInternalServerError; body := [] |}
       | Some targetContainer =>
           if String.eqb targetContainer "" then
             routeRespond
               {| status := 404;
                  body := [("error",
                    "Container not found: " +:+ containerID)] |}
           else
             e <- routeCall (fun t => routeStop W t targetContainer None)
                            (RouteContainerStop targetContainer None) ;;
             match e with
             | Some err =>
                 routeRespond
                   {| status := StatusInternalServerError;
                      body := [("error",
                        "Error stopping container: " +:+ err)] |}
             | None =>
                 routeRet
                   {| status := StatusOK;
                      body := [("message",
                        "Container " +:+ containerID
                        +:+ " stopped successfully")] |}
             end
       end
   end)%route.

(** Lines 477-592. *)
Definition startHandler (containerID : string) : Route Response Response :=
  (routeConnect ;;;
   r <- routeCall (routeContainerList W) (RouteContainerList true) ;;
   match r with
   | Err err =>
       routeRespond
         {| status := StatusInternalServerError;
            body := [("error", "Error listing containers: " +:+ err)] |}
   | Ok containers =>
       match findContainerNamed containers containerID "" "" with
       | None =>
           routeRespond {| status := StatusInternalServerError; body := [] |}
       | Some (targetContainer, targetContainerName) =>
           if String.eqb targetContainer "" then
             routeRespond
               {| status := 404;
                  body := [("error",
                    "Container not found: " +:+ containerID)] |}
           else
             info <- routeCall (fun t => routeInspect W t targetContainer)
                               (RouteContainerInspect targetContainer) ;;
             match info with
             | Err err =>
                 routeRespond
                   {| status := StatusInternalServerError;
                      body := [("error",
                        "Error inspecting container: " +:+ err)] |}
             | Ok true =>
                 routeRespond
                   {| status := StatusConflict;
                      body := [("error",
                        "Container '" +:+ targetContainerName
                        +:+ "' is already running");
                        ("current_status", "running")] |}
             | Ok false =>
                 e <- routeCall (fun t => routeStart W t targetContainer)
                                (RouteContainerStart targetContainer) ;;
                 match e with
                 | Some errorDetails =>
                     routeRespond
                       (startFailureResponse errorDetails targetContainerName)
                 | None =>
                     if (String.length targetContainer <? 12)%nat then
                       (* [targetContainer[:12]] out of range *)
                       routeRespond
                         {| status := StatusInternalServerError; body := [] |}
                     else
                       routeRet
                         {| status := StatusOK;
                            body := [("container_id",
                                      slice targetContainer 0 12);
                                     ("container_name",
                                      targetContainerName)] |}
                 end
             end
       end
   end)%route.

(** Lines 726-810. *)
Definition deleteImageHandler (imageID : string)
  : Route DeleteResponse DeleteResponse :=
  let plain (r : Response) : DeleteResponse :=
    {| answer := r; available_images := [] |} in
  let removed : DeleteResponse :=
    plain {| status := StatusOK;
             body := [("message",
               "Image " +:+ imageID +:+ " removed successfully")] |} in
  (e <- routeCall (routeNewClient W) RouteNewClient ;;
   match e with
   | Some err =>
       routeRespond
         (plain {| status := StatusInternalServerError;
                   body := [("error",
                     "Cannot connect to Docker daemon. Is Docker running? "
                     +:+ err)] |})
   | None =>
   e <- routeCall (routePing W) RoutePing ;;
   match e with
   | Some err =>
       routeRespond
         (plain {| status := StatusInternalServerError;
                   body := [("error",
                     "Docker daemon is not accessible: " +:+ err)] |})
   | None =>
   e <- routeCall (fun t => routeImageRemove W t imageID true)
                  (RouteImageRemove imageID true) ;;
   match e with
   | None => routeRet removed
   | Some _ =>
       r <- routeCall (routeImageList W) RouteImageList ;;
       match r with
       | Err err =>
           routeRespond
             (plain {| status := StatusInternalServerError;
                       body := [("error",
                         "Error listing images: " +:+ err)] |})
       | Ok images =>
           let targetImage := findImage images imageID in
           if String.eqb targetImage "" then
             match availableImages images with
             | None =>
                 routeRespond
                   (plain {| status := StatusInternalServerError;
                             body := [] |})
             | Some available =>
                 routeRespond
                   {| answer :=
                        {| status := 404;
                           body := [("error",
                             "Image not found: " +:+ imageID)] |};
                      available_images := available |}
             end
           else
             e <- routeCall (fun t => routeImageRemove W t targetImage true)
                            (RouteImageRemove targetImage true) ;;
             match e with
             | Some err =>
                 routeRespond
                   (plain {| status := StatusInternalServerError;
                             body := [("error",
                               "Error removing image: " +:+ err)] |})
             | None => routeRet removed
             end
       end
   end end end)%route.

End Routes.

(** A daemon for these routes that answers every call without error and
    lists the given containers and images; [running] are the IDs of the
    containers that are running, and removing the image [busy] fails. *)
Definition calmRoutes (containers : list Container)
  (images : list LocalImage) (running : list string) (busy : string)
  : RouteWorld :=
  {| routeNewClient := fun _ => None;
     routePing := fun _ => None;
     routeContainerList := fun _ => Ok containers;
     routeInspect := fun _ id =>
       Ok (existsb (String.eqb id) running);
     routeStart := fun _ _ => None;
     routeStop := fun _ _ _ => None;
     routeImageRemove := fun _ id _ =>
       if String.eqb id busy then Some ("No such image: " +:+ id) else None;
     routeImageList := fun _ => Ok images |}.

Definition isImageRemove (c : RouteCall) : bool :=
  match c with
  | RouteImageRemove _ _ => true
  | _ => false
  end.

(** The counters of [GET /stats]: [running], [stopped], [paused]. *)
Record StateCounts := { running : Z; stopped : Z; paused : Z }.

(** Lines 926-933: the [switch] on one container's [State]. *)
Definition countState (state : string) (k : StateCounts) : StateCounts :=
  if String.eqb state "running" then
    {| running := wrapInt (running k + 1); stopped := stopped k;
       paused := paused k |}
  else if String.eqb state "exited" || String.eqb state "created" then
    {| running := running k; stopped := wrapInt (stopped k + 1);
       paused := paused k |}
  else if String.eqb state "paused" then
    {| running := running k; stopped := stopped k;
       paused := wrapInt (paused k + 1) |}
  else k.

(** Lines 925-934: the loop over the containers, of which it reads the
    [State] only; [states] are the states of the containers in order. *)
Definition countStates (states : list string) : StateCounts :=
  fold_left (fun k state => countState state k) states
            {| running := 0; stopped := 0; paused := 0 |}.

Definition countedState (state : string) : bool :=
  String.eqb state "running" || String.eqb state "exited"
  || String.eqb state "created" || String.eqb state "paused".

(** The error, if any, in the answer of the world to the call [c] made
    at the trace [t]; the clock never fails. *)
Definition errorOf (W : World) (t : Trace) (c : Call) : option string :=
  match c with
  | CallNewClient => newClient W t
  | CallPing => ping W t
  | CallImageList =>
      match imageList W t with Err err => Some err | Ok _ => None end
  | CallImagePull ref => imagePull W t ref
  | CallReadAll => readAll W t
  | CallContainerList _ =>
      match containerList W t with Err err => Some err | Ok _ => None end
  | CallContainerCreate cfg host name =>
      match containerCreate W t cfg host name with
      | Err err => Some err
      | Ok _ => None
      end
  | CallContainerStart id => containerStart W t id
  | CallContainerStop id timeout => containerStop W t id timeout
  | CallContainerRemove id force => containerRemove W t id force
  | CallContainerRestart id timeout => containerRestart W t id timeout
  | CallNow => None
  end.

(** What the daemon itself answers to the calls of a bulk request, read
    from the world and not from the handler: the errors of its answers to
    the calls for the targets, in the order of the targets, the first
    call being made at the trace [t]. *)
Fixpoint bulkAnswers (W : World) (action : string) (containers : list string)
  (t : Trace) : list (option string) :=
  match containers with
  | [] => []
  | containerID :: rest =>
      map (errorOf W t) (bulkCalls action containerID)
      ++ bulkAnswers W action rest (t ++ bulkCalls action containerID)
  end.

(** The entry of [results] for an answer. *)
Definition bulkOutcome (err : option string) : BulkOutcome :=
  match err with
  | Some msg => {| outcomeStatus := "error"; outcomeMessage := Some msg |}
  | None => {| outcomeStatus := "success"; outcomeMessage := None |}
  end.

Definition isStart (c : Call) : bool :=
  match c with
  | CallContainerStart _ => true
  | _ => false
  end.

Definition knownAction (action : string) : bool :=
  String.eqb action "start" || String.eqb action "stop"
  || String.eqb action "remove" || String.eqb action "restart".

(** Lines 93-96: the image of a request, defaulted. *)
Definition requestedImage (req : CreateContainerRequest) : string :=
  if String.eqb (ReqImage req) "" then "nginx:latest" else ReqImage req.

(** The listing of the images lets [resolveImage] skip the pull: it
    failed, or one of the listed tags is the image. *)
Definition pullSkipped (listing : Result (list ImageSummary))
  (imageName : string) : Prop :=
  match listing with
  | Err _ => True
  | Ok images => In imageName (flat_map RepoTags images)
  end.

(** An answer of the daemon without error. *)
Definition succeeded (err : option string) : bool :=
  match err with
  | None => true
  | Some _ => false
  end.

(** Every response [h] writes itself satisfies [Q]. *)
Definition answers {R A : Type} (Q : R -> Prop) (h : Handler R A) : Prop :=
  forall t r t', h t = (Respond r, t') -> Q r.

(** A response that refuses the request. *)
Definition refusal (r : Response) : Prop :=
  status r = StatusBadRequest \/ status r = StatusConflict
  \/ status r = StatusInternalServerError.

(** ** Facts about the string functions *)

#[local] Arguments String.append !s1 s2 : simpl nomatch.

Example Split_two : Split "8080:80" ":"%char = ["8080"; "80"].
Proof. reflexivity. Qed.

Example Split_one : Split "8080" ":"%char = ["8080"].
Proof. reflexivity. Qed.

Example Split_three : Split "1:2:3" ":"%char = ["1"; "2"; "3"].
Proof. reflexivity. Qed.

Example Split_empty : Split "" ":"%char = [""].
Proof. reflexivity. Qed.

Example Atoi_plain : Atoi "9001" = Some 9001.
Proof. reflexivity. Qed.

Example Atoi_signed : Atoi "-5" = Some (-5) /\ Atoi "+80" = Some 80.
Proof. split; reflexivity. Qed.

Example Atoi_letters : Atoi "http" = None.
Proof. reflexivity. Qed.

Example Atoi_empty : Atoi "" = None /\ Atoi "-" = None.
Proof. split; reflexivity. Qed.

Example Atoi_too_large : Atoi "9223372036854775808" = None.
Proof. reflexivity. Qed.

Example Index_first : Index "a:b:c" ":" = 1.
Proof. reflexivity. Qed.

Example Index_missing : Index "abc" ":" = -1.
Proof. reflexivity. Qed.

Example Itoa_8081 : Itoa 8081 = "8081" /\ Itoa (-12) = "-12" /\ Itoa 0 = "0".
Proof. repeat split; reflexivity. Qed.

Example TrimPrefix_name :
  TrimPrefix "/web" "/" = "web" /\ TrimPrefix "web" "/" = "web".
Proof. split; reflexivity. Qed.

Lemma append_assoc (a b c : string) : (a +:+ b) +:+ c = a +:+ (b +:+ c).
Proof. induction a as [|x a IH]; simpl; [reflexivity | now rewrite IH]. Qed.

Lemma append_empty_r (a : string) : a +:+ "" = a.
Proof. induction a as [|x a IH]; simpl; [reflexivity | now rewrite IH]. Qed.

Lemma length_append (a b : string) :
  String.length (a +:+ b) = (String.length a + String.length b)%nat.
Proof. induction a as [|x a IH]; simpl; [reflexivity | now rewrite IH]. Qed.

Lemma prefix_append (a b : string) : String.prefix a (a +:+ b) = true.
Proof.
  induction a as [|x a IH]; simpl.
  - now destruct b.
  - destruct (ascii_dec x x); [exact IH | congruence].
Qed.

Lemma prefix_split (p s : string) :
  String.prefix p s = true -> exists rest, s = p +:+ rest.
Proof.
  revert s. induction p as [|x p IH]; intros s H.
  - exists s. reflexivity.
  - destruct s as [|y s]; simpl in H; [discriminate |].
    destruct (ascii_dec x y) as [->|]; [| discriminate].
    destruct (IH s H) as [rest ->]. exists rest. reflexivity.
Qed.

Lemma dropBytes_append (a b : string) : dropBytes (String.length a) (a +:+ b) = b.
Proof. induction a as [|x a IH]; simpl; [now destruct b | exact IH]. Qed.

Lemma substring_append_skip (a s : string) (n : nat) :
  String.substring (String.length a) n (a +:+ s) = String.substring 0 n s.
Proof. induction a as [|x a IH]; simpl; [reflexivity | exact IH]. Qed.

Lemma indexFrom_split (s p : string) (n : nat) :
  indexFrom s p = Some n ->
  exists pre rest, s = pre +:+ p +:+ rest /\ String.length pre = n.
Proof.
  revert n. induction s as [|x s IH]; intros n H.
  - cbn [indexFrom] in H. destruct (String.prefix p "") eqn:E; [| discriminate].
    injection H as <-. destruct (prefix_split _ _ E) as [rest Hr].
    exists "", rest. split; [exact Hr | reflexivity].
  - cbn [indexFrom] in H. destruct (String.prefix p (String x s)) eqn:E.
    + injection H as <-. destruct (prefix_split _ _ E) as [rest Hr].
      exists "", rest. split; [exact Hr | reflexivity].
    + destruct (indexFrom s p) as [m|] eqn:Em; [| discriminate].
      injection H as <-. destruct (IH m eq_refl) as (pre & rest & -> & Hl).
      exists (String x pre), rest. split; [reflexivity | simpl; now rewrite Hl].
Qed.

Lemma Contains_Index (s p : string) :
  Contains s p = true -> exists n, indexFrom s p = Some n /\ Index s p = Z.of_nat n.
Proof.
  unfold Contains, Index. destruct (indexFrom s p) as [n|].
  - intros _. exists n. split; reflexivity.
  - intros H. apply Z.leb_le in H. lia.
Qed.

Lemma TrimPrefix_slash (name : string) : TrimPrefix ("/" +:+ name) "/" = name.
Proof. unfold TrimPrefix, HasPrefix. simpl. now destruct name. Qed.

Lemma substring_prefix (a b : string) :
  String.substring 0 (String.length a) (a +:+ b) = a.
Proof.
  induction a as [|x a IH]; simpl; [now destruct b | now rewrite IH].
Qed.

Lemma prefix_cons (a b : ascii) (s1 s2 : string) :
  String.prefix (String a s1) (String b s2)
  = if ascii_dec a b then String.prefix s1 s2 else false.
Proof. reflexivity. Qed.

Lemma indexFrom_cons (x : ascii) (s p : string) :
  indexFrom (String x s) p
  = if String.prefix p (String x s) then Some O
    else match indexFrom s p with
         | Some n => Some (S n)
         | None => None
         end.
Proof. reflexivity. Qed.

Lemma indexFrom_colon (port rest : string) :
  indexFrom port ":" = None ->
  indexFrom (port +:+ ":" +:+ rest) ":" = Some (String.length port).
Proof.
  induction port as [|x port IH]; intros H.
  - change ("" +:+ ":" +:+ rest) with (String ":" rest).
    rewrite indexFrom_cons, prefix_cons.
    destruct (ascii_dec ":" ":"); [now destruct rest | congruence].
  - change (String x port +:+ ":" +:+ rest)
      with (String x (port +:+ ":" +:+ rest)).
    rewrite indexFrom_cons, prefix_cons in *.
    destruct (ascii_dec ":" x) as [E|E].
    + now destruct port.
    + destruct (indexFrom port ":") eqn:Ep; [discriminate |].
      now rewrite (IH eq_refl).
Qed.

(** ** The port read from a start failure *)

(** When the first ["0.0.0.0:"] of the message is followed by [port] and a
    colon, and [port] is not empty and has no colon, [port] is extracted. *)
Lemma extractConflictPort_first_marker (pre port rest : string) :
  Index (pre +:+ "0.0.0.0:" +:+ port +:+ ":" +:+ rest) "0.0.0.0:"
    = Z.of_nat (String.length pre) ->
  indexFrom port ":" = None ->
  port <> "" ->
  extractConflictPort (pre +:+ "0.0.0.0:" +:+ port +:+ ":" +:+ rest) = port.
Proof.
  intros Hi Hc Hne. unfold extractConflictPort, Contains. rewrite Hi.
  replace (0 <=? Z.of_nat (String.length pre)) with true
    by (symmetry; apply Z.leb_le; lia).
  unfold sliceFrom, slice.
  replace (Z.to_nat (Z.of_nat (String.length pre) + 8))
    with (String.length (pre +:+ "0.0.0.0:"))
    by (rewrite length_append; simpl; lia).
  rewrite <- (append_assoc pre "0.0.0.0:").
  rewrite dropBytes_append.
  unfold Index at 1 2. rewrite (indexFrom_colon port rest Hc).
  assert (Hlen : (0 < String.length port)%nat)
    by (destruct port; [congruence | simpl; lia]).
  replace (0 <? Z.of_nat (String.length port)) with true
    by (symmetry; apply Z.ltb_lt; lia).
  match goal with
  | |- String.substring _ (Z.to_nat ?k) _ = _ =>
      replace (Z.to_nat k) with (String.length port) by lia
  end.
  rewrite substring_append_skip. apply substring_prefix.
Qed.

(** The slices of [extractConflictPort] stay inside the message, so the
    Go code cannot panic there. *)
Lemma extractConflictPort_in_bounds (msg : string) :
  Contains msg "0.0.0.0:" = true ->
  0 <= Index msg "0.0.0.0:" + 8 <= Z.of_nat (String.length msg).
Proof.
  intros H. destruct (Contains_Index _ _ H) as (n & Hn & ->).
  destruct (indexFrom_split _ _ _ Hn) as (pre & rest & -> & <-).
  rewrite !length_append. simpl. lia.
Qed.

Lemma indexFrom_bound (s p : string) (n : nat) :
  indexFrom s p = Some n -> (n + String.length p <= String.length s)%nat.
Proof.
  intros H. destruct (indexFrom_split _ _ _ H) as (pre & rest & -> & <-).
  rewrite !length_append. lia.
Qed.

Lemma length_dropBytes (n : nat) (s : string) :
  String.length (dropBytes n s) = (String.length s - n)%nat.
Proof.
  revert s. induction n as [|n IH]; intros [|x s]; simpl; auto.
Qed.

(** The second slice, [errorDetails[start : start+end]], too. *)
Lemma extractConflictPort_end_in_bounds (msg : string) :
  Contains msg "0.0.0.0:" = true ->
  0 < Index (sliceFrom msg (Index msg "0.0.0.0:" + 8)) ":" ->
  Index msg "0.0.0.0:" + 8
  + Index (sliceFrom msg (Index msg "0.0.0.0:" + 8)) ":"
  < Z.of_nat (String.length msg).
Proof.
  intros H. pose proof (extractConflictPort_in_bounds msg H) as Hb.
  unfold sliceFrom.
  set (start := Index msg "0.0.0.0:" + 8) in *.
  unfold Index.
  destruct (indexFrom (dropBytes (Z.to_nat start) msg) ":") as [n|] eqn:E;
    [| lia].
  intros _. apply indexFrom_bound in E. rewrite length_dropBytes in E.
  simpl in E. lia.
Qed.

Lemma extractConflictPort_9001 (msg : string) :
  Contains msg "0.0.0.0:9001:" = true ->
  Index msg "0.0.0.0:" = Index msg "0.0.0.0:9001:" ->
  extractConflictPort msg = "9001".
Proof.
  intros Hc Hi. destruct (Contains_Index _ _ Hc) as (n & Hn & Hz).
  rewrite Hz in Hi.
  destruct (indexFrom_split _ _ _ Hn) as (pre & rest & -> & <-).
  change (pre +:+ "0.0.0.0:9001:" +:+ rest)
    with (pre +:+ "0.0.0.0:" +:+ "9001" +:+ ":" +:+ rest) in *.
  apply extractConflictPort_first_marker; [exact Hi | reflexivity | discriminate].
Qed.

(** C8, as amended.  A start failure whose message contains
    ["bind host port"] and ["0.0.0.0:9001:"], and in which that occurrence
    is the first ["0.0.0.0:"] of the message, is classified as a port
    conflict with the conflicting port ["9001"], by the create handler and
    by [GET /start/:id] alike. *)
Theorem start_failure_first_marker_9001 (msg name : string) :
  Contains msg "bind host port" = true ->
  Contains msg "0.0.0.0:9001:" = true ->
  Index msg "0.0.0.0:" = Index msg "0.0.0.0:9001:" ->
  classifyStartFailure msg = ("port_binding_failed", "9001") /\
  startFailureResponse msg name
    = {| status := StatusConflict;
         body := [("conflict_type", "port_conflict");
                  ("port_in_conflict", "9001")] |}.
Proof.
  intros Hb Hc Hi. unfold classifyStartFailure, startFailureResponse.
  rewrite Hb, (extractConflictPort_9001 msg Hc Hi). split; reflexivity.
Qed.

Lemma start_failure_first_marker_9001_witness :
  classifyStartFailure
    "failed to bind host port for 0.0.0.0:9001:172.17.0.2:80/tcp: address already in use"
    = ("port_binding_failed", "9001") /\
  startFailureResponse
    "failed to bind host port for 0.0.0.0:9001:172.17.0.2:80/tcp: address already in use"
    "web"
    = {| status := StatusConflict;
         body := [("conflict_type", "port_conflict");
                  ("port_in_conflict", "9001")] |}.
Proof.
  apply start_failure_first_marker_9001; reflexivity.
Defined.

(** C8 as stated fails: a message with both substrings whose first
    ["0.0.0.0:"] is an earlier one yields another text. *)
Lemma start_failure_earlier_marker :
  Contains "proxy 0.0.0.0:80 gone; failed to bind host port for 0.0.0.0:9001:172.17.0.2:80/tcp"
           "bind host port" = true /\
  Contains "proxy 0.0.0.0:80 gone; failed to bind host port for 0.0.0.0:9001:172.17.0.2:80/tcp"
           "0.0.0.0:9001:" = true /\
  classifyStartFailure
    "proxy 0.0.0.0:80 gone; failed to bind host port for 0.0.0.0:9001:172.17.0.2:80/tcp"
    = ("port_binding_failed", "80 gone; failed to bind host port for 0.0.0.0") /\
  snd (classifyStartFailure
    "proxy 0.0.0.0:80 gone; failed to bind host port for 0.0.0.0:9001:172.17.0.2:80/tcp")
    <> "9001".
Proof.
  repeat split; try reflexivity. vm_compute. discriminate.
Qed.

(** ** Which calls the stages add to the trace *)

Section Adds.

Context {R : Type} (P : Call -> Prop).

Lemma adds_ret {A : Type} (a : A) : adds P (@ret R A a).
Proof. intros t. exists []. simpl. rewrite app_nil_r. auto. Qed.

Lemma adds_respond {A : Type} (r : R) : adds P (@respond R A r).
Proof. intros t. exists []. simpl. rewrite app_nil_r. auto. Qed.

Lemma adds_call {A : Type} (answer : Trace -> A) (c : Call) :
  P c -> adds P (@call R A answer c).
Proof. intros Hc t. exists [c]. simpl. auto. Qed.

Lemma adds_bind {A B : Type} (m : Handler R A) (k : A -> Handler R B) :
  adds P m -> (forall a, adds P (k a)) -> adds P (bind m k).
Proof.
  intros Hm Hk t. unfold bind. destruct (Hm t) as (d & Hd & HP).
  destruct (m t) as [[r|a] t1]; simpl in Hd; subst t1.
  - exists d. auto.
  - destruct (Hk a (t ++ d)) as (d' & Hd' & HP').
    exists (d ++ d'). rewrite Hd', app_assoc. split; [reflexivity |].
    apply Forall_app; auto.
Qed.

End Adds.

Create HintDb adds discriminated.

Ltac adds_steps :=
  repeat first
    [ solve [auto with adds nocore]
    | apply adds_ret
    | apply adds_respond
    | apply adds_call; first [reflexivity | exact I]
    | apply adds_bind; [| intros ?]
    | match goal with
      | |- adds _ (match ?x with _ => _ end) => destruct x
      | |- adds _ (let '(_, _) := ?x in _) => destruct x
      end ].

Lemma adds_connect (W : World) : adds quiet (connect W).
Proof. unfold connect. adds_steps. Qed.

Lemma adds_resolveImage (W : World) (req : CreateContainerRequest) :
  adds quiet (resolveImage W req).
Proof. unfold resolveImage. adds_steps. Qed.

Lemma adds_renameOnConflict (W : World) (names : list string) (n : string) :
  adds quiet (renameOnConflict W names n).
Proof. induction names as [|x names IH]; simpl; adds_steps. Qed.

#[local] Hint Resolve adds_connect adds_resolveImage adds_renameOnConflict
  : adds.

Lemma adds_renameOverContainers (W : World) (cs : list Container) :
  forall n, adds quiet (renameOverContainers W cs n).
Proof. induction cs as [|c cs IH]; intros n; simpl; adds_steps. Qed.

#[local] Hint Resolve adds_renameOverContainers : adds.

Lemma adds_resolveName (W : World) (req : CreateContainerRequest) :
  adds quiet (resolveName W req).
Proof. unfold resolveName. adds_steps. Qed.

#[local] Hint Resolve adds_resolveName : adds.

Lemma adds_preamble (W : World) (req : CreateContainerRequest) :
  adds quiet (preamble W req).
Proof. unfold preamble. adds_steps. Qed.

Lemma adds_isPortInUse (W : World) (port : Z) : adds quiet (isPortInUse W port).
Proof. unfold isPortInUse. adds_steps. Qed.

#[local] Hint Resolve adds_isPortInUse : adds.

Lemma adds_scanPorts (W : World) (n : nat) :
  forall i, adds quiet (scanPorts W n i).
Proof. induction n as [|n IH]; intros i; simpl; adds_steps. Qed.

#[local] Hint Resolve adds_scanPorts : adds.

Lemma adds_findHostPort (W : World) (requested : string) (p : Z) :
  adds quiet (findHostPort W requested p).
Proof. unfold findHostPort, scanRange. adds_steps. Qed.

#[local] Hint Resolve adds_findHostPort adds_preamble : adds.

Lemma adds_configure (W : World) (req : CreateContainerRequest) (i : string) :
  adds quiet (configure W req i).
Proof. unfold configure. adds_steps. Qed.

(** ** The stages of [createHandler] *)

Lemma createHandler_stages (W : World) (req : CreateContainerRequest)
  (t : Trace) :
  createHandler W (Ok req) t
  = bind (preamble W req)
         (fun names =>
            plan <- configure W req (fst names) ;;
            provision W req (fst names) (snd names) plan) t.
Proof.
  unfold createHandler, preamble, provision, bind, ret.
  destruct (connect W t) as [[r|[]] t1]; [reflexivity |].
  destruct (resolveImage W req t1) as [[r|i] t2]; [reflexivity |].
  destruct (resolveName W req t2) as [[r|n] t3]; [reflexivity |].
  simpl. destruct (configure W req i t3) as [[r|[[cfg host] m]] t4];
    reflexivity.
Qed.

Lemma serve_createHandler (W : World) (req : CreateContainerRequest)
  (i n : string) (t1 : Trace) :
  preamble W req [] = (Continue (i, n), t1) ->
  serve (createHandler W (Ok req)) []
  = serve (plan <- configure W req i ;; provision W req i n plan) t1.
Proof.
  intros Hp. unfold serve. rewrite createHandler_stages.
  unfold bind at 1. rewrite Hp. reflexivity.
Qed.

Lemma Split_nonempty_request (s h c : string) :
  Split s ":"%char = [h; c] -> String.eqb s "" = false.
Proof. destruct s; [discriminate | reflexivity]. Qed.

Lemma snd_serve {R : Type} (h : Handler R R) (t : Trace) :
  snd (serve h t) = snd (h t).
Proof. unfold serve. now destruct (h t) as [[r|r] t']. Qed.

Lemma startsWith_call {R A B : Type} (answer : Trace -> A) (c : Call)
  (k : A -> Handler R B) :
  (forall a, adds anyCall (k a)) -> startsWith c (bind (call answer c) k).
Proof.
  intros Hk t. unfold bind, call.
  destruct (Hk (answer t) (t ++ [c])) as (d & Hd & _).
  exists d. rewrite Hd, <- app_assoc. reflexivity.
Qed.

Lemma startsWith_bind {R A B : Type} (c : Call) (m : Handler R A)
  (k : A -> Handler R B) :
  startsWith c m -> (forall a, adds anyCall (k a)) ->
  startsWith c (bind m k).
Proof.
  intros Hm Hk t. unfold bind. destruct (Hm t) as (rest & Hr).
  destruct (m t) as [[r|a] t1]; simpl in Hr; subst t1.
  - exists rest. reflexivity.
  - destruct (Hk a (t ++ c :: rest)) as (d & Hd & _).
    exists (rest ++ d). rewrite Hd, <- app_assoc. reflexivity.
Qed.

Lemma adds_startContainer (W : World) (req : CreateContainerRequest)
  (i m id n : string) : adds anyCall (startContainer W req i m id n).
Proof. unfold startContainer. adds_steps. Qed.

(** The first call of the last two stages is the create call. *)
Lemma provision_first_call (W : World) (req : CreateContainerRequest)
  (i n m : string) (cfg : Config) (host : HostConfig) :
  startsWith (CallContainerCreate cfg host n)
             (provision W req i n (cfg, host, m)).
Proof.
  unfold provision. apply startsWith_bind.
  - unfold createContainer. apply startsWith_call. intros a. adds_steps.
  - intros [id n']. apply adds_startContainer.
Qed.

(** A request whose port mapping parses and whose host port search gives
    [final] goes on to create the container bound to [final]. *)
Lemma createHandler_binds (W : World) (req : CreateContainerRequest)
  (i n h c final : string) (p : Z) (t1 t2 : Trace) :
  preamble W req [] = (Continue (i, n), t1) ->
  Split (ReqPort req) ":"%char = [h; c] ->
  Atoi h = Some p ->
  findHostPort W h p t1 = (Continue final, t2) ->
  exists rest,
    snd (serve (createHandler W (Ok req)) [])
    = t2 ++ CallContainerCreate (boundConfig i c) (boundHost final c) n :: rest.
Proof.
  intros Hp Hs Ha Hf. rewrite (serve_createHandler W req i n t1 Hp).
  destruct (provision_first_call W req i n (final +:+ ":" +:+ c)
              (boundConfig i c) (boundHost final c) t2) as [rest Hr].
  exists rest. rewrite <- Hr, snd_serve. unfold bind at 1, configure.
  rewrite (Split_nonempty_request _ _ _ Hs), Hs, Ha.
  unfold bind at 1. rewrite Hf. reflexivity.
Qed.

(** ** The port mapping of a request *)

(** A port mapping that does not split into two parts is ignored: no
    call, no binding, and the handler goes on. *)
Lemma port_spec_not_two_parts_ignored (W : World)
  (req : CreateContainerRequest) (i : string) (t : Trace) :
  length (Split (ReqPort req) ":"%char) <> 2%nat ->
  configure W req i t
  = (Continue ({| Image := i; Tty := true; ExposedPorts := ∅ |},
               {| PortBindings := ∅ |}, "none"), t).
Proof.
  intros H. unfold configure.
  destruct (String.eqb (ReqPort req) ""); [reflexivity |].
  destruct (Split (ReqPort req) ":"%char) as [|a [|b [|c l]]];
    simpl in H; try reflexivity; congruence.
Qed.

(** Whatever the daemon answers, a request whose host port does not parse
    never reaches a call that creates or changes a container. *)
Lemma invalid_host_port_never_mutates (W : World)
  (req : CreateContainerRequest) (h c : string) :
  Split (ReqPort req) ":"%char = [h; c] ->
  Atoi h = None ->
  Forall quiet (snd (serve (createHandler W (Ok req)) [])).
Proof.
  intros Hs Ha. rewrite snd_serve, createHandler_stages. unfold bind at 1.
  destruct (adds_preamble W req []) as (d & Hd & Hq).
  destruct (preamble W req []) as [[r|names] t1]; simpl in Hd; subst t1;
    [exact Hq |].
  unfold bind at 1, configure.
  rewrite (Split_nonempty_request _ _ _ Hs), Hs, Ha. exact Hq.
Qed.

(** C2, as amended.  A port mapping that splits on [:] into exactly two
    parts and whose host part [strconv.Atoi] rejects is answered with 400
    as soon as the connection, the image and the name are settled, and no
    call made for the request creates or changes a container. *)
Theorem invalid_host_port_rejected (W : World)
  (req : CreateContainerRequest) (h c i n : string) (t1 : Trace) :
  Split (ReqPort req) ":"%char = [h; c] ->
  Atoi h = None ->
  preamble W req [] = (Continue (i, n), t1) ->
  serve (createHandler W (Ok req)) []
  = ({| status := StatusBadRequest;
        body := [("error", "Invalid host port: " +:+ h)] |}, t1)
  /\ Forall quiet t1.
Proof.
  intros Hs Ha Hp. split.
  - rewrite (serve_createHandler W req i n t1 Hp).
    unfold serve, bind at 1, configure.
    rewrite (Split_nonempty_request _ _ _ Hs), Hs, Ha. reflexivity.
  - destruct (adds_preamble W req []) as (d & Hd & Hq).
    rewrite Hp in Hd. simpl in Hd. subst t1. exact Hq.
Qed.

Lemma invalid_host_port_rejected_witness :
  serve (createHandler (calmWorld [] [] 0)
           (Ok (request "web" "nginx:latest" "http:80"))) []
  = ({| status := StatusBadRequest;
        body := [("error", "Invalid host port: http")] |},
     [CallNewClient; CallPing; CallImageList; CallImagePull "nginx:latest";
      CallReadAll; CallContainerList true])
  /\ Forall quiet
       [CallNewClient; CallPing; CallImageList; CallImagePull "nginx:latest";
        CallReadAll; CallContainerList true].
Proof.
  apply (invalid_host_port_rejected (calmWorld [] [] 0)
           (request "web" "nginx:latest" "http:80") "http" "80"
           "nginx:latest" "web"); reflexivity.
Defined.

(** C2 as stated fails: the port mapping ["80"] has one part, and the
    request is answered 200 after a create and a start. *)
Lemma port_spec_one_part_is_created :
  length (Split "80" ":"%char) <> 2%nat /\
  status (fst (serve (createHandler (calmWorld [] [] 0)
                        (Ok (request "web" "nginx:latest" "80"))) []))
  = StatusOK /\
  snd (serve (createHandler (calmWorld [] [] 0)
                (Ok (request "web" "nginx:latest" "80"))) [])
  = [CallNewClient; CallPing; CallImageList; CallImagePull "nginx:latest";
     CallReadAll; CallContainerList true;
     CallContainerCreate
       {| Image := "nginx:latest"; Tty := true; ExposedPorts := ∅ |}
       {| PortBindings := ∅ |} "web";
     CallContainerStart "c0ffee"].
Proof.
  split; [simpl; lia |]. split; reflexivity.
Qed.

(** ** The name of the container *)

(** C3, as amended.  Without a name in the request the container is named
    ["my-container-"] followed by the Unix time in seconds. *)
Theorem unnamed_request_name (W : World) (req : CreateContainerRequest)
  (t : Trace) :
  Name req = "" ->
  resolveName W req t
  = (Continue ("my-container-" +:+ FormatInt (Unix (now W t))),
     t ++ [CallNow]).
Proof. intros H. unfold resolveName. rewrite H. reflexivity. Qed.

Lemma unnamed_request_name_witness :
  resolveName (calmWorld [] [] 1700000000123456789)
              (request "" "nginx:latest" "") []
  = (Continue "my-container-1700000000", [CallNow]).
Proof.
  apply (unnamed_request_name (calmWorld [] [] 1700000000123456789)
           (request "" "nginx:latest" "") []).
  reflexivity.
Defined.

(** C3 as stated fails: the name does not start with ["container-"]. *)
Lemma unnamed_request_name_not_container_prefix :
  fst (resolveName (calmWorld [] [] 1700000000123456789)
                   (request "" "nginx:latest" "") [])
  <> Continue ("container-" +:+ FormatInt (Unix 1700000000123456789)).
Proof. vm_compute. discriminate. Qed.

(** ** The availability check *)

Lemma isPortInUse_listed (W : World) (p : Z) (cs : list Container)
  (t : Trace) :
  containerList W t = Ok cs ->
  isPortInUse W p t
  = if p =? 8080 then (Continue true, t)
    else (Continue (publishes cs p), t ++ [CallContainerList true]).
Proof.
  intros H. unfold isPortInUse. destruct (p =? 8080); [reflexivity |].
  unfold bind, call. rewrite H. reflexivity.
Qed.

(** C1.  The service listens on 8081, and the availability check reports
    8081 as free when no container publishes it: the port compared with
    is 8080. *)
Theorem listen_port_reported_free :
  listenPort = Some 8081 /\
  isPortInUse (calmWorld [] [] 0) 8081 []
  = (Continue false, [CallContainerList true]) /\
  fst (serve (createHandler (calmWorld [] [] 0)
                (Ok (request "web" "nginx:latest" "8081:80"))) [])
  = {| status := StatusOK;
       body := [("id", "c0ffee"); ("name", "web");
                ("image", "nginx:latest"); ("port", "8081:80")] |}.
Proof. repeat split; reflexivity. Qed.

(** C10.  When listing the containers fails, a port other than 8080 is
    reported as free; the requested host port is then kept as it was
    written, and the container is created with it, no published port
    having been looked at. *)
Theorem list_failure_accepts_port (W : World) (req : CreateContainerRequest)
  (i n h c e : string) (p : Z) (t1 : Trace) :
  preamble W req [] = (Continue (i, n), t1) ->
  Split (ReqPort req) ":"%char = [h; c] ->
  Atoi h = Some p ->
  p <> 8080 ->
  containerList W t1 = Err e ->
  isPortInUse W p t1 = (Continue false, t1 ++ [CallContainerList true]) /\
  findHostPort W h p t1 = (Continue h, t1 ++ [CallContainerList true]) /\
  exists rest,
    snd (serve (createHandler W (Ok req)) [])
    = (t1 ++ [CallContainerList true])
      ++ CallContainerCreate (boundConfig i c) (boundHost h c) n :: rest.
Proof.
  intros Hp Hs Ha Hne He.
  assert (Hin : isPortInUse W p t1
                = (Continue false, t1 ++ [CallContainerList true])).
  { unfold isPortInUse. apply Z.eqb_neq in Hne. rewrite Hne.
    unfold bind, call. rewrite He. reflexivity. }
  assert (Hf : findHostPort W h p t1
               = (Continue h, t1 ++ [CallContainerList true])).
  { unfold findHostPort, bind at 1. rewrite Hin. reflexivity. }
  repeat split; [exact Hin | exact Hf |].
  exact (createHandler_binds W req i n h c h p t1 _ Hp Hs Ha Hf).
Qed.

Lemma list_failure_accepts_port_witness :
  isPortInUse (blindWorld 0) 9001
    [CallNewClient; CallPing; CallImageList; CallImagePull "nginx:latest";
     CallReadAll; CallContainerList true]
  = (Continue false,
     [CallNewClient; CallPing; CallImageList; CallImagePull "nginx:latest";
      CallReadAll; CallContainerList true] ++ [CallContainerList true]) /\
  findHostPort (blindWorld 0) "9001" 9001
    [CallNewClient; CallPing; CallImageList; CallImagePull "nginx:latest";
     CallReadAll; CallContainerList true]
  = (Continue "9001",
     [CallNewClient; CallPing; CallImageList; CallImagePull "nginx:latest";
      CallReadAll; CallContainerList true] ++ [CallContainerList true]) /\
  exists rest,
    snd (serve (createHandler (blindWorld 0)
                  (Ok (request "web" "nginx:latest" "9001:80"))) [])
    = ([CallNewClient; CallPing; CallImageList; CallImagePull "nginx:latest";
        CallReadAll; CallContainerList true] ++ [CallContainerList true])
      ++ CallContainerCreate (boundConfig "nginx:latest" "80")
                             (boundHost "9001" "80") "web" :: rest.
Proof.
  apply (list_failure_accepts_port (blindWorld 0)
           (request "web" "nginx:latest" "9001:80")
           "nginx:latest" "web" "9001" "80"
           "Cannot connect to the Docker daemon" 9001);
    first [reflexivity | discriminate].
Defined.

(** C6.  A requested host port that is not 8080 and that no listed
    container publishes is kept as it was written, and the container is
    created with exactly that host port bound. *)
Theorem free_port_kept (W : World) (req : CreateContainerRequest)
  (i n h c : string) (p : Z) (cs : list Container) (t1 : Trace) :
  preamble W req [] = (Continue (i, n), t1) ->
  Split (ReqPort req) ":"%char = [h; c] ->
  Atoi h = Some p ->
  containerList W t1 = Ok cs ->
  portTaken cs p = false ->
  findHostPort W h p t1 = (Continue h, t1 ++ [CallContainerList true]) /\
  exists rest,
    snd (serve (createHandler W (Ok req)) [])
    = (t1 ++ [CallContainerList true])
      ++ CallContainerCreate (boundConfig i c) (boundHost h c) n :: rest.
Proof.
  intros Hp Hs Ha Hl Hfree. unfold portTaken in Hfree.
  apply orb_false_iff in Hfree as [H8080 Hpub].
  assert (Hf : findHostPort W h p t1
               = (Continue h, t1 ++ [CallContainerList true])).
  { unfold findHostPort, bind at 1.
    rewrite (isPortInUse_listed W p cs t1 Hl), H8080, Hpub. reflexivity. }
  split; [exact Hf |].
  exact (createHandler_binds W req i n h c h p t1 _ Hp Hs Ha Hf).
Qed.

Lemma free_port_kept_witness :
  findHostPort (calmWorld [] [container "a1" "/db" [5432]] 0) "9001" 9001
    [CallNewClient; CallPing; CallImageList; CallImagePull "nginx:latest";
     CallReadAll; CallContainerList true]
  = (Continue "9001",
     [CallNewClient; CallPing; CallImageList; CallImagePull "nginx:latest";
      CallReadAll; CallContainerList true] ++ [CallContainerList true]) /\
  exists rest,
    snd (serve (createHandler (calmWorld [] [container "a1" "/db" [5432]] 0)
                  (Ok (request "web" "nginx:latest" "9001:80"))) [])
    = ([CallNewClient; CallPing; CallImageList; CallImagePull "nginx:latest";
        CallReadAll; CallContainerList true] ++ [CallContainerList true])
      ++ CallContainerCreate (boundConfig "nginx:latest" "80")
                             (boundHost "9001" "80") "web" :: rest.
Proof.
  apply (free_port_kept (calmWorld [] [container "a1" "/db" [5432]] 0)
           (request "web" "nginx:latest" "9001:80")
           "nginx:latest" "web" "9001" "80" 9001
           [container "a1" "/db" [5432]]);
    reflexivity.
Defined.

(** ** The search for a free port *)

Lemma wrapInt_id (n : Z) : minInt64 <= n <= maxInt64 -> wrapInt n = n.
Proof.
  unfold wrapInt, minInt64, maxInt64. intros H.
  rewrite Z.mod_small; lia.
Qed.

Section StableListing.

Variable W : World.
Variable cs : list Container.
Hypothesis stable : forall t, containerList W t = Ok cs.

Lemma isPortInUse_stable (p : Z) (t : Trace) :
  exists t', isPortInUse W p t = (Continue (portTaken cs p), t').
Proof.
  rewrite (isPortInUse_listed W p cs t (stable t)). unfold portTaken.
  destruct (p =? 8080); eexists; reflexivity.
Qed.

(** The scan never answers the request itself; it stops at the first port
    that is not taken, and gives up only when the whole range is taken. *)
Lemma scanPorts_stable (n : nat) :
  forall (i : Z) (t : Trace),
    match fst (scanPorts W n i t) with
    | Continue (Some k) =>
        i <= k < i + Z.of_nat n /\ portTaken cs k = false /\
        forall j, i <= j < k -> portTaken cs j = true
    | Continue None => forall j, i <= j < i + Z.of_nat n -> portTaken cs j = true
    | Respond _ => False
    end.
Proof.
  induction n as [|n IH]; intros i t.
  - simpl. intros j Hj. lia.
  - cbn [scanPorts]. unfold bind at 1.
    destruct (isPortInUse_stable i t) as [t' ->].
    destruct (portTaken cs i) eqn:Hi.
    + specialize (IH (i + 1) t').
      destruct (fst (scanPorts W n (i + 1) t')) as [r|[k|]]; [exact IH | |].
      * destruct IH as (Hk & Hfree & Hbelow). repeat split; try lia; auto.
        intros j Hj. destruct (Z.eq_dec j i) as [->|]; [exact Hi |].
        apply Hbelow. lia.
      * intros j Hj. destruct (Z.eq_dec j i) as [->|]; [exact Hi |].
        apply IH. lia.
    + simpl. repeat split; try lia; auto; intros j Hj; lia.
Qed.

Lemma scanRange_stable (lo : Z) (t : Trace) :
  match fst (scanRange W lo 9999 t) with
  | Continue (Some k) =>
      lo <= k <= 9999 /\ portTaken cs k = false /\
      forall j, lo <= j < k -> portTaken cs j = true
  | Continue None => forall j, lo <= j <= 9999 -> portTaken cs j = true
  | Respond _ => False
  end.
Proof.
  unfold scanRange.
  pose proof (scanPorts_stable (Z.to_nat (9999 - lo + 1)) lo t) as H.
  destruct (fst (scanPorts W (Z.to_nat (9999 - lo + 1)) lo t)) as [r|[k|]];
    [exact H | |].
  - destruct H as (Hk & Hfree & Hbelow). repeat split; try lia; auto.
  - intros j Hj. apply H. lia.
Qed.

Lemma findHostPort_stable (requested : string) (p : Z) (t : Trace) :
  portTaken cs p = true ->
  minInt64 <= p < maxInt64 ->
  match fst (findHostPort W requested p t) with
  | Continue final =>
      exists i, final = Itoa i /\ portTaken cs i = false /\
        ((p < i <= 9999 /\ forall j, p < j < i -> portTaken cs j = true) \/
         (8081 <= i < p /\ i <= 9999 /\
          (forall j, 8081 <= j < i -> portTaken cs j = true) /\
          forall j, p < j <= 9999 -> portTaken cs j = true))
  | Respond r =>
      status r = StatusConflict /\
      forall j, p < j <= 9999 \/ 8081 <= j <= 9999 -> portTaken cs j = true
  end.
Proof.
  intros Htaken Hrange. unfold findHostPort, bind at 1.
  destruct (isPortInUse_stable p t) as [t1 ->]. rewrite Htaken.
  rewrite wrapInt_id by (unfold minInt64, maxInt64 in *; lia).
  unfold bind at 1.
  pose proof (scanRange_stable (p + 1) t1) as H1.
  destruct (scanRange W (p + 1) 9999 t1) as [[r|[k|]] t2]; simpl in H1;
    [contradiction | |].
  - simpl. exists k. destruct H1 as (Hk & Hfree & Hbelow).
    split; [reflexivity |]. split; [exact Hfree |]. left.
    split; [lia |]. intros j Hj. apply Hbelow. lia.
  - unfold bind at 1.
    pose proof (scanRange_stable 8081 t2) as H2.
    destruct (scanRange W 8081 9999 t2) as [[r|[k|]] t3]; simpl in H2;
      [contradiction | |].
    + simpl. exists k. destruct H2 as (Hk & Hfree & Hbelow).
      split; [reflexivity |]. split; [exact Hfree |]. right.
      assert (Hle : k <= p).
      { destruct (Z_le_gt_dec k p) as [|Hgt]; [assumption |].
        rewrite H1 in Hfree by lia. discriminate. }
      assert (Hne : k <> p) by (intros ->; congruence).
      repeat split; try lia; [exact Hbelow |]. intros j Hj. apply H1. lia.
    + simpl. split; [reflexivity |]. intros j [Hj|Hj]; [apply H1 | apply H2]; lia.
Qed.

End StableListing.

(** C4, as amended.  While the daemon's list of containers stays the same,
    a requested port that is taken (8080, or published by a listed
    container) is replaced by a port that is not taken: the lowest free
    port above it up to 9999, or, when there is none, the lowest free
    port of 8081..9999, which is then below the requested port.  When
    both ranges are taken the request is answered 409. *)
Theorem taken_port_replaced (W : World) (cs : list Container)
  (requested : string) (p : Z) (t : Trace) :
  (forall t', containerList W t' = Ok cs) ->
  portTaken cs p = true ->
  minInt64 <= p < maxInt64 ->
  match fst (findHostPort W requested p t) with
  | Continue final =>
      exists i, final = Itoa i /\ portTaken cs i = false /\
        ((p < i <= 9999 /\ forall j, p < j < i -> portTaken cs j = true) \/
         (8081 <= i < p /\ i <= 9999 /\
          (forall j, 8081 <= j < i -> portTaken cs j = true) /\
          forall j, p < j <= 9999 -> portTaken cs j = true))
  | Respond r =>
      status r = StatusConflict /\
      forall j, p < j <= 9999 \/ 8081 <= j <= 9999 -> portTaken cs j = true
  end.
Proof. intros Hs. apply findHostPort_stable. exact Hs. Qed.

Lemma taken_port_replaced_witness :
  match fst (findHostPort (calmWorld [] [container "a1" "/db" [8081]] 0)
                          "8080" 8080 []) with
  | Continue final =>
      exists i, final = Itoa i /\
        portTaken [container "a1" "/db" [8081]] i = false /\
        ((8080 < i <= 9999 /\
          forall j, 8080 < j < i ->
                    portTaken [container "a1" "/db" [8081]] j = true) \/
         (8081 <= i < 8080 /\ i <= 9999 /\
          (forall j, 8081 <= j < i ->
                     portTaken [container "a1" "/db" [8081]] j = true) /\
          forall j, 8080 < j <= 9999 ->
                    portTaken [container "a1" "/db" [8081]] j = true))
  | Respond r =>
      status r = StatusConflict /\
      forall j, 8080 < j <= 9999 \/ 8081 <= j <= 9999 ->
                portTaken [container "a1" "/db" [8081]] j = true
  end.
Proof.
  apply (taken_port_replaced (calmWorld [] [container "a1" "/db" [8081]] 0)
           [container "a1" "/db" [8081]] "8080" 8080 []).
  - intros t'. reflexivity.
  - reflexivity.
  - unfold minInt64, maxInt64. lia.
Defined.

(** C4 as stated fails: 9999 is published, nothing above it is scanned,
    and the fallback range gives 8081, which is below 9999. *)
Lemma taken_port_replaced_by_lower :
  portTaken [container "a1" "/db" [9999]] 9999 = true /\
  fst (findHostPort (calmWorld [] [container "a1" "/db" [9999]] 0)
                    "9999" 9999 [])
  = Continue (Itoa 8081) /\
  ~ 9999 < 8081.
Proof. repeat split; try reflexivity. lia. Qed.

(** ** Renaming on a name conflict *)

Section Renaming.

Variable W : World.

Lemma renameOnConflict_absent (names : list string) (n : string) (t : Trace) :
  ~ In n (trimmed names) ->
  renameOnConflict W names n t = (Continue n, t).
Proof.
  induction names as [|x names IH]; intros H; simpl; [reflexivity |].
  destruct (String.eqb_spec (TrimPrefix x "/") n) as [E|E].
  - exfalso. apply H. left. exact E.
  - apply IH. intros Hin. apply H. right. exact Hin.
Qed.

Lemma renameOnConflict_present (names : list string) (n : string) (t : Trace) :
  In n (trimmed names) ->
  renameOnConflict W names n t
  = (Continue (n +:+ "-" +:+ FormatInt (Unix (now W t))), t ++ [CallNow]).
Proof.
  induction names as [|x names IH]; intros H; simpl; [destruct H |].
  destruct (String.eqb_spec (TrimPrefix x "/") n) as [E|E]; [reflexivity |].
  apply IH. destruct H as [H|H]; [congruence | exact H].
Qed.

Lemma renameOverContainers_absent (cs : list Container) :
  forall (n : string) (t : Trace),
    ~ In n (existingNames cs) ->
    renameOverContainers W cs n t = (Continue n, t).
Proof.
  induction cs as [|c cs IH]; intros n t H; simpl; [reflexivity |].
  unfold existingNames in H. simpl in H. rewrite in_app_iff in H.
  unfold bind. rewrite renameOnConflict_absent by (intros Hin; apply H; now left).
  apply IH. intros Hin. apply H. now right.
Qed.

(** Every renaming appends a dash and a reading of the clock. *)
Lemma renameOverContainers_stamps (cs : list Container) :
  forall (n : string) (t : Trace),
    exists readings t',
      renameOverContainers W cs n t = (Continue (n +:+ stamps readings), t').
Proof.
  induction cs as [|c cs IH]; intros n t; simpl.
  - exists [], t. simpl. now rewrite append_empty_r.
  - unfold bind.
    destruct (in_dec String.string_dec n (trimmed (Names c))) as [Hin|Hout].
    + rewrite (renameOnConflict_present _ _ _ Hin).
      destruct (IH (n +:+ "-" +:+ FormatInt (Unix (now W t))) (t ++ [CallNow]))
        as (readings & t' & ->).
      exists (now W t :: readings), t'. simpl. now rewrite !append_assoc.
    + rewrite (renameOnConflict_absent _ _ _ Hout). apply IH.
Qed.

Lemma existingNames_cons (c : Container) (cs : list Container) (n : string) :
  In n (existingNames (c :: cs))
  <-> In n (trimmed (Names c)) \/ In n (existingNames cs).
Proof. unfold existingNames. simpl. apply in_app_iff. Qed.

(** A name that one of the listed containers carries gets a stamp at the
    first such container, read from the clock before any other call; more
    stamps can follow, and none does when the name with that first stamp
    is not itself the name of a listed container. *)
Lemma renameOverContainers_present (cs : list Container) :
  forall (n : string) (t : Trace),
    In n (existingNames cs) ->
    exists readings t',
      renameOverContainers W cs n t
      = (Continue (n +:+ stamps (now W t :: readings)), t')
      /\ (~ In (n +:+ stamps [now W t]) (existingNames cs) ->
          readings = [] /\ t' = t ++ [CallNow]).
Proof.
  induction cs as [|c cs IH]; intros n t Hin; [destruct Hin |].
  apply existingNames_cons in Hin.
  simpl renameOverContainers. unfold bind.
  destruct (in_dec String.string_dec n (trimmed (Names c))) as [Hc|Hc].
  - rewrite (renameOnConflict_present _ _ _ Hc).
    destruct (in_dec String.string_dec (n +:+ stamps [now W t])
                     (existingNames cs)) as [Hlisted|Hfresh].
    + destruct (renameOverContainers_stamps cs
                  (n +:+ "-" +:+ FormatInt (Unix (now W t))) (t ++ [CallNow]))
        as (readings & t' & ->).
      exists readings, t'. split.
      * simpl. now rewrite !append_assoc.
      * intros Hnot. exfalso. apply Hnot. apply existingNames_cons.
        now right.
    + exists [], (t ++ [CallNow]).
      assert (Hsame : n +:+ "-" +:+ FormatInt (Unix (now W t))
                      = n +:+ stamps [now W t])
        by (simpl; now rewrite append_empty_r).
      rewrite Hsame, renameOverContainers_absent by exact Hfresh.
      split; [reflexivity | auto].
  - rewrite (renameOnConflict_absent _ _ _ Hc).
    destruct Hin as [Hin|Hin]; [contradiction |].
    destruct (IH n t Hin) as (readings & t' & Hr & Hone).
    exists readings, t'. split; [exact Hr |].
    intros Hnot. apply Hone. intros Hl. apply Hnot.
    apply existingNames_cons. now right.
Qed.

End Renaming.

(** C5, as amended.  A requested name that a listed container carries is
    resolved to that name followed by one or more stamps, each a dash and
    the Unix time in seconds.  Unless the name with its first stamp is
    itself the name of a listed container, there is exactly one stamp and
    the resolved name is not the name of a listed container. *)
Theorem colliding_name_stamped (W : World) (req : CreateContainerRequest)
  (cs : list Container) (t : Trace) :
  Name req <> "" ->
  containerList W t = Ok cs ->
  In (Name req) (existingNames cs) ->
  exists readings t',
    resolveName W req t
    = (Continue
         (Name req
          +:+ stamps (now W (t ++ [CallContainerList true]) :: readings)), t')
    /\ (~ In (Name req
              +:+ stamps [now W (t ++ [CallContainerList true])])
             (existingNames cs) ->
        readings = [] /\
        t' = t ++ [CallContainerList true; CallNow] /\
        ~ In (Name req
              +:+ stamps (now W (t ++ [CallContainerList true]) :: readings))
             (existingNames cs)).
Proof.
  intros Hne Hl Hin. unfold resolveName.
  destruct (String.eqb_spec (Name req) "") as [E|_]; [contradiction |].
  unfold bind at 1, call. rewrite Hl.
  destruct (renameOverContainers_present W cs (Name req)
              (t ++ [CallContainerList true]) Hin)
    as (readings & t' & Hr & Hone).
  exists readings, t'. split; [exact Hr |].
  intros Hfresh. destruct (Hone Hfresh) as [-> ->].
  split; [reflexivity |]. split; [now rewrite <- app_assoc | exact Hfresh].
Qed.

Lemma colliding_name_stamped_witness :
  resolveName
    (calmWorld [] [container "a1" "/web" [8081]; container "b2" "/web-old" []]
               1700000000123456789)
    (request "web" "nginx:latest" "") []
  = (Continue "web-1700000000", [CallContainerList true; CallNow]) /\
  ~ In "web-1700000000"
       (existingNames [container "a1" "/web" [8081];
                       container "b2" "/web-old" []]).
Proof.
  destruct (colliding_name_stamped
              (calmWorld [] [container "a1" "/web" [8081];
                             container "b2" "/web-old" []]
                         1700000000123456789)
              (request "web" "nginx:latest" "")
              [container "a1" "/web" [8081]; container "b2" "/web-old" []] [])
    as (readings & t' & Hr & Hone).
  - discriminate.
  - reflexivity.
  - simpl. left. reflexivity.
  - assert (Hfresh :
      ~ In ("web" +:+ stamps [1700000000123456789])
           (existingNames [container "a1" "/web" [8081];
                           container "b2" "/web-old" []])).
    { simpl. intros [H | [H | []]]; discriminate H. }
    destruct (Hone Hfresh) as (-> & -> & Hnot).
    split; [exact Hr | exact Hnot].
Defined.

(** C5 as stated fails: with ["/web-1700000000"] listed before ["/web"],
    the name ["web"] is resolved, at that second, to ["web-1700000000"],
    which is the name of a listed container. *)
Lemma colliding_name_resolved_to_existing :
  In "web"
     (existingNames [container "a1" "/web-1700000000" [];
                     container "b2" "/web" []]) /\
  fst (resolveName
         (calmWorld [] [container "a1" "/web-1700000000" [];
                        container "b2" "/web" []] 1700000000123456789)
         (request "web" "nginx:latest" "") [])
  = Continue "web-1700000000" /\
  In "web-1700000000"
     (existingNames [container "a1" "/web-1700000000" [];
                     container "b2" "/web" []]).
Proof.
  split; [right; left; reflexivity |].
  split; [reflexivity | left; reflexivity].
Qed.

(** ** The retry of a create *)

Lemma startContainer_trace (W : World) (req : CreateContainerRequest)
  (i m id n : string) (t : Trace) :
  snd (startContainer W req i m id n t) = t ++ [CallContainerStart id].
Proof.
  unfold startContainer, bind, call.
  destruct (containerStart W t id) as [e|].
  - destruct (classifyStartFailure e) as [ty port].
    now destruct (negb (String.eqb ty "")).
  - now destruct (negb (String.eqb m (ReqPort req))
                  && negb (String.eqb (ReqPort req) "")).
Qed.

Lemma filter_isCreate_quiet (l : list Call) :
  Forall quiet l -> List.filter isCreate l = [].
Proof.
  induction 1 as [|c l Hc _ IH]; [reflexivity |].
  simpl. rewrite IH. destruct c; try reflexivity; discriminate Hc.
Qed.

(** The calls made up to the create are none that creates or changes a
    container. *)
Lemma quiet_before_create (W : World) (req : CreateContainerRequest)
  (i n : string) (plan : Config * HostConfig * string) (t1 t2 : Trace) :
  preamble W req [] = (Continue (i, n), t1) ->
  configure W req i t1 = (Continue plan, t2) ->
  Forall quiet t2.
Proof.
  intros Hp Hc.
  destruct (adds_preamble W req []) as (d1 & Hd1 & Hq1).
  destruct (adds_configure W req i t1) as (d2 & Hd2 & Hq2).
  rewrite Hp in Hd1. rewrite Hc in Hd2. simpl in *. subst.
  apply Forall_app; auto.
Qed.

(** A create refused for a name conflict is retried once, under the name
    followed by a dash and the time in nanoseconds; the outcome of the
    retry is final. *)
Lemma createContainer_name_conflict (W : World) (cfg : Config)
  (host : HostConfig) (m n err : string) (t : Trace) :
  containerCreate W t cfg host n = Err err ->
  Contains err "already in use" = true ->
  Contains err "container name" = true ->
  createContainer W cfg host m n t
  = (match containerCreate W (t ++ [CallContainerCreate cfg host n; CallNow])
             cfg host
             (n +:+ "-" +:+ FormatInt
                (UnixNano (now W (t ++ [CallContainerCreate cfg host n]))))
     with
     | Ok id =>
         Continue
           (id, n +:+ "-" +:+ FormatInt
                  (UnixNano (now W (t ++ [CallContainerCreate cfg host n]))))
     | Err err' =>
         Respond {| status := StatusInternalServerError;
                    body := [("error",
                      "Error creating container: " +:+ err')] |}
     end,
     t ++ [CallContainerCreate cfg host n; CallNow;
           CallContainerCreate cfg host
             (n +:+ "-" +:+ FormatInt
                (UnixNano (now W (t ++ [CallContainerCreate cfg host n]))))]).
Proof.
  intros He Hu Hn. unfold createContainer, bind at 1, call at 1.
  rewrite He, Hu, Hn. unfold bind, call. rewrite <- !app_assoc. simpl.
  clear He. now destruct (containerCreate W _ cfg host _).
Qed.

(** C7.  When the create fails with a message containing
    ["already in use"] and ["container name"], the handler creates once
    more, under the resolved name followed by a dash and the current time
    in nanoseconds.  These two are the only creates of the request: if the
    second fails too, the answer is 500 and nothing else is called. *)
Theorem name_conflict_one_retry (W : World) (req : CreateContainerRequest)
  (i n m err : string) (cfg : Config) (host : HostConfig) (t1 t2 : Trace) :
  preamble W req [] = (Continue (i, n), t1) ->
  configure W req i t1 = (Continue (cfg, host, m), t2) ->
  containerCreate W t2 cfg host n = Err err ->
  Contains err "already in use" = true ->
  Contains err "container name" = true ->
  serve (createHandler W (Ok req)) []
  = match containerCreate W (t2 ++ [CallContainerCreate cfg host n; CallNow])
            cfg host
            (n +:+ "-" +:+ FormatInt
               (UnixNano (now W (t2 ++ [CallContainerCreate cfg host n]))))
    with
    | Ok id =>
        serve (startContainer W req i m id
                 (n +:+ "-" +:+ FormatInt
                    (UnixNano (now W (t2 ++ [CallContainerCreate cfg host n])))))
          (t2 ++ [CallContainerCreate cfg host n; CallNow;
                  CallContainerCreate cfg host
                    (n +:+ "-" +:+ FormatInt
                       (UnixNano
                          (now W (t2 ++ [CallContainerCreate cfg host n]))))])
    | Err err' =>
        ({| status := StatusInternalServerError;
            body := [("error", "Error creating container: " +:+ err')] |},
         t2 ++ [CallContainerCreate cfg host n; CallNow;
                CallContainerCreate cfg host
                  (n +:+ "-" +:+ FormatInt
                     (UnixNano
                        (now W (t2 ++ [CallContainerCreate cfg host n]))))])
    end
  /\ List.filter isCreate (snd (serve (createHandler W (Ok req)) []))
     = [CallContainerCreate cfg host n;
        CallContainerCreate cfg host
          (n +:+ "-" +:+ FormatInt
             (UnixNano (now W (t2 ++ [CallContainerCreate cfg host n]))))].
Proof.
  intros Hp Hc He Hu Hn.
  pose proof (quiet_before_create W req i n _ t1 t2 Hp Hc) as Hq.
  assert (Hserve :
    serve (createHandler W (Ok req)) []
    = serve (provision W req i n (cfg, host, m)) t2).
  { rewrite (serve_createHandler W req i n t1 Hp).
    unfold serve, bind at 1. rewrite Hc. reflexivity. }
  rewrite Hserve. unfold provision, serve at 1 3, bind at 1 2.
  rewrite (createContainer_name_conflict W cfg host m n err t2 He Hu Hn).
  clear He. destruct (containerCreate W _ cfg host _) as [id|err'].
  - split; [reflexivity |].
    fold (serve (startContainer W req i m id
            (n +:+ "-" +:+ FormatInt
               (UnixNano (now W (t2 ++ [CallContainerCreate cfg host n])))))
            (t2 ++ [CallContainerCreate cfg host n; CallNow;
                    CallContainerCreate cfg host
                      (n +:+ "-" +:+ FormatInt
                         (UnixNano
                            (now W
                               (t2 ++ [CallContainerCreate cfg host n]))))])).
    rewrite snd_serve, startContainer_trace, !List.filter_app.
    rewrite (filter_isCreate_quiet t2 Hq). reflexivity.
  - split; [reflexivity |]. simpl snd.
    rewrite List.filter_app, (filter_isCreate_quiet t2 Hq). reflexivity.
Qed.

Lemma name_conflict_one_retry_witness :
  List.filter isCreate
    (snd (serve (createHandler
                   (conflictOnceWorld
                      "Conflict. The container name /web is already in use by container 4f2a"
                      1700000000123456789)
                   (Ok (request "web" "nginx:latest" ""))) []))
  = [CallContainerCreate
       {| Image := "nginx:latest"; Tty := true; ExposedPorts := ∅ |}
       {| PortBindings := ∅ |} "web";
     CallContainerCreate
       {| Image := "nginx:latest"; Tty := true; ExposedPorts := ∅ |}
       {| PortBindings := ∅ |} "web-1700000000123456789"].
Proof.
  exact (proj2 (name_conflict_one_retry
    (conflictOnceWorld
       "Conflict. The container name /web is already in use by container 4f2a"
       1700000000123456789)
    (request "web" "nginx:latest" "")
    "nginx:latest" "web" "none"
    "Conflict. The container name /web is already in use by container 4f2a"
    {| Image := "nginx:latest"; Tty := true; ExposedPorts := ∅ |}
    {| PortBindings := ∅ |}
    [CallNewClient; CallPing; CallImageList; CallImagePull "nginx:latest";
     CallReadAll; CallContainerList true]
    [CallNewClient; CallPing; CallImageList; CallImagePull "nginx:latest";
     CallReadAll; CallContainerList true]
    eq_refl eq_refl eq_refl eq_refl eq_refl)).
Defined.

(** ** Bulk requests *)

Section BulkFacts.

Variable W : World.
Variable action : string.

Lemma bulkAction_calls (id : string) (t : Trace) :
  exists err,
    bulkAction W action id t = (Continue err, t ++ bulkCalls action id).
Proof.
  unfold bulkAction, bulkCalls, call, ret.
  destruct (String.eqb action "start"); [eexists; reflexivity |].
  destruct (String.eqb action "stop"); [eexists; reflexivity |].
  destruct (String.eqb action "remove"); [eexists; reflexivity |].
  destruct (String.eqb action "restart"); [eexists; reflexivity |].
  eexists. now rewrite app_nil_r.
Qed.

Lemma bulkRecord_step (id : string) (err : option string) (st : BulkState) :
  0 <= successCount st -> 0 <= errorCount st ->
  successCount st + errorCount st + 1 <= maxInt64 ->
  let st' := bulkRecord id err st in
  dom (bulkResults st') = {[ id ]} ∪ dom (bulkResults st) /\
  0 <= successCount st' /\ 0 <= errorCount st' /\
  successCount st' + errorCount st'
  = successCount st + errorCount st + 1.
Proof.
  intros Hs He Hb. unfold bulkRecord.
  destruct err as [msg|]; simpl;
    (rewrite dom_insert_L, wrapInt_id
       by (unfold minInt64, maxInt64 in *; lia));
    repeat split; lia.
Qed.

(** The loop visits the targets from first to last whatever the daemon
    answers, and leaves an entry and one count for each. *)
Lemma bulkLoop_spec (ids : list string) :
  forall (st : BulkState) (t : Trace),
    0 <= successCount st -> 0 <= errorCount st ->
    successCount st + errorCount st + Z.of_nat (length ids) <= maxInt64 ->
    exists st',
      bulkLoop W action ids st t
      = (Continue st', t ++ flat_map (bulkCalls action) ids) /\
      dom (bulkResults st') = dom (bulkResults st) ∪ list_to_set ids /\
      successCount st' + errorCount st'
      = successCount st + errorCount st + Z.of_nat (length ids).
Proof.
  induction ids as [|id ids IH]; intros st t Hs He Hb.
  - exists st. simpl. rewrite app_nil_r, union_empty_r_L.
    repeat split; lia.
  - simpl bulkLoop. unfold bind.
    destruct (bulkAction_calls id t) as [err ->].
    simpl length in Hb.
    destruct (bulkRecord_step id err st Hs He ltac:(lia))
      as (Hdom & Hs' & He' & Hsum).
    destruct (IH (bulkRecord id err st) (t ++ bulkCalls action id)
                 Hs' He' ltac:(lia)) as (st' & Hrun & Hdom' & Hsum').
    exists st'. rewrite Hrun. simpl flat_map. rewrite app_assoc.
    split; [reflexivity |]. split.
    + rewrite Hdom', Hdom, list_to_set_cons.
      rewrite (comm_L (∪) {[ id ]} (dom (bulkResults st))).
      now rewrite (assoc_L (∪)).
    + simpl length. lia.
Qed.

End BulkFacts.

(** C9.  A bulk request over [ids] is answered 200 once the client is
    there.  Its calls to the daemon are those of the targets from first to
    last, whatever the daemon answered to the earlier ones; every id is a
    key of [results]; and [success + errors = total = length ids]. *)
Theorem bulk_processes_every_target (W : World) (ids : list string)
  (action : string) :
  newClient W [] = None ->
  Z.of_nat (length ids) <= maxInt64 ->
  exists (results : gmap string BulkOutcome) (summary : BulkSummary),
    serve (bulkHandler W (Ok ids) action) []
    = (BulkDone StatusOK action results summary,
       CallNewClient :: flat_map (bulkCalls action) ids) /\
    dom results = list_to_set ids /\
    total summary = Z.of_nat (length ids) /\
    success summary + errors summary = total summary.
Proof.
  intros Hc Hlen.
  destruct (bulkLoop_spec W action ids
              {| bulkResults := ∅; successCount := 0; errorCount := 0 |}
              [CallNewClient]) as (st & Hrun & Hdom & Hsum);
    simpl; try lia.
  exists (bulkResults st),
    {| total := Z.of_nat (length ids); success := successCount st;
       errors := errorCount st |}.
  unfold serve, bulkHandler, bind at 1, call. rewrite Hc.
  unfold bind at 1. simpl app. rewrite Hrun. simpl in *.
  repeat split; [| lia]. now rewrite Hdom, dom_empty_L, union_empty_l_L.
Qed.

Lemma bulk_processes_every_target_witness :
  exists (results : gmap string BulkOutcome) (summary : BulkSummary),
    serve (bulkHandler (lackingWorld "b") (Ok ["a"; "b"; "c"]) "stop") []
    = (BulkDone StatusOK "stop" results summary,
       CallNewClient :: flat_map (bulkCalls "stop") ["a"; "b"; "c"]) /\
    dom results = list_to_set ["a"; "b"; "c"] /\
    total summary = Z.of_nat (length ["a"; "b"; "c"]) /\
    success summary + errors summary = total summary.
Proof.
  apply (bulk_processes_every_target (lackingWorld "b") ["a"; "b"; "c"] "stop").
  - reflexivity.
  - unfold maxInt64. simpl. lia.
Defined.

(** ** The handlers on whole requests *)

(** A request for host port 8080 is moved to 8081, and says so. *)
Example create_moves_port_8080 :
  fst (serve (createHandler (calmWorld [] [] 1700000000123456789)
                (Ok (request "web" "nginx:latest" "8080:80"))) [])
  = {| status := StatusOK;
       body := [("id", "c0ffee"); ("name", "web");
                ("image", "nginx:latest"); ("port", "8081:80");
                ("original_port", "8080:80")] |}.
Proof. reflexivity. Qed.

(** When the retry of the create fails as well, the answer is 500 and the
    container is never started. *)
Example create_retry_fails :
  serve (createHandler
           (refusingWorld
              "Conflict. The container name /web is already in use by container 4f2a"
              1700000000123456789)
           (Ok (request "web" "nginx:latest" ""))) []
  = ({| status := StatusInternalServerError;
        body := [("error",
          "Error creating container: Conflict. The container name /web is already in use by container 4f2a")] |},
     [CallNewClient; CallPing; CallImageList; CallImagePull "nginx:latest";
      CallReadAll; CallContainerList true;
      CallContainerCreate
        {| Image := "nginx:latest"; Tty := true; ExposedPorts := ∅ |}
        {| PortBindings := ∅ |} "web";
      CallNow;
      CallContainerCreate
        {| Image := "nginx:latest"; Tty := true; ExposedPorts := ∅ |}
        {| PortBindings := ∅ |} "web-1700000000123456789"]).
Proof. reflexivity. Qed.

(** Stopping ["a"], ["b"], ["c"] where ["b"] does not exist. *)
Example bulk_stop_one_missing :
  exists results,
    fst (serve (bulkHandler (lackingWorld "b") (Ok ["a"; "b"; "c"]) "stop") [])
    = BulkDone StatusOK "stop" results
        {| total := 3; success := 2; errors := 1 |}
    /\ results !! "b"
       = Some {| outcomeStatus := "error";
                 outcomeMessage := Some "No such container: b" |}
    /\ results !! "a"
       = Some {| outcomeStatus := "success"; outcomeMessage := None |}.
Proof. eexists. repeat split; reflexivity. Qed.

(** An unknown action calls nothing and fails every target. *)
Example bulk_unknown_action :
  exists results,
    serve (bulkHandler (calmWorld [] [] 0) (Ok ["a"; "b"]) "pause") []
    = (BulkDone StatusOK "pause" results
         {| total := 2; success := 0; errors := 2 |}, [CallNewClient])
    /\ results !! "a"
       = Some {| outcomeStatus := "error";
                 outcomeMessage := Some "unknown action: pause" |}.
Proof. eexists. split; reflexivity. Qed.

(** ** What a request to [POST /create] can and cannot do *)

Section Answers.

Context {R : Type} (Q : R -> Prop).

Lemma answers_ret {A : Type} (a : A) : answers Q (@ret R A a).
Proof. intros t r t' H. discriminate H. Qed.

Lemma answers_respond {A : Type} (r : R) : Q r -> answers Q (@respond R A r).
Proof. intros Hq t r' t' H. injection H as <- _. exact Hq. Qed.

Lemma answers_call {A : Type} (answer : Trace -> A) (c : Call) :
  answers Q (@call R A answer c).
Proof. intros t r t' H. discriminate H. Qed.

Lemma answers_bind {A B : Type} (m : Handler R A) (k : A -> Handler R B) :
  answers Q m -> (forall a, answers Q (k a)) -> answers Q (bind m k).
Proof.
  intros Hm Hk t r t' H. unfold bind in H.
  destruct (m t) as [[r0|a] t0] eqn:E.
  - injection H as <- _. exact (Hm _ _ _ E).
  - exact (Hk a _ _ _ H).
Qed.

End Answers.

Create HintDb answers discriminated.

Ltac refuse := unfold refusal; simpl; auto.

Ltac answers_steps :=
  repeat first
    [ solve [auto with answers nocore]
    | apply answers_ret
    | apply answers_call
    | apply answers_respond; refuse
    | apply answers_bind; [| intros ?]
    | match goal with
      | |- answers _ (match ?x with _ => _ end) => destruct x
      | |- answers _ (let '(_, _) := ?x in _) => destruct x
      end ].

Lemma answers_connect (W : World) : answers refusal (connect W).
Proof. unfold connect. answers_steps. Qed.

Lemma answers_resolveImage (W : World) (req : CreateContainerRequest) :
  answers refusal (resolveImage W req).
Proof. unfold resolveImage. answers_steps. Qed.

Lemma answers_renameOnConflict (W : World) (names : list string) (n : string) :
  answers refusal (renameOnConflict W names n).
Proof. induction names as [|x names IH]; simpl; answers_steps. Qed.

#[local] Hint Resolve answers_connect answers_resolveImage
  answers_renameOnConflict : answers.

Lemma answers_renameOverContainers (W : World) (cs : list Container) :
  forall n, answers refusal (renameOverContainers W cs n).
Proof. induction cs as [|c cs IH]; intros n; simpl; answers_steps. Qed.

#[local] Hint Resolve answers_renameOverContainers : answers.

Lemma answers_resolveName (W : World) (req : CreateContainerRequest) :
  answers refusal (resolveName W req).
Proof. unfold resolveName. answers_steps. Qed.

#[local] Hint Resolve answers_resolveName : answers.

Lemma answers_preamble (W : World) (req : CreateContainerRequest) :
  answers refusal (preamble W req).
Proof. unfold preamble. answers_steps. Qed.

Lemma answers_isPortInUse (W : World) (port : Z) :
  answers refusal (isPortInUse W port).
Proof. unfold isPortInUse. answers_steps. Qed.

#[local] Hint Resolve answers_isPortInUse : answers.

Lemma answers_scanPorts (W : World) (n : nat) :
  forall i, answers refusal (scanPorts W n i).
Proof. induction n as [|n IH]; intros i; simpl; answers_steps. Qed.

#[local] Hint Resolve answers_scanPorts : answers.

Lemma answers_findHostPort (W : World) (requested : string) (p : Z) :
  answers refusal (findHostPort W requested p).
Proof. unfold findHostPort, scanRange. answers_steps. Qed.

#[local] Hint Resolve answers_findHostPort : answers.

Lemma answers_configure (W : World) (req : CreateContainerRequest)
  (i : string) : answers refusal (configure W req i).
Proof. unfold configure. answers_steps. Qed.

(** The outcomes of the start stage. *)
Lemma startContainer_cases (W : World) (req : CreateContainerRequest)
  (i m id n : string) (t : Trace) :
  exists r,
    serve (startContainer W req i m id n) t = (r, t ++ [CallContainerStart id])
    /\ ((containerStart W t id = None /\ status r = StatusOK /\
         exists rest,
           body r = ("id", id) :: ("name", n) :: ("image", i)
                    :: ("port", m) :: rest)
        \/ (containerStart W t id <> None /\
            (status r = StatusConflict \/ status r = StatusInternalServerError)
            /\ In ("container_id", id) (body r))).
Proof.
  unfold serve, startContainer, bind, call.
  destruct (containerStart W t id) as [e|].
  - destruct (classifyStartFailure e) as [ty port].
    destruct (negb (String.eqb ty "")); eexists; (split; [reflexivity |]);
      right; (split; [discriminate |]); simpl; auto.
  - destruct (negb (String.eqb m (ReqPort req))
              && negb (String.eqb (ReqPort req) ""));
      eexists; (split; [reflexivity |]); left; repeat split;
      eexists; reflexivity.
Qed.

(** The outcomes of the create stage: created at once, refused at once,
    or retried once under a stamped name. *)
Lemma createContainer_cases (W : World) (cfg : Config) (host : HostConfig)
  (m n : string) (t : Trace) :
  (exists id,
     containerCreate W t cfg host n = Ok id /\
     createContainer W cfg host m n t
     = (Continue (id, n), t ++ [CallContainerCreate cfg host n]))
  \/ (exists r,
        (status r = StatusConflict \/ status r = StatusInternalServerError) /\
        createContainer W cfg host m n t
        = (Respond r, t ++ [CallContainerCreate cfg host n]))
  \/ (exists n',
        n' = n +:+ "-" +:+ FormatInt
               (UnixNano (now W (t ++ [CallContainerCreate cfg host n]))) /\
        ((exists id,
            containerCreate W (t ++ [CallContainerCreate cfg host n; CallNow])
              cfg host n' = Ok id /\
            createContainer W cfg host m n t
            = (Continue (id, n'),
               t ++ [CallContainerCreate cfg host n; CallNow;
                     CallContainerCreate cfg host n']))
         \/ (exists r,
               status r = StatusInternalServerError /\
               createContainer W cfg host m n t
               = (Respond r,
                  t ++ [CallContainerCreate cfg host n; CallNow;
                        CallContainerCreate cfg host n'])))).
Proof.
  destruct (containerCreate W t cfg host n) as [id|err] eqn:E.
  - left. exists id. split; [reflexivity |].
    unfold createContainer, bind, call. rewrite E. reflexivity.
  - right.
    destruct (Contains err "already in use") eqn:Hu;
      [destruct (Contains err "container name") eqn:Hn |].
    + right. eexists. split; [reflexivity |].
      rewrite (createContainer_name_conflict W cfg host m n err t E Hu Hn).
      clear E.
      destruct (containerCreate W _ cfg host _) as [id|err'].
      * left. exists id. split; reflexivity.
      * right. eexists. split; [| reflexivity]. reflexivity.
    + left. unfold createContainer, bind, call. rewrite E, Hu, Hn.
      destruct (Contains err "bind host port").
      * destruct (Split m ":"%char) as [|a [|b l]];
          eexists; (split; [| reflexivity]); simpl; auto.
      * eexists. split; [| reflexivity]. simpl. auto.
    + left. unfold createContainer, bind, call. rewrite E, Hu.
      eexists. split; [| reflexivity]. simpl. auto.
Qed.

(** A request either stops before the create, refused and without any
    call that creates or changes a container, or reaches the create. *)
Lemma createHandler_cases (W : World) (body : Result CreateContainerRequest) :
  (Forall quiet (snd (serve (createHandler W body) [])) /\
   refusal (fst (serve (createHandler W body) [])))
  \/ (exists req i n cfg host m t2,
        body = Ok req /\ Forall quiet t2 /\
        configure W req i (snd (preamble W req [])) = (Continue (cfg, host, m), t2) /\
        serve (createHandler W body) []
        = serve (provision W req i n (cfg, host, m)) t2).
Proof.
  destruct body as [req|err].
  2:{ left. split; [constructor | refuse]. }
  destruct (adds_preamble W req []) as (d1 & Hd1 & Hq1).
  destruct (preamble W req []) as [[r|[i n]] t1] eqn:Hp; simpl in Hd1; subst t1.
  - left.
    assert (Hs : serve (createHandler W (Ok req)) [] = (r, d1)).
    { unfold serve. rewrite createHandler_stages. unfold bind at 1.
      rewrite Hp. reflexivity. }
    rewrite Hs. simpl. split; [exact Hq1 |].
    exact (answers_preamble W req _ _ _ Hp).
  - destruct (adds_configure W req i d1) as (d2 & Hd2 & Hq2).
    rewrite (serve_createHandler W req i n d1 Hp).
    destruct (configure W req i d1) as [[r|[[cfg host] m]] t2] eqn:Hc;
      simpl in Hd2; subst t2.
    + left.
      assert (Hs : serve (plan <- configure W req i ;;
                          provision W req i n plan) d1 = (r, d1 ++ d2)).
      { unfold serve, bind at 1. rewrite Hc. reflexivity. }
      rewrite Hs. simpl. split; [apply Forall_app; auto |].
      exact (answers_configure W req i _ _ _ Hc).
    + right. exists req, i, n, cfg, host, m, (d1 ++ d2).
      split; [reflexivity |]. split; [apply Forall_app; auto |].
      split; [rewrite Hp; exact Hc |].
      unfold serve, bind at 1. rewrite Hc. reflexivity.
Qed.

Lemma serve_bind_respond {R A : Type} (m : Handler R A) (k : A -> Handler R R)
  (t t' : Trace) (r : R) :
  m t = (Respond r, t') -> serve (bind m k) t = (r, t').
Proof. intros H. unfold serve, bind. rewrite H. reflexivity. Qed.

Lemma serve_bind_continue {R A : Type} (m : Handler R A)
  (k : A -> Handler R R) (t t' : Trace) (a : A) :
  m t = (Continue a, t') -> serve (bind m k) t = serve (k a) t'.
Proof. intros H. unfold serve, bind. rewrite H. reflexivity. Qed.

(** The outcomes of the create and start stages together.  Either a
    create succeeded, at once or on the retry, and the container was
    started; or no container was created and the request is refused. *)
Lemma provision_outcomes (W : World) (req : CreateContainerRequest)
  (i n m : string) (cfg : Config) (host : HostConfig) (t : Trace) :
  exists r t',
    serve (provision W req i n (cfg, host, m)) t = (r, t') /\
    ((exists pre name id,
        t' = pre ++ [CallContainerCreate cfg host name; CallContainerStart id]
        /\ (pre = t \/ pre = t ++ [CallContainerCreate cfg host n; CallNow])
        /\ containerCreate W pre cfg host name = Ok id
        /\ ((containerStart W (pre ++ [CallContainerCreate cfg host name]) id
             = None /\ status r = StatusOK /\
             exists rest,
               body r = ("id", id) :: ("name", name) :: ("image", i)
                        :: ("port", m) :: rest)
            \/ (containerStart W (pre ++ [CallContainerCreate cfg host name]) id
                <> None /\
                (status r = StatusConflict
                 \/ status r = StatusInternalServerError) /\
                In ("container_id", id) (body r))))
     \/ ((status r = StatusConflict \/ status r = StatusInternalServerError)
         /\ (t' = t ++ [CallContainerCreate cfg host n]
             \/ exists n',
                 t' = t ++ [CallContainerCreate cfg host n; CallNow;
                            CallContainerCreate cfg host n']))).
Proof.
  unfold provision.
  destruct (createContainer_cases W cfg host m n t)
    as [(id & Hok & Hrun) | [(r & Hst & Hrun) | (n' & Hn' & Hretry)]].
  - rewrite (serve_bind_continue _ _ _ _ _ Hrun).
    destruct (startContainer_cases W req i m id n
                (t ++ [CallContainerCreate cfg host n])) as (r & -> & Hr).
    exists r. eexists. split; [reflexivity |]. left.
    exists t, n, id. rewrite <- app_assoc. split; [reflexivity |].
    split; [now left |]. split; [exact Hok | exact Hr].
  - rewrite (serve_bind_respond _ _ _ _ _ Hrun).
    exists r. eexists. split; [reflexivity |]. right. split; [exact Hst |].
    now left.
  - destruct Hretry as [(id & Hok & Hrun) | (r & Hst & Hrun)].
    + rewrite (serve_bind_continue _ _ _ _ _ Hrun).
      destruct (startContainer_cases W req i m id n'
                  (t ++ [CallContainerCreate cfg host n; CallNow;
                         CallContainerCreate cfg host n'])) as (r & -> & Hr).
      exists r. eexists. split; [reflexivity |]. left.
      exists (t ++ [CallContainerCreate cfg host n; CallNow]), n', id.
      rewrite <- !app_assoc. simpl. split; [reflexivity |].
      split; [right; reflexivity |]. split; [exact Hok | exact Hr].
    + rewrite (serve_bind_respond _ _ _ _ _ Hrun).
      exists r. eexists. split; [reflexivity |]. right.
      split; [now right |]. right. exists n'. reflexivity.
Qed.

(** A request answered 400 made no call that creates or changes a
    container. *)
Theorem bad_request_never_mutates (W : World)
  (body : Result CreateContainerRequest) :
  status (fst (serve (createHandler W body) [])) = StatusBadRequest ->
  Forall quiet (snd (serve (createHandler W body) [])).
Proof.
  intros H400.
  destruct (createHandler_cases W body)
    as [[Hq _] | (req & i & n & cfg & host & m & t2 & _ & _ & _ & Hs)];
    [exact Hq |].
  exfalso. rewrite Hs in H400.
  destruct (provision_outcomes W req i n m cfg host t2)
    as (r & t' & Hr & Hcases).
  rewrite Hr in H400. simpl in H400.
  destruct Hcases
    as [(pre & name & id & _ & _ & _ & [(_ & Hst & _) | (_ & Hst & _)])
       | (Hst & _)];
    unfold StatusOK, StatusConflict, StatusInternalServerError,
      StatusBadRequest in *; lia.
Qed.

Lemma bad_request_never_mutates_witness :
  Forall quiet
    (snd (serve (createHandler (calmWorld [] [] 0)
                   (Ok (request "web" "nginx:latest" "x:80"))) [])).
Proof.
  apply (bad_request_never_mutates (calmWorld [] [] 0)
           (Ok (request "web" "nginx:latest" "x:80"))).
  reflexivity.
Defined.

(** A request answered 200 ends with a create that the daemon accepted
    and the start of the container it created; the response carries that
    container's id and the name it was created under. *)
Theorem success_reports_created (W : World)
  (input : Result CreateContainerRequest) :
  status (fst (serve (createHandler W input) [])) = StatusOK ->
  exists pre cfg host name id rest,
    snd (serve (createHandler W input) [])
    = pre ++ [CallContainerCreate cfg host name; CallContainerStart id] /\
    containerCreate W pre cfg host name = Ok id /\
    containerStart W (pre ++ [CallContainerCreate cfg host name]) id = None /\
    body (fst (serve (createHandler W input) []))
    = ("id", id) :: ("name", name) :: rest.
Proof.
  intros H200.
  destruct (createHandler_cases W input)
    as [[_ Href] | (req & i & n & cfg & host & m & t2 & _ & _ & _ & Hs)].
  { exfalso. unfold refusal, StatusOK, StatusBadRequest, StatusConflict,
      StatusInternalServerError in *. lia. }
  rewrite Hs in *.
  destruct (provision_outcomes W req i n m cfg host t2)
    as (r & t' & Hr & Hcases).
  rewrite Hr in *. simpl in *.
  destruct Hcases
    as [(pre & name & id & Ht' & _ & Hok & [(Hstart & _ & rest & Hb) | (_ & Hst & _)])
       | (Hst & _)].
  - exists pre, cfg, host, name, id. eexists. repeat split; eauto.
  - exfalso. unfold StatusOK, StatusConflict, StatusInternalServerError in *.
    lia.
  - exfalso. unfold StatusOK, StatusConflict, StatusInternalServerError in *.
    lia.
Qed.

Lemma success_reports_created_witness :
  exists pre cfg host name id rest,
    snd (serve (createHandler
                  (conflictOnceWorld
                     "Conflict. The container name /web is already in use by container 4f2a"
                     1700000000123456789)
                  (Ok (request "web" "nginx:latest" ""))) [])
    = pre ++ [CallContainerCreate cfg host name; CallContainerStart id] /\
    containerCreate
      (conflictOnceWorld
         "Conflict. The container name /web is already in use by container 4f2a"
         1700000000123456789) pre cfg host name = Ok id /\
    containerStart
      (conflictOnceWorld
         "Conflict. The container name /web is already in use by container 4f2a"
         1700000000123456789)
      (pre ++ [CallContainerCreate cfg host name]) id = None /\
    body (fst (serve (createHandler
                  (conflictOnceWorld
                     "Conflict. The container name /web is already in use by container 4f2a"
                     1700000000123456789)
                  (Ok (request "web" "nginx:latest" ""))) []))
    = ("id", id) :: ("name", name) :: rest.
Proof.
  apply (success_reports_created
           (conflictOnceWorld
              "Conflict. The container name /web is already in use by container 4f2a"
              1700000000123456789)
           (Ok (request "web" "nginx:latest" ""))).
  reflexivity.
Defined.

Lemma filter_isStart_quiet (l : list Call) :
  Forall quiet l -> List.filter isStart l = [].
Proof.
  induction 1 as [|c l Hc _ IH]; [reflexivity |].
  simpl. rewrite IH. destruct c; try reflexivity; discriminate Hc.
Qed.

(** Whatever the daemon answers, one request creates at most twice and
    starts at most once, and never stops, removes or restarts. *)
Theorem create_call_budget (W : World)
  (input : Result CreateContainerRequest) :
  (length (List.filter isCreate (snd (serve (createHandler W input) [])))
   <= 2)%nat /\
  (length (List.filter isStart (snd (serve (createHandler W input) [])))
   <= 1)%nat /\
  Forall (fun c => quiet c \/ isCreate c = true \/ isStart c = true)
         (snd (serve (createHandler W input) [])).
Proof.
  destruct (createHandler_cases W input)
    as [[Hq _] | (req & i & n & cfg & host & m & t2 & _ & Hq & _ & Hs)].
  - rewrite (filter_isCreate_quiet _ Hq), (filter_isStart_quiet _ Hq).
    repeat split; simpl; try lia.
    eapply Forall_impl; [exact Hq |]. intros c Hc. now left.
  - rewrite Hs.
    destruct (provision_outcomes W req i n m cfg host t2)
      as (r & t' & -> & Hcases). simpl.
    assert (Hq' : Forall (fun c => quiet c \/ isCreate c = true
                                   \/ isStart c = true) t2)
      by (eapply Forall_impl; [exact Hq |]; intros c Hc; now left).
    destruct Hcases
      as [(pre & name & id & -> & [-> | ->] & _) | (_ & [-> | (n' & ->)])];
      rewrite ?List.filter_app, (filter_isCreate_quiet _ Hq),
        (filter_isStart_quiet _ Hq);
      simpl; repeat split; try lia;
      repeat (apply Forall_app; split); auto;
      repeat first
        [ apply List.Forall_nil
        | apply List.Forall_cons;
          [first [ left; reflexivity
                 | right; left; reflexivity
                 | right; right; reflexivity ] |] ].
Qed.

(** When the start of the created container fails, the request is
    answered 409 or 500 and the response names the container. *)
Theorem start_failure_reports_container (W : World)
  (input : Result CreateContainerRequest) (pre : Trace) (id : string) :
  snd (serve (createHandler W input) []) = pre ++ [CallContainerStart id] ->
  status (fst (serve (createHandler W input) [])) <> StatusOK ->
  (status (fst (serve (createHandler W input) [])) = StatusConflict
   \/ status (fst (serve (createHandler W input) []))
      = StatusInternalServerError) /\
  In ("container_id", id) (body (fst (serve (createHandler W input) []))).
Proof.
  intros Ht Hne.
  destruct (createHandler_cases W input)
    as [[Hq _] | (req & i & n & cfg & host & m & t2 & _ & _ & _ & Hs)].
  - exfalso. rewrite Ht in Hq. apply Forall_app in Hq as [_ Hq].
    inversion Hq as [|c l Hc _]. discriminate Hc.
  - rewrite Hs in *.
    destruct (provision_outcomes W req i n m cfg host t2)
      as (r & t' & Hr & Hcases).
    rewrite Hr in *. simpl in *.
    destruct Hcases
      as [(pre' & name & id' & Ht' & _ & _ & Hstart)
         | (_ & [Ht' | (n' & Ht')])].
    + rewrite Ht' in Ht.
      change (pre' ++ [CallContainerCreate cfg host name;
                       CallContainerStart id'])
        with (pre' ++ [CallContainerCreate cfg host name]
                   ++ [CallContainerStart id']) in Ht.
      rewrite app_assoc in Ht. apply app_inj_tail in Ht as [_ Hid].
      injection Hid as ->.
      destruct Hstart as [(_ & H200 & _) | (_ & Hst & Hin)];
        [contradiction | auto].
    + exfalso. rewrite Ht' in Ht. apply app_inj_tail in Ht as [_ Hc].
      discriminate Hc.
    + exfalso. rewrite Ht' in Ht.
      change (t2 ++ [CallContainerCreate cfg host n; CallNow;
                     CallContainerCreate cfg host n'])
        with (t2 ++ [CallContainerCreate cfg host n; CallNow]
                 ++ [CallContainerCreate cfg host n']) in Ht.
      rewrite app_assoc in Ht. apply app_inj_tail in Ht as [_ Hc].
      discriminate Hc.
Qed.

Lemma start_failure_reports_container_witness :
  (status (fst (serve (createHandler (lackingWorld "c0ffee")
                         (Ok (request "web" "nginx:latest" ""))) []))
   = StatusConflict
   \/ status (fst (serve (createHandler (lackingWorld "c0ffee")
                            (Ok (request "web" "nginx:latest" ""))) []))
      = StatusInternalServerError) /\
  In ("container_id", "c0ffee")
     (body (fst (serve (createHandler (lackingWorld "c0ffee")
                          (Ok (request "web" "nginx:latest" ""))) []))).
Proof.
  apply (start_failure_reports_container (lackingWorld "c0ffee")
           (Ok (request "web" "nginx:latest" ""))
           [CallNewClient; CallPing; CallImageList;
            CallImagePull "nginx:latest"; CallReadAll;
            CallContainerList true;
            CallContainerCreate
              {| Image := "nginx:latest"; Tty := true; ExposedPorts := ∅ |}
              {| PortBindings := ∅ |} "web"]
           "c0ffee").
  - reflexivity.
  - vm_compute. discriminate.
Defined.

(** ** Printing a port and reading it back *)

Lemma digitsValue_cons (c : ascii) (s : string) (acc : Z) :
  isDigit c = true ->
  digitsValue (String c s) acc
  = digitsValue s (10 * acc + (Z.of_nat (nat_of_ascii c) - 48)).
Proof. intros H. simpl. now rewrite H. Qed.

Lemma digitsValue_of_uint_acc (d : Decimal.uint) :
  forall acc : positive,
    digitsValue (NilEmpty.string_of_uint d) (Z.pos acc)
    = Some (Z.pos (Pos.of_uint_acc d acc)).
Proof.
  induction d; intros acc; cbn [NilEmpty.string_of_uint Pos.of_uint_acc];
    [reflexivity | ..];
    rewrite digitsValue_cons by reflexivity;
    match goal with
    | |- digitsValue _ ?v = Some (Z.pos (Pos.of_uint_acc _ ?a)) =>
        replace v with (Z.pos a) by (vm_compute (Z.of_nat _); lia)
    end;
    apply IHd.
Qed.

Lemma digitsValue_of_uint (d : Decimal.uint) :
  digitsValue (NilEmpty.string_of_uint d) 0 = Some (Z.of_N (Pos.of_uint d)).
Proof.
  induction d; cbn [NilEmpty.string_of_uint Pos.of_uint];
    [reflexivity | ..];
    rewrite digitsValue_cons by reflexivity;
    [exact IHd | ..];
    match goal with
    | |- digitsValue _ ?v = Some (Z.of_N (N.pos (Pos.of_uint_acc _ ?a))) =>
        replace v with (Z.pos a) by (vm_compute; reflexivity)
    end;
    apply digitsValue_of_uint_acc.
Qed.

Lemma string_of_uint_head (d : Decimal.uint) :
  d <> Decimal.Nil ->
  exists c s,
    NilZero.string_of_uint d = String c s /\
    NilEmpty.string_of_uint d = String c s /\
    c <> "+"%char /\ c <> "-"%char.
Proof.
  intros H. destruct d; [congruence | ..];
    eexists; eexists; repeat split; discriminate.
Qed.

Lemma Atoi_digits (c : ascii) (s : string) (v : Z) :
  c <> "+"%char -> c <> "-"%char ->
  digitsValue (String c s) 0 = Some v ->
  minInt64 <= v <= maxInt64 ->
  Atoi (String c s) = Some v.
Proof.
  intros Hp Hm Hd Hr. unfold Atoi.
  assert (Hsplit :
    match String c s with
    | String "+"%char r => (false, r)
    | String "-"%char r => (true, r)
    | _ => (false, String c s)
    end = (false, String c s)).
  { destruct c as [[] [] [] [] [] [] [] []]; try reflexivity; congruence. }
  rewrite Hsplit, Hd.
  replace ((minInt64 <=? v) && (v <=? maxInt64)) with true; [reflexivity |].
  symmetry. apply andb_true_iff. split; apply Z.leb_le; lia.
Qed.

(** The decimal text of an [int] reads back as that [int]. *)
Lemma Atoi_Itoa (n : Z) :
  minInt64 <= n <= maxInt64 -> Atoi (Itoa n) = Some n.
Proof.
  intros Hr. unfold Itoa, FormatInt.
  destruct n as [|p|p]; [reflexivity | |].
  - cbn [Z.to_int NilZero.string_of_int].
    destruct (string_of_uint_head (Pos.to_uint p)
                (Unsigned.to_uint_nonnil p)) as (c & s & -> & He & Hp & Hm).
    apply Atoi_digits; auto.
    rewrite <- He, digitsValue_of_uint, Unsigned.of_to. reflexivity.
  - cbn [Z.to_int NilZero.string_of_int].
    destruct (string_of_uint_head (Pos.to_uint p)
                (Unsigned.to_uint_nonnil p)) as (c & s & -> & He & Hp & Hm).
    unfold Atoi.
    assert (Hd : digitsValue (String c s) 0 = Some (Z.pos p))
      by (rewrite <- He, digitsValue_of_uint, Unsigned.of_to; reflexivity).
    rewrite Hd.
    replace ((minInt64 <=? - Z.pos p) && (- Z.pos p <=? maxInt64)) with true;
      [reflexivity |].
    symmetry. apply andb_true_iff. split; apply Z.leb_le; lia.
Qed.

(** ** The host port that is bound *)

Lemma isPortInUse_continue (W : World) (p : Z) (t : Trace) :
  exists b t',
    isPortInUse W p t = (Continue b, t') /\ (p = 8080 -> b = true).
Proof.
  unfold isPortInUse. destruct (Z.eqb_spec p 8080) as [->|Hne].
  - exists true, t. split; [reflexivity | auto].
  - unfold bind, call. destruct (containerList W t) as [cs|e];
      eexists; eexists; (split; [reflexivity | intros; contradiction]).
Qed.

(** In any world, a port the scan gives is in the scanned range and is
    not 8080. *)
Lemma scanPorts_found (W : World) (n : nat) :
  forall (i : Z) (t t' : Trace) (k : Z),
    scanPorts W n i t = (Continue (Some k), t') ->
    i <= k < i + Z.of_nat n /\ k <> 8080.
Proof.
  induction n as [|n IH]; intros i t t' k H; [discriminate H |].
  cbn [scanPorts] in H. unfold bind at 1 in H.
  destruct (isPortInUse_continue W i t) as (b & t1 & Hb & H8080).
  rewrite Hb in H. destruct b.
  - apply IH in H. lia.
  - injection H as <- _. split; [lia |]. intros ->.
    specialize (H8080 eq_refl). discriminate.
Qed.

Lemma wrapInt_range (n : Z) : minInt64 <= wrapInt n <= maxInt64.
Proof.
  unfold wrapInt, minInt64, maxInt64.
  pose proof (Z.mod_pos_bound (n - - 2 ^ 63) (2 ^ 64) ltac:(lia)). lia.
Qed.

Lemma findHostPort_final (W : World) (h final : string) (p : Z)
  (t t' : Trace) :
  findHostPort W h p t = (Continue final, t') ->
  (final = h /\ p <> 8080)
  \/ exists k, final = Itoa k /\ k <> 8080 /\ minInt64 <= k <= 9999.
Proof.
  unfold findHostPort, bind at 1. intros H.
  destruct (isPortInUse_continue W p t) as (b & t1 & Hb & H8080).
  rewrite Hb in H. destruct b.
  - right. unfold bind at 1, scanRange in H.
    pose proof (wrapInt_range (p + 1)) as Hw.
    destruct (scanPorts W _ (wrapInt (p + 1)) t1) as [[r|[k|]] t2] eqn:E1;
      [discriminate H | |].
    + injection H as <- _. apply scanPorts_found in E1.
      exists k. split; [reflexivity |]. split; [tauto |].
      unfold minInt64, maxInt64 in *. lia.
    + unfold bind at 1 in H.
      destruct (scanPorts W _ 8081 t2) as [[r|[k|]] t3] eqn:E2;
        [discriminate H | | discriminate H].
      injection H as <- _. apply scanPorts_found in E2.
      exists k. split; [reflexivity |]. split; [tauto |].
      unfold minInt64. lia.
  - left. injection H as <- _. split; [reflexivity |]. intros ->.
    specialize (H8080 eq_refl). discriminate.
Qed.

(** Whatever the daemon answers, the configuration handed to the create
    never binds host port 8080: every bound host port is a text that
    reads as an [int] other than 8080. *)
Theorem never_binds_8080 (W : World) (req : CreateContainerRequest)
  (i m port : string) (cfg : Config) (host : HostConfig) (t t' : Trace)
  (bs : list PortBinding) (b : PortBinding) :
  configure W req i t = (Continue (cfg, host, m), t') ->
  PortBindings host !! port = Some bs ->
  In b bs ->
  exists k, Atoi (HostPort b) = Some k /\ k <> 8080.
Proof.
  unfold configure. intros H Hl Hin.
  destruct (String.eqb (ReqPort req) "").
  { injection H as _ <- _ _. simpl in Hl. rewrite lookup_empty in Hl.
    discriminate. }
  destruct (Split (ReqPort req) ":"%char) as [|hp [|c [|x l]]];
    try (injection H as _ <- _ _; simpl in Hl; rewrite lookup_empty in Hl;
         discriminate).
  destruct (Atoi hp) as [p|] eqn:Ha; [| discriminate H].
  unfold bind in H.
  destruct (findHostPort W hp p t) as [[r|final] t1] eqn:Hf;
    [discriminate H |].
  injection H as _ <- _ _. simpl in Hl.
  apply lookup_singleton_Some in Hl as [_ <-].
  destruct Hin as [<- | []]. simpl.
  destruct (findHostPort_final W hp final p t t1 Hf)
    as [[-> Hne] | (k & -> & Hne & Hr)].
  - exists p. auto.
  - exists k. split; [| exact Hne]. apply Atoi_Itoa.
    unfold maxInt64. lia.
Qed.

Lemma never_binds_8080_witness :
  exists k,
    Atoi (HostPort {| HostIP := "0.0.0.0"; HostPort := "8081" |}) = Some k
    /\ k <> 8080.
Proof.
  apply (never_binds_8080 (calmWorld [] [] 0)
           (request "web" "nginx:latest" "8080:80") "nginx:latest"
           "8081:80" "80/tcp" (boundConfig "nginx:latest" "80")
           (boundHost "8081" "80") [] [CallContainerList true]
           [{| HostIP := "0.0.0.0"; HostPort := "8081" |}]).
  - reflexivity.
  - reflexivity.
  - left. reflexivity.
Defined.

(** ** The image and the name on the paths without conflict *)

Lemma existsb_tags (images : list ImageSummary) (imageName : string) :
  existsb (fun img => existsb (String.eqb imageName) (RepoTags img)) images
  = true
  <-> In imageName (flat_map RepoTags images).
Proof.
  rewrite existsb_exists, in_flat_map. split.
  - intros (img & Hin & Htag). exists img. split; [exact Hin |].
    apply existsb_exists in Htag as (tag & Htag & Heq).
    apply String.eqb_eq in Heq. now subst.
  - intros (img & Hin & Htag). exists img. split; [exact Hin |].
    apply existsb_exists. exists imageName. split; [exact Htag |].
    apply String.eqb_refl.
Qed.

(** The image is pulled exactly when the local images could be listed
    and none carries it as a tag.  When the listing fails the handler
    goes on without a pull. *)
Theorem image_pulled_iff_missing (W : World) (req : CreateContainerRequest)
  (t : Trace) :
  (pullSkipped (imageList W t) (requestedImage req) ->
   resolveImage W req t
   = (Continue (requestedImage req), t ++ [CallImageList]))
  /\ (~ pullSkipped (imageList W t) (requestedImage req) ->
      exists rest,
        snd (resolveImage W req t)
        = t ++ [CallImageList; CallImagePull (requestedImage req)] ++ rest).
Proof.
  split; intros H; unfold resolveImage, pullSkipped in *;
    fold (requestedImage req); unfold bind at 1, call at 1;
    destruct (imageList W t) as [images|e]; try reflexivity; try tauto.
  - apply existsb_tags in H. rewrite H. reflexivity.
  - destruct (existsb (fun img => existsb (String.eqb (requestedImage req))
                                          (RepoTags img)) images) eqn:E;
      [apply existsb_tags in E; contradiction |].
    unfold bind, call.
    destruct (imagePull W (t ++ [CallImageList]) (requestedImage req));
      [exists [] |
       destruct (readAll W ((t ++ [CallImageList])
                            ++ [CallImagePull (requestedImage req)]));
       exists [CallReadAll]];
      simpl; rewrite <- ?app_assoc; reflexivity.
Qed.

(** A requested name that no listed container carries, or that could not
    be checked because the listing failed, is used as it is. *)
Theorem free_name_kept (W : World) (req : CreateContainerRequest)
  (t : Trace) :
  Name req <> "" ->
  match containerList W t with
  | Ok cs => ~ In (Name req) (existingNames cs)
  | Err _ => True
  end ->
  resolveName W req t = (Continue (Name req), t ++ [CallContainerList true]).
Proof.
  intros Hne H. unfold resolveName.
  destruct (String.eqb_spec (Name req) "") as [E|_]; [contradiction |].
  unfold bind, call. destruct (containerList W t) as [cs|e]; [| reflexivity].
  apply renameOverContainers_absent. exact H.
Qed.

Lemma free_name_kept_witness :
  resolveName (calmWorld [] [container "a1" "/db" [5432]] 0)
              (request "web" "nginx:latest" "") []
  = (Continue "web", [] ++ [CallContainerList true]).
Proof.
  apply (free_name_kept (calmWorld [] [container "a1" "/db" [5432]] 0)
           (request "web" "nginx:latest" "") []).
  - discriminate.
  - simpl. intros [H | []]. discriminate H.
Defined.

(** The configuration handed to the create exposes exactly the ports it
    binds, at most one; the port is a TCP port bound once, on 0.0.0.0,
    and the reported mapping is its host port, a colon and the container
    port. *)
Theorem configure_exposes_what_it_binds (W : World)
  (req : CreateContainerRequest) (i m : string) (cfg : Config)
  (host : HostConfig) (t t' : Trace) :
  configure W req i t = (Continue (cfg, host, m), t') ->
  Image cfg = i /\ Tty cfg = true /\
  ExposedPorts cfg = dom (PortBindings host) /\
  (size (PortBindings host) <= 1)%nat /\
  (PortBindings host = ∅ -> m = "none") /\
  forall port bs,
    PortBindings host !! port = Some bs ->
    exists hostPort containerPort,
      port = containerPort +:+ "/tcp" /\
      bs = [ {| HostIP := "0.0.0.0"; HostPort := hostPort |} ] /\
      m = hostPort +:+ ":" +:+ containerPort.
Proof.
  unfold configure. intros H.
  assert (Hnone :
    (cfg, host, m) = ({| Image := i; Tty := true; ExposedPorts := ∅ |},
                      {| PortBindings := ∅ |}, "none") ->
    Image cfg = i /\ Tty cfg = true /\
    ExposedPorts cfg = dom (PortBindings host) /\
    (size (PortBindings host) <= 1)%nat /\
    (PortBindings host = ∅ -> m = "none") /\
    forall port bs,
      PortBindings host !! port = Some bs ->
      exists hostPort containerPort,
        port = containerPort +:+ "/tcp" /\
        bs = [ {| HostIP := "0.0.0.0"; HostPort := hostPort |} ] /\
        m = hostPort +:+ ":" +:+ containerPort).
  { intros E. injection E as -> -> ->. simpl.
    rewrite dom_empty_L, map_size_empty.
    repeat split; auto. intros port bs Hl. rewrite lookup_empty in Hl.
    discriminate. }
  destruct (String.eqb (ReqPort req) "");
    [apply Hnone; unfold ret in H; congruence |].
  destruct (Split (ReqPort req) ":"%char) as [|hp [|c [|x l]]];
    try (apply Hnone; unfold ret in H; congruence).
  destruct (Atoi hp) as [p|]; [| discriminate H].
  unfold bind in H.
  destruct (findHostPort W hp p t) as [[r|final] t1]; [discriminate H |].
  injection H as <- <- <- _. simpl.
  rewrite dom_singleton_L, map_size_singleton.
  repeat split; auto.
  - intros E. exfalso. apply (f_equal (fun mp => mp !! (c +:+ "/tcp"))) in E.
    rewrite lookup_singleton_eq, lookup_empty in E. discriminate.
  - intros port bs Hl. apply lookup_singleton_Some in Hl as [<- <-].
    exists final, c. repeat split.
Qed.

Lemma configure_exposes_what_it_binds_witness :
  Image (boundConfig "nginx:latest" "80") = "nginx:latest" /\
  Tty (boundConfig "nginx:latest" "80") = true /\
  ExposedPorts (boundConfig "nginx:latest" "80")
  = dom (PortBindings (boundHost "8081" "80")) /\
  (size (PortBindings (boundHost "8081" "80")) <= 1)%nat /\
  (PortBindings (boundHost "8081" "80") = ∅ -> "8081:80" = "none") /\
  forall port bs,
    PortBindings (boundHost "8081" "80") !! port = Some bs ->
    exists hostPort containerPort,
      port = containerPort +:+ "/tcp" /\
      bs = [ {| HostIP := "0.0.0.0"; HostPort := hostPort |} ] /\
      "8081:80" = hostPort +:+ ":" +:+ containerPort.
Proof.
  apply (configure_exposes_what_it_binds (calmWorld [] [] 0)
           (request "web" "nginx:latest" "8080:80") "nginx:latest"
           "8081:80" (boundConfig "nginx:latest" "80")
           (boundHost "8081" "80") [] [CallContainerList true]).
  reflexivity.
Defined.

(** ** The two classifications of a start failure *)

(** [POST /create] and [GET /start/:id] answer 409 for the same
    messages, and report the same port when the message names a host
    port bind; for a message with ["address already in use"] only, the
    create handler reports no port, whatever the message holds. *)
Theorem start_classifiers_agree (msg name : string) :
  (status (startFailureResponse msg name) = StatusConflict
   <-> fst (classifyStartFailure msg) <> "") /\
  (Contains msg "bind host port" = true ->
   body (startFailureResponse msg name)
   = [("conflict_type", "port_conflict");
      ("port_in_conflict", snd (classifyStartFailure msg))]) /\
  (Contains msg "bind host port" = false ->
   snd (classifyStartFailure msg) = "").
Proof.
  unfold startFailureResponse, classifyStartFailure.
  destruct (Contains msg "bind host port");
    [| destruct (Contains msg "address already in use")]; simpl;
    repeat split; intros; try reflexivity; try discriminate; congruence.
Qed.

(** ** Looking a container up *)

Lemma substring_all (s : string) (m : nat) :
  (String.length s <= m)%nat -> String.substring 0 m s = s.
Proof.
  revert m. induction s as [|x s IH]; intros [|m] H; simpl in *;
    try reflexivity; try lia.
  rewrite IH by lia. reflexivity.
Qed.

Lemma matchesID_short (c : Container) (containerID : string) :
  (String.length (ID c) < 12)%nat ->
  matchesID c containerID = String.eqb (ID c) containerID.
Proof.
  intros H. unfold matchesID, slice. simpl Z.to_nat.
  rewrite substring_all by (simpl; lia). apply orb_diag.
Qed.

Lemma findContainer_matchID (c : Container) (rest : list Container)
  (containerID acc : string) :
  matchesID c containerID = true ->
  findContainer (c :: rest) containerID acc = Some (ID c).
Proof.
  intros H. cbn [findContainer].
  destruct (String.eqb (ID c) containerID) eqn:E; [reflexivity |].
  destruct (String.length (ID c) <? 12)%nat eqn:El.
  - apply Nat.ltb_lt in El. rewrite (matchesID_short _ _ El) in H. congruence.
  - unfold matchesID in H. rewrite E in H. simpl in H. now rewrite H.
Qed.

Lemma findContainer_skip (c : Container) (rest : list Container)
  (containerID acc : string) :
  matchesID c containerID = false ->
  (12 <= String.length (ID c))%nat ->
  findContainer (c :: rest) containerID acc
  = findContainer rest containerID
      (if matchesName c containerID then ID c else acc).
Proof.
  intros H Hl. cbn [findContainer]. unfold matchesID in H.
  apply orb_false_iff in H as [-> ->].
  replace (String.length (ID c) <? 12)%nat with false
    by (symmetry; apply Nat.ltb_ge; lia).
  reflexivity.
Qed.

Lemma findContainer_result (containerID : string) (cs : list Container) :
  longIDs cs ->
  forall acc,
    exists target,
      findContainer cs containerID acc = Some target /\
      ((target = acc /\
        forall c, In c cs ->
                  matchesID c containerID = false /\
                  matchesName c containerID = false)
       \/ exists c, In c cs /\ ID c = target /\
                    (matchesID c containerID = true
                     \/ matchesName c containerID = true)).
Proof.
  induction 1 as [|c cs Hc Hcs IH]; intros acc.
  - exists acc. split; [reflexivity |]. left. split; [reflexivity |].
    intros c [].
  - destruct (matchesID c containerID) eqn:Em.
    + exists (ID c). split; [now apply findContainer_matchID |].
      right. exists c. split; [now left |]. auto.
    + rewrite (findContainer_skip _ _ _ _ Em Hc).
      destruct (IH (if matchesName c containerID then ID c else acc))
        as (target & -> & Hcase).
      exists target. split; [reflexivity |].
      destruct Hcase as [[-> Hno] | (c' & Hin & Hid & Hm)].
      * destruct (matchesName c containerID) eqn:En.
        -- right. exists c. split; [now left |]. auto.
        -- left. split; [reflexivity |].
           intros c' [<- | Hin]; auto.
      * right. exists c'. split; [now right |]. auto.
Qed.

Lemma longIDs_nonempty (cs : list Container) (c : Container) :
  longIDs cs -> In c cs -> ID c <> "".
Proof.
  intros Hl Hin E. unfold longIDs in Hl. rewrite List.Forall_forall in Hl.
  specialize (Hl c Hin). rewrite E in Hl. simpl in Hl. lia.
Qed.

Lemma findContainer_finds_a_match_aux (containerID : string)
  (cs : list Container) :
  longIDs cs ->
  exists target,
    findContainer cs containerID "" = Some target /\
    (target = "" <->
     forall c, In c cs ->
               matchesID c containerID = false /\
               matchesName c containerID = false).
Proof.
  intros Hl.
  destruct (findContainer_result containerID cs Hl "")
    as (target & Hf & Hcase).
  exists target. split; [exact Hf |]. split.
  - intros ->. destruct Hcase as [[_ Hno] | (c & Hin & Hid & _)];
      [exact Hno |].
    exfalso. exact (longIDs_nonempty cs c Hl Hin Hid).
  - intros Hno. destruct Hcase as [[-> _] | (c & Hin & _ & Hm)];
      [reflexivity |].
    destruct (Hno c Hin) as [H1 H2]. destruct Hm; congruence.
Qed.

(** With IDs of 12 bytes or more, the lookup gives the ID of a listed
    container that [containerID] names by ID, by short ID or by name, and
    gives [""] exactly when it names none. *)
Theorem findContainer_finds_a_match (cs : list Container)
  (containerID : string) :
  longIDs cs ->
  exists target,
    findContainer cs containerID "" = Some target /\
    (target = "" <->
     forall c, In c cs ->
               matchesID c containerID = false /\
               matchesName c containerID = false) /\
    (target <> "" ->
     exists c, In c cs /\ ID c = target /\
               (matchesID c containerID = true
                \/ matchesName c containerID = true)).
Proof.
  intros Hl.
  destruct (findContainer_result containerID cs Hl "")
    as (target & Hf & Hcase).
  exists target. split; [exact Hf |]. split; [split |].
  - intros ->. destruct Hcase as [[_ Hno] | (c & Hin & Hid & _)];
      [exact Hno |].
    exfalso. exact (longIDs_nonempty cs c Hl Hin Hid).
  - intros Hno. destruct Hcase as [[-> _] | (c & Hin & _ & Hm)];
      [reflexivity |].
    destruct (Hno c Hin) as [H1 H2]. destruct Hm; congruence.
  - intros Hne. destruct Hcase as [[-> _] | Hex]; [contradiction | exact Hex].
Qed.

Lemma findContainer_finds_a_match_witness :
  exists target,
    findContainer [container "4f2a9c0b7d1e88aa" "/web" [8081];
                   container "9b1c3d5e7f9a22bb" "/db" [5432]] "db" ""
    = Some target /\
    (target = "" <->
     forall c,
       In c [container "4f2a9c0b7d1e88aa" "/web" [8081];
             container "9b1c3d5e7f9a22bb" "/db" [5432]] ->
       matchesID c "db" = false /\ matchesName c "db" = false) /\
    (target <> "" ->
     exists c,
       In c [container "4f2a9c0b7d1e88aa" "/web" [8081];
             container "9b1c3d5e7f9a22bb" "/db" [5432]] /\
       ID c = target /\
       (matchesID c "db" = true \/ matchesName c "db" = true)).
Proof.
  apply (findContainer_finds_a_match
           [container "4f2a9c0b7d1e88aa" "/web" [8081];
            container "9b1c3d5e7f9a22bb" "/db" [5432]] "db").
  repeat constructor; simpl; lia.
Defined.

(** When the containers listed before it have IDs of 12 bytes or more,
    none of which is named by ID or short ID, a container named by its ID
    or short ID is the one found, whatever names those before it carry.
    (A shorter ID before it makes the lookup panic instead.) *)
Theorem findContainer_id_before_names (pre post : list Container)
  (c : Container) (containerID acc : string) :
  longIDs pre ->
  (forall c', In c' pre -> matchesID c' containerID = false) ->
  matchesID c containerID = true ->
  findContainer (pre ++ c :: post) containerID acc = Some (ID c).
Proof.
  intros Hl. revert acc.
  induction Hl as [|c' pre Hc' _ IH]; intros acc Hno Hm; simpl app.
  - now apply findContainer_matchID.
  - rewrite findContainer_skip by (auto; apply Hno; now left).
    apply IH; auto. intros c'' Hin. apply Hno. now right.
Qed.

Lemma findContainer_id_before_names_witness :
  findContainer ([container "4f2a9c0b7d1e88aa" "/9b1c3d5e7f9a" [8081]]
                 ++ container "9b1c3d5e7f9a22bb" "/db" [5432] :: [])
                "9b1c3d5e7f9a" ""
  = Some (ID (container "9b1c3d5e7f9a22bb" "/db" [5432])).
Proof.
  apply (findContainer_id_before_names
           [container "4f2a9c0b7d1e88aa" "/9b1c3d5e7f9a" [8081]] []
           (container "9b1c3d5e7f9a22bb" "/db" [5432]) "9b1c3d5e7f9a" "").
  - repeat constructor; simpl; lia.
  - intros c' [<- | []]. reflexivity.
  - reflexivity.
Defined.

(** A listed ID shorter than 12 bytes that is not the requested one makes
    [c.ID[:12]] panic, when no container before it ended the loop. *)
Theorem findContainer_short_id_panics (pre post : list Container)
  (c : Container) (containerID acc : string) :
  longIDs pre ->
  (forall c', In c' pre -> matchesID c' containerID = false) ->
  (String.length (ID c) < 12)%nat ->
  ID c <> containerID ->
  findContainer (pre ++ c :: post) containerID acc = None.
Proof.
  intros Hl. revert acc.
  induction Hl as [|c' pre Hc' _ IH]; intros acc Hno Hs Hne; simpl app.
  - cbn [findContainer]. apply String.eqb_neq in Hne. rewrite Hne.
    apply Nat.ltb_lt in Hs. now rewrite Hs.
  - rewrite findContainer_skip by (auto; apply Hno; now left).
    apply IH; auto. intros c'' Hin. apply Hno. now right.
Qed.

Lemma findContainer_short_id_panics_witness :
  findContainer ([] ++ container "4f2a" "/web" [8081] :: []) "web" "" = None.
Proof.
  apply (findContainer_short_id_panics [] []
           (container "4f2a" "/web" [8081]) "web" "").
  - constructor.
  - intros c' [].
  - simpl. lia.
  - discriminate.
Defined.

(** [GET /start/:id] finds the same container as [GET /stop/:id] and
    [GET /remove/:id]. *)
Theorem lookups_agree (cs : list Container) (containerID : string) :
  forall acc name,
    option_map fst (findContainerNamed cs containerID acc name)
    = findContainer cs containerID acc.
Proof.
  induction cs as [|c cs IH]; intros acc name; [reflexivity |].
  cbn [findContainerNamed findContainer].
  destruct (String.eqb (ID c) containerID); [reflexivity |].
  destruct (String.length (ID c) <? 12)%nat; [reflexivity |].
  destruct (String.eqb (slice (ID c) 0 12) containerID); [reflexivity |].
  destruct (existsb _ (Names c)); apply IH.
Qed.

(** ** [GET /remove/:id] *)

Lemma removeHandler_listed (W : World) (containerID : string)
  (cs : list Container) (t1 : Trace) :
  connect W [] = (Continue tt, t1) ->
  containerList W t1 = Ok cs ->
  serve (removeHandler W containerID) []
  = match findContainer cs containerID "" with
    | None =>
        ({| status := StatusInternalServerError; body := [] |},
         t1 ++ [CallContainerList true])
    | Some target =>
        if String.eqb target "" then
          ({| status := 404;
              body := [("error", "Container not found: " +:+ containerID)] |},
           t1 ++ [CallContainerList true])
        else
          (match containerRemove W (t1 ++ [CallContainerList true]) target true
           with
           | Some err =>
               {| status := StatusInternalServerError;
                  body := [("error", "Error removing container: " +:+ err)] |}
           | None =>
               {| status := StatusOK;
                  body := [("message",
                    "Container " +:+ containerID
                    +:+ " removed successfully")] |}
           end,
           t1 ++ [CallContainerList true; CallContainerRemove target true])
    end.
Proof.
  intros Hc Hl. unfold removeHandler.
  rewrite (serve_bind_continue _ _ _ _ _ Hc).
  unfold serve, bind at 1, call at 1. rewrite Hl.
  destruct (findContainer cs containerID "") as [target|]; [| reflexivity].
  destruct (String.eqb target ""); [reflexivity |].
  unfold bind, call. rewrite <- app_assoc. simpl.
  now destruct (containerRemove W _ target true).
Qed.

(** An id that names no listed container is answered 404 with the id
    echoed, and nothing is removed. *)
Theorem remove_unknown_is_404 (W : World) (containerID : string)
  (cs : list Container) (t1 : Trace) :
  connect W [] = (Continue tt, t1) ->
  containerList W t1 = Ok cs ->
  longIDs cs ->
  (forall c, In c cs ->
             matchesID c containerID = false /\
             matchesName c containerID = false) ->
  serve (removeHandler W containerID) []
  = ({| status := 404;
        body := [("error", "Container not found: " +:+ containerID)] |},
     t1 ++ [CallContainerList true]).
Proof.
  intros Hc Hl Hlong Hno.
  rewrite (removeHandler_listed W containerID cs t1 Hc Hl).
  destruct (findContainer_finds_a_match_aux containerID cs Hlong)
    as (target & -> & Hiff).
  apply Hiff in Hno. subst target. reflexivity.
Qed.

Lemma remove_unknown_is_404_witness :
  serve (removeHandler
           (calmWorld [] [container "4f2a9c0b7d1e88aa" "/web" [8081]] 0)
           "db") []
  = ({| status := 404;
        body := [("error", "Container not found: " +:+ "db")] |},
     [CallNewClient; CallPing] ++ [CallContainerList true]).
Proof.
  apply (remove_unknown_is_404
           (calmWorld [] [container "4f2a9c0b7d1e88aa" "/web" [8081]] 0)
           "db" [container "4f2a9c0b7d1e88aa" "/web" [8081]]
           [CallNewClient; CallPing]).
  - reflexivity.
  - reflexivity.
  - repeat constructor; simpl; lia.
  - intros c [<- | []]. split; reflexivity.
Defined.

(** When every listed ID has 12 bytes or more, a container named by ID,
    short ID or name is removed by force under its full ID, in one call;
    the answer is 200 and echoes the id as requested when the daemon
    removes it, and 500 with the daemon's error otherwise. *)
Theorem remove_found_by_full_id (W : World) (containerID : string)
  (cs : list Container) (c : Container) (t1 : Trace) :
  connect W [] = (Continue tt, t1) ->
  containerList W t1 = Ok cs ->
  longIDs cs ->
  In c cs ->
  matchesID c containerID || matchesName c containerID = true ->
  exists c',
    In c' cs /\
    (matchesID c' containerID = true \/ matchesName c' containerID = true) /\
    serve (removeHandler W containerID) []
    = (match containerRemove W (t1 ++ [CallContainerList true]) (ID c') true
       with
       | Some err =>
           {| status := StatusInternalServerError;
              body := [("error", "Error removing container: " +:+ err)] |}
       | None =>
           {| status := StatusOK;
              body := [("message",
                "Container " +:+ containerID +:+ " removed successfully")] |}
       end,
       t1 ++ [CallContainerList true; CallContainerRemove (ID c') true]).
Proof.
  intros Hc Hl Hlong Hin Hm.
  rewrite (removeHandler_listed W containerID cs t1 Hc Hl).
  destruct (findContainer_result containerID cs Hlong "")
    as (target & -> & [[_ Hno] | (c' & Hin' & <- & Hm')]).
  - exfalso. destruct (Hno c Hin) as [H1 H2]. rewrite H1, H2 in Hm.
    discriminate.
  - exists c'. split; [exact Hin' |]. split; [exact Hm' |].
    pose proof (longIDs_nonempty cs c' Hlong Hin') as Hne.
    apply String.eqb_neq in Hne. rewrite Hne. reflexivity.
Qed.

Lemma remove_found_by_full_id_witness :
  exists c',
    In c' [container "4f2a9c0b7d1e88aa" "/web" [8081]] /\
    (matchesID c' "web" = true \/ matchesName c' "web" = true) /\
    serve (removeHandler
             (calmWorld [] [container "4f2a9c0b7d1e88aa" "/web" [8081]] 0)
             "web") []
    = (match containerRemove
               (calmWorld [] [container "4f2a9c0b7d1e88aa" "/web" [8081]] 0)
               ([CallNewClient; CallPing] ++ [CallContainerList true])
               (ID c') true
       with
       | Some err =>
           {| status := StatusInternalServerError;
              body := [("error", "Error removing container: " +:+ err)] |}
       | None =>
           {| status := StatusOK;
              body := [("message",
                "Container " +:+ "web" +:+ " removed successfully")] |}
       end,
       [CallNewClient; CallPing]
       ++ [CallContainerList true; CallContainerRemove (ID c') true]).
Proof.
  apply (remove_found_by_full_id
           (calmWorld [] [container "4f2a9c0b7d1e88aa" "/web" [8081]] 0)
           "web" [container "4f2a9c0b7d1e88aa" "/web" [8081]]
           (container "4f2a9c0b7d1e88aa" "/web" [8081])
           [CallNewClient; CallPing]).
  - reflexivity.
  - reflexivity.
  - repeat constructor; simpl; lia.
  - left. reflexivity.
  - reflexivity.
Defined.

(** Whatever the daemon answers, a remove request makes at most one call
    that changes a container, its last, and that call is a forced
    removal. *)
Theorem remove_only_removes (W : World) (containerID : string) :
  exists pre,
    Forall quiet pre /\
    (snd (serve (removeHandler W containerID) []) = pre
     \/ exists target,
          snd (serve (removeHandler W containerID) [])
          = pre ++ [CallContainerRemove target true]).
Proof.
  remember (snd (serve (removeHandler W containerID) [])) as tr eqn:Htr.
  rewrite snd_serve in Htr. unfold removeHandler, bind at 1 in Htr.
  destruct (adds_connect W []) as (d & Hd & Hq).
  destruct (connect W []) as [[r|[]] t1]; simpl in Hd; subst t1.
  { exists d. subst tr. split; [exact Hq | now left]. }
  unfold bind at 1, call at 1 in Htr.
  assert (Hq' : Forall quiet (d ++ [CallContainerList true]))
    by (apply Forall_app; split; [exact Hq | repeat constructor]).
  exists (d ++ [CallContainerList true]). split; [exact Hq' |].
  destruct (containerList W d) as [cs|e]; [| subst tr; now left].
  destruct (findContainer cs containerID "") as [target|];
    [| subst tr; now left].
  destruct (String.eqb target ""); [subst tr; now left |].
  right. exists target. unfold bind, call in Htr.
  destruct (containerRemove W (d ++ [CallContainerList true]) target true);
    subst tr; reflexivity.
Qed.

(** ** [POST /images/pull] *)

Lemma pullReference_empty (req : ImageRequest) :
  pullReference req = "" <-> ImgName req = "" /\ ImgTag req = "".
Proof.
  unfold pullReference. destruct (String.eqb_spec (ImgTag req) "") as [E|E].
  - rewrite E. tauto.
  - split; [| tauto]. intros H. exfalso.
    destruct (ImgName req); discriminate H.
Qed.

Lemma pullHandler_connected (W : World) (req : ImageRequest) (t1 : Trace) :
  connect W [] = (Continue tt, t1) ->
  serve (pullHandler W (Ok req)) []
  = if String.eqb (pullReference req) "" then
      ({| status := StatusBadRequest;
          body := [("error", "Image name is required")] |}, t1)
    else
      match imagePull W t1 (pullReference req) with
      | Some err =>
          ({| status := StatusInternalServerError;
              body := [("error", "Error pulling image: " +:+ err)] |},
           t1 ++ [CallImagePull (pullReference req)])
      | None =>
          (match readAll W (t1 ++ [CallImagePull (pullReference req)]) with
           | Some err =>
               {| status := StatusInternalServerError;
                  body := [("error", "Error reading pull output: " +:+ err)] |}
           | None =>
               {| status := StatusOK;
                  body := [("message", "Image pulled successfully");
                           ("image", pullReference req)] |}
           end,
           t1 ++ [CallImagePull (pullReference req); CallReadAll])
      end.
Proof.
  intros Hc. unfold pullHandler.
  rewrite (serve_bind_continue _ _ _ _ _ Hc).
  destruct (String.eqb (pullReference req) ""); [reflexivity |].
  unfold serve, bind, call.
  destruct (imagePull W t1 (pullReference req)); [reflexivity |].
  rewrite <- app_assoc. simpl.
  now destruct (readAll W _).
Qed.

(** Once the daemon is reached, a pull request is answered 400 exactly
    when both the name and the tag are empty: a tag without a name is
    pulled as [":tag"]. *)
Theorem pull_refused_iff_no_name_no_tag (W : World) (req : ImageRequest)
  (t1 : Trace) :
  connect W [] = (Continue tt, t1) ->
  (status (fst (serve (pullHandler W (Ok req)) [])) = StatusBadRequest
   <-> ImgName req = "" /\ ImgTag req = "")
  /\ (ImgTag req <> "" ->
      exists rest,
        snd (serve (pullHandler W (Ok req)) [])
        = t1 ++ CallImagePull (ImgName req +:+ ":" +:+ ImgTag req) :: rest).
Proof.
  intros Hc. rewrite (pullHandler_connected W req t1 Hc). split.
  - rewrite <- pullReference_empty.
    destruct (String.eqb_spec (pullReference req) "") as [E|E].
    + simpl. tauto.
    + split; [| contradiction].
      destruct (imagePull W t1 (pullReference req));
        [| destruct (readAll W _)]; simpl; discriminate.
  - intros Ht.
    assert (Hr : pullReference req = ImgName req +:+ ":" +:+ ImgTag req).
    { unfold pullReference. apply String.eqb_neq in Ht. now rewrite Ht. }
    assert (Hne : pullReference req <> "").
    { intros E. apply pullReference_empty in E. tauto. }
    apply String.eqb_neq in Hne. rewrite Hne, Hr.
    destruct (imagePull W t1 _); [exists [] | exists [CallReadAll]];
      reflexivity.
Qed.

Lemma pull_refused_iff_no_name_no_tag_witness :
  (status (fst (serve (pullHandler (calmWorld [] [] 0)
                         (Ok {| ImgName := ""; ImgTag := "latest" |})) []))
   = StatusBadRequest
   <-> ImgName {| ImgName := ""; ImgTag := "latest" |} = ""
       /\ ImgTag {| ImgName := ""; ImgTag := "latest" |} = "")
  /\ (ImgTag {| ImgName := ""; ImgTag := "latest" |} <> "" ->
      exists rest,
        snd (serve (pullHandler (calmWorld [] [] 0)
                      (Ok {| ImgName := ""; ImgTag := "latest" |})) [])
        = [CallNewClient; CallPing]
          ++ CallImagePull
               (ImgName {| ImgName := ""; ImgTag := "latest" |} +:+ ":"
                +:+ ImgTag {| ImgName := ""; ImgTag := "latest" |}) :: rest).
Proof.
  apply (pull_refused_iff_no_name_no_tag (calmWorld [] [] 0)
           {| ImgName := ""; ImgTag := "latest" |} [CallNewClient; CallPing]).
  reflexivity.
Defined.

(** A pull answered 200 pulled the reference it reports, drained the
    stream, and called nothing else after the ping. *)
Theorem pull_success_reports_reference (W : World) (req : ImageRequest)
  (t1 : Trace) :
  connect W [] = (Continue tt, t1) ->
  status (fst (serve (pullHandler W (Ok req)) [])) = StatusOK ->
  serve (pullHandler W (Ok req)) []
  = ({| status := StatusOK;
        body := [("message", "Image pulled successfully");
                 ("image", pullReference req)] |},
     t1 ++ [CallImagePull (pullReference req); CallReadAll])
  /\ imagePull W t1 (pullReference req) = None
  /\ readAll W (t1 ++ [CallImagePull (pullReference req)]) = None.
Proof.
  intros Hc. rewrite (pullHandler_connected W req t1 Hc).
  destruct (String.eqb (pullReference req) ""); [discriminate |].
  destruct (imagePull W t1 (pullReference req)); [discriminate |].
  destruct (readAll W _); [discriminate |]. auto.
Qed.

Lemma pull_success_reports_reference_witness :
  serve (pullHandler (calmWorld [] [] 0)
           (Ok {| ImgName := "redis"; ImgTag := "7" |})) []
  = ({| status := StatusOK;
        body := [("message", "Image pulled successfully");
                 ("image", pullReference {| ImgName := "redis"; ImgTag := "7" |})] |},
     [CallNewClient; CallPing]
     ++ [CallImagePull (pullReference {| ImgName := "redis"; ImgTag := "7" |});
         CallReadAll])
  /\ imagePull (calmWorld [] [] 0) [CallNewClient; CallPing]
       (pullReference {| ImgName := "redis"; ImgTag := "7" |}) = None
  /\ readAll (calmWorld [] [] 0)
       ([CallNewClient; CallPing]
        ++ [CallImagePull (pullReference {| ImgName := "redis"; ImgTag := "7" |})])
     = None.
Proof.
  apply (pull_success_reports_reference (calmWorld [] [] 0)
           {| ImgName := "redis"; ImgTag := "7" |} [CallNewClient; CallPing]);
    reflexivity.
Defined.

(** ** The outcomes of a bulk request *)

Section BulkOutcomes.

Variable W : World.
Variable action : string.

Lemma bulkLoop_app (l1 l2 : list string) :
  forall (st : BulkState) (t : Trace),
    bulkLoop W action (l1 ++ l2) st t
    = bind (bulkLoop W action l1 st) (bulkLoop W action l2) t.
Proof.
  induction l1 as [|id l1 IH]; intros st t; [reflexivity |].
  simpl app. cbn [bulkLoop]. unfold bind.
  destruct (bulkAction_calls W action id t) as [err ->].
  rewrite IH. reflexivity.
Qed.

(** The loop always runs to its end, and leaves the entries of the other
    ids as they were. *)
Lemma bulkLoop_runs (ids : list string) :
  forall (st : BulkState) (t : Trace),
    exists st',
      bulkLoop W action ids st t
      = (Continue st', t ++ flat_map (bulkCalls action) ids) /\
      forall id, ~ In id ids ->
                 bulkResults st' !! id = bulkResults st !! id.
Proof.
  induction ids as [|x ids IH]; intros st t.
  - exists st. simpl. rewrite app_nil_r. auto.
  - cbn [bulkLoop]. unfold bind.
    destruct (bulkAction_calls W action x t) as [err ->].
    destruct (IH (bulkRecord x err st) (t ++ bulkCalls action x))
      as (st' & -> & Hother).
    exists st'. simpl flat_map. rewrite app_assoc. split; [reflexivity |].
    intros id Hnot. rewrite Hother by (intros Hin; apply Hnot; now right).
    assert (Hne : x <> id) by (intros ->; apply Hnot; now left).
    unfold bulkRecord. destruct err; simpl; now rewrite lookup_insert_ne.
Qed.

Lemma bulkRecord_lookup (id : string) (err : option string) (st : BulkState) :
  bulkResults (bulkRecord id err st) !! id = Some (bulkOutcome err).
Proof.
  unfold bulkRecord, bulkOutcome. destruct err; simpl;
    now rewrite lookup_insert_eq.
Qed.

Lemma bulkLoop_last_occurrence (pre post : list string) (id : string)
  (err : option string) (st : BulkState) (t t' : Trace) :
  ~ In id post ->
  bulkAction W action id (t ++ flat_map (bulkCalls action) pre)
  = (Continue err, t') ->
  exists st',
    bulkLoop W action (pre ++ id :: post) st t
    = (Continue st', t ++ flat_map (bulkCalls action) (pre ++ id :: post)) /\
    bulkResults st' !! id = Some (bulkOutcome err).
Proof.
  intros Hnot Hact. rewrite bulkLoop_app. unfold bind at 1.
  destruct (bulkLoop_runs pre st t) as (st1 & -> & _).
  cbn [bulkLoop]. unfold bind at 1. rewrite Hact.
  destruct (bulkAction_calls W action id
              (t ++ flat_map (bulkCalls action) pre)) as [err' Hact'].
  rewrite Hact in Hact'. injection Hact' as _ ->.
  destruct (bulkLoop_runs post (bulkRecord id err st1)
              ((t ++ flat_map (bulkCalls action) pre) ++ bulkCalls action id))
    as (st' & -> & Hother).
  exists st'. split.
  - rewrite flat_map_app. simpl flat_map. rewrite <- !app_assoc. reflexivity.
  - rewrite (Hother id Hnot). apply bulkRecord_lookup.
Qed.

End BulkOutcomes.

Section KnownAction.

Variable W : World.
Variable action : string.
Hypothesis known : knownAction action = true.

(** A known action makes one call for a target, and its [err] is the
    error of the daemon's answer to that call. *)
Lemma bulkAction_known (id : string) (t : Trace) :
  exists c,
    bulkCalls action id = [c] /\
    bulkAction W action id t = (Continue (errorOf W t c), t ++ [c]).
Proof.
  pose proof known as Hk. unfold knownAction in Hk.
  unfold bulkAction, bulkCalls, call.
  destruct (String.eqb action "start"); [eexists; split; reflexivity |].
  destruct (String.eqb action "stop"); [eexists; split; reflexivity |].
  destruct (String.eqb action "remove"); [eexists; split; reflexivity |].
  destruct (String.eqb action "restart"); [eexists; split; reflexivity |].
  discriminate Hk.
Qed.

(** The counters follow the daemon: one success for each of its answers
    without error, one error for each other answer. *)
Lemma bulkLoop_counts (ids : list string) :
  forall (st : BulkState) (t : Trace),
    0 <= successCount st -> 0 <= errorCount st ->
    successCount st + errorCount st + Z.of_nat (length ids) <= maxInt64 ->
    exists st',
      bulkLoop W action ids st t
      = (Continue st', t ++ flat_map (bulkCalls action) ids) /\
      successCount st'
      = successCount st
        + Z.of_nat (length (List.filter succeeded
                              (bulkAnswers W action ids t))) /\
      errorCount st'
      = errorCount st
        + Z.of_nat (length (List.filter (fun e => negb (succeeded e))
                              (bulkAnswers W action ids t))).
Proof.
  induction ids as [|x ids IH]; intros st t Hs He Hb.
  - exists st. simpl. rewrite app_nil_r. repeat split; lia.
  - cbn [bulkLoop bulkAnswers flat_map]. unfold bind.
    destruct (bulkAction_known x t) as (c & Hc & Hact).
    rewrite Hact, Hc. simpl length in Hb.
    destruct (bulkRecord_step x (errorOf W t c) st Hs He ltac:(lia))
      as (_ & Hs' & He' & Hsum).
    destruct (IH (bulkRecord x (errorOf W t c) st) (t ++ [c])
                 Hs' He' ltac:(lia)) as (st' & -> & Hsc & Hec).
    exists st'. rewrite app_assoc. split; [reflexivity |].
    rewrite Hsc, Hec. unfold bulkRecord. cbn [map app List.filter].
    destruct (errorOf W t c) as [msg|]; simpl;
      rewrite wrapInt_id by (unfold minInt64, maxInt64 in *; lia);
      split; lia.
Qed.

End KnownAction.

(** For start, stop, remove and restart, the entry of a target in
    [results] is the outcome of what the daemon answers to the call made
    for the last occurrence of the target among the ids: [ContainerStart],
    [ContainerStop], [ContainerRemove] or [ContainerRestart] of that
    target, asked after the calls for the ids before it. *)
Theorem bulk_result_of_last_occurrence (W : World) (action id : string)
  (pre post : list string) :
  newClient W [] = None ->
  knownAction action = true ->
  ~ In id post ->
  exists c results summary,
    bulkCalls action id = [c] /\
    fst (serve (bulkHandler W (Ok (pre ++ id :: post)) action) [])
    = BulkDone StatusOK action results summary /\
    results !! id
    = Some (bulkOutcome
              (errorOf W (CallNewClient :: flat_map (bulkCalls action) pre) c)).
Proof.
  intros Hc Hk Hnot.
  destruct (bulkAction_known W action Hk id
              (CallNewClient :: flat_map (bulkCalls action) pre))
    as (c & Hcall & Hact).
  destruct (bulkLoop_last_occurrence W action pre post id _
              {| bulkResults := ∅; successCount := 0; errorCount := 0 |}
              [CallNewClient] _ Hnot Hact) as (st & Hrun & Hl).
  exists c, (bulkResults st). eexists. split; [exact Hcall |].
  unfold serve, bulkHandler, bind at 1, call. rewrite Hc.
  unfold bind at 1. simpl app. rewrite Hrun. simpl. split; [reflexivity |].
  exact Hl.
Qed.

Lemma bulk_result_of_last_occurrence_witness :
  exists results summary,
    fst (serve (bulkHandler (lackingWorld "b") (Ok (["b"; "a"] ++ "b" :: ["c"]))
                  "stop") [])
    = BulkDone StatusOK "stop" results summary /\
    results !! "b"
    = Some (bulkOutcome
              (containerStop (lackingWorld "b")
                 [CallNewClient; CallContainerStop "b" 30;
                  CallContainerStop "a" 30] "b" 30)) /\
    results !! "b" = Some (bulkOutcome (Some "No such container: b")).
Proof.
  destruct (bulk_result_of_last_occurrence (lackingWorld "b") "stop" "b"
              ["b"; "a"] ["c"])
    as (c & results & summary & Hcall & Hrun & Hl).
  - reflexivity.
  - reflexivity.
  - intros [H | []]. discriminate H.
  - exists results, summary. split; [exact Hrun |].
    simpl in Hcall. injection Hcall as <-.
    split; exact Hl.
Defined.

(** For start, stop, remove and restart, [success] counts the answers of
    the daemon without error and [errors] its other answers, repeated ids
    included. *)
Theorem bulk_counts_follow_answers (W : World) (ids : list string)
  (action : string) :
  newClient W [] = None ->
  knownAction action = true ->
  Z.of_nat (length ids) <= maxInt64 ->
  exists results summary,
    fst (serve (bulkHandler W (Ok ids) action) [])
    = BulkDone StatusOK action results summary /\
    success summary
    = Z.of_nat (length (List.filter succeeded
                          (bulkAnswers W action ids [CallNewClient]))) /\
    errors summary
    = Z.of_nat (length (List.filter (fun e => negb (succeeded e))
                          (bulkAnswers W action ids [CallNewClient]))).
Proof.
  intros Hc Hk Hlen.
  destruct (bulkLoop_counts W action Hk ids
              {| bulkResults := ∅; successCount := 0; errorCount := 0 |}
              [CallNewClient]) as (st & Hrun & Hs & He); simpl; try lia.
  exists (bulkResults st). eexists.
  unfold serve, bulkHandler, bind at 1, call. rewrite Hc.
  unfold bind at 1. simpl app. rewrite Hrun. simpl in *.
  split; [reflexivity |]. split; [exact Hs | exact He].
Qed.

Lemma bulk_counts_follow_answers_witness :
  bulkAnswers (lackingWorld "b") "stop" ["a"; "b"; "b"] [CallNewClient]
  = [None; Some "No such container: b"; Some "No such container: b"] /\
  exists results summary,
    fst (serve (bulkHandler (lackingWorld "b") (Ok ["a"; "b"; "b"]) "stop") [])
    = BulkDone StatusOK "stop" results summary /\
    success summary = 1 /\
    errors summary = 2.
Proof.
  split; [reflexivity |].
  apply (bulk_counts_follow_answers (lackingWorld "b") ["a"; "b"; "b"] "stop").
  - reflexivity.
  - reflexivity.
  - unfold maxInt64. simpl. lia.
Defined.

Section UnknownAction.

Variable W : World.
Variable action : string.
Hypothesis unknown : knownAction action = false.

Lemma bulkAction_unknown (id : string) (t : Trace) :
  bulkAction W action id t
  = (Continue (Some ("unknown action: " +:+ action)), t).
Proof.
  pose proof unknown as Hu. unfold knownAction in Hu. unfold bulkAction.
  apply orb_false_iff in Hu as [Hu ->].
  apply orb_false_iff in Hu as [Hu ->].
  apply orb_false_iff in Hu as [-> ->].
  reflexivity.
Qed.

Lemma bulkLoop_unknown (ids : list string) :
  forall (st : BulkState) (t : Trace),
    0 <= errorCount st ->
    errorCount st + Z.of_nat (length ids) <= maxInt64 ->
    exists st',
      bulkLoop W action ids st t = (Continue st', t) /\
      successCount st' = successCount st /\
      errorCount st' = errorCount st + Z.of_nat (length ids) /\
      (forall id, In id ids ->
         bulkResults st' !! id
         = Some (bulkOutcome (Some ("unknown action: " +:+ action)))) /\
      (forall id, ~ In id ids ->
         bulkResults st' !! id = bulkResults st !! id).
Proof.
  induction ids as [|x ids IH]; intros st t He Hb.
  - exists st. simpl. repeat split; auto; try lia; intros id [].
  - cbn [bulkLoop]. unfold bind. rewrite bulkAction_unknown.
    simpl length in Hb.
    destruct (IH (bulkRecord x (Some ("unknown action: " +:+ action)) st) t)
      as (st' & -> & Hs & Hec & Hin & Hout).
    + simpl. rewrite wrapInt_id by (unfold minInt64, maxInt64 in *; lia). lia.
    + simpl. rewrite wrapInt_id by (unfold minInt64, maxInt64 in *; lia). lia.
    + exists st'. split; [reflexivity |]. simpl in Hs, Hec.
      rewrite wrapInt_id in Hec by (unfold minInt64, maxInt64 in *; lia).
      split; [exact Hs |]. split; [simpl length; lia |]. split.
      * intros id Hid.
        destruct (in_dec String.string_dec id ids) as [Htail|Htail];
          [now apply Hin |].
        destruct Hid as [<- | Hid]; [| contradiction].
        rewrite (Hout x Htail). apply bulkRecord_lookup.
      * intros id Hnot. rewrite Hout by (intros Hi; apply Hnot; now right).
        simpl. apply lookup_insert_ne. intros ->. apply Hnot. now left.
Qed.

End UnknownAction.

(** An action other than start, stop, remove and restart calls nothing
    for the targets: every target fails with the same message, and
    [errors] is the number of ids. *)
Theorem bulk_unknown_action_fails_all (W : World) (ids : list string)
  (action : string) :
  knownAction action = false ->
  newClient W [] = None ->
  Z.of_nat (length ids) <= maxInt64 ->
  exists results,
    serve (bulkHandler W (Ok ids) action) []
    = (BulkDone StatusOK action results
         {| total := Z.of_nat (length ids); success := 0;
            errors := Z.of_nat (length ids) |},
       [CallNewClient]) /\
    forall id, In id ids ->
      results !! id
      = Some {| outcomeStatus := "error";
                outcomeMessage := Some ("unknown action: " +:+ action) |}.
Proof.
  intros Hu Hc Hlen.
  destruct (bulkLoop_unknown W action Hu ids
              {| bulkResults := ∅; successCount := 0; errorCount := 0 |}
              [CallNewClient]) as (st & Hrun & Hs & He & Hin & _);
    simpl; try lia.
  exists (bulkResults st).
  unfold serve, bulkHandler, bind at 1, call. rewrite Hc.
  unfold bind at 1. simpl app. rewrite Hrun. simpl in *.
  rewrite Hs, He. split; [reflexivity | exact Hin].
Qed.

Lemma bulk_unknown_action_fails_all_witness :
  exists results,
    serve (bulkHandler (calmWorld [] [] 0) (Ok ["a"; "b"]) "pause") []
    = (BulkDone StatusOK "pause" results
         {| total := Z.of_nat (length ["a"; "b"]); success := 0;
            errors := Z.of_nat (length ["a"; "b"]) |},
       [CallNewClient]) /\
    forall id, In id ["a"; "b"] ->
      results !! id
      = Some {| outcomeStatus := "error";
                outcomeMessage := Some ("unknown action: " +:+ "pause") |}.
Proof.
  apply (bulk_unknown_action_fails_all (calmWorld [] [] 0) ["a"; "b"] "pause").
  - reflexivity.
  - reflexivity.
  - unfold maxInt64. simpl. lia.
Defined.

(** ** The state counters of [GET /stats] *)

Lemma countStates_fold (states : list string) :
  forall k : StateCounts,
    0 <= running k -> 0 <= stopped k -> 0 <= paused k ->
    running k + stopped k + paused k + Z.of_nat (length states) <= maxInt64 ->
    let k' := fold_left (fun k state => countState state k) states k in
    0 <= running k' /\ 0 <= stopped k' /\ 0 <= paused k' /\
    running k' + stopped k' + paused k'
    = running k + stopped k + paused k
      + Z.of_nat (length (List.filter countedState states)).
Proof.
  induction states as [|s states IH]; intros k Hr Hs Hp Hb.
  - simpl. lia.
  - simpl length in Hb. cbn [fold_left List.filter].
    assert (Hstep :
      0 <= running (countState s k) /\ 0 <= stopped (countState s k) /\
      0 <= paused (countState s k) /\
      running (countState s k) + stopped (countState s k)
      + paused (countState s k)
      = running k + stopped k + paused k
        + (if countedState s then 1 else 0)).
    { unfold countState, countedState.
      destruct (String.eqb s "running"); simpl;
        [rewrite wrapInt_id by (unfold minInt64, maxInt64 in *; lia); lia |].
      destruct (String.eqb s "exited"); simpl;
        [rewrite wrapInt_id by (unfold minInt64, maxInt64 in *; lia); lia |].
      destruct (String.eqb s "created"); simpl;
        [rewrite wrapInt_id by (unfold minInt64, maxInt64 in *; lia); lia |].
      destruct (String.eqb s "paused"); simpl;
        [rewrite wrapInt_id by (unfold minInt64, maxInt64 in *; lia); lia |].
      lia. }
    destruct Hstep as (Hr' & Hs' & Hp' & Hsum).
    specialize (IH (countState s k) Hr' Hs' Hp').
    destruct (countedState s); simpl length in *; simpl in IH;
      destruct IH as (? & ? & ? & ?); try lia; repeat split; try lia.
Qed.

(** The three counters add up to the number of containers that are
    running, exited, created or paused: a container in another state
    (restarting, removing, dead) is in [total] and in none of them. *)
Theorem state_counts_cover_known_states (states : list string) :
  Z.of_nat (length states) <= maxInt64 ->
  running (countStates states) + stopped (countStates states)
  + paused (countStates states)
  = Z.of_nat (length (List.filter countedState states))
  /\ (running (countStates states) + stopped (countStates states)
      + paused (countStates states) = Z.of_nat (length states)
      <-> Forall (fun s => countedState s = true) states).
Proof.
  intros Hlen.
  destruct (countStates_fold states
              {| running := 0; stopped := 0; paused := 0 |})
    as (_ & _ & _ & Hsum); simpl; try lia.
  unfold countStates. simpl in Hsum. rewrite Hsum. split; [lia |].
  clear Hsum Hlen. induction states as [|s states IH]; simpl.
  - split; [constructor | reflexivity].
  - pose proof (List.filter_length_le countedState states) as Hle.
    destruct (countedState s) eqn:E; simpl length.
    + split.
      * intros H. constructor; [exact E |]. apply IH. lia.
      * intros H. inversion H as [|? ? _ Hrest]. apply IH in Hrest. lia.
    + split; [lia |]. intros H. inversion H as [|? ? Hs _]. congruence.
Qed.

Lemma state_counts_cover_known_states_witness :
  running (countStates ["running"; "dead"; "exited"])
  + stopped (countStates ["running"; "dead"; "exited"])
  + paused (countStates ["running"; "dead"; "exited"])
  = Z.of_nat (length (List.filter countedState ["running"; "dead"; "exited"]))
  /\ (running (countStates ["running"; "dead"; "exited"])
      + stopped (countStates ["running"; "dead"; "exited"])
      + paused (countStates ["running"; "dead"; "exited"])
      = Z.of_nat (length ["running"; "dead"; "exited"])
      <-> Forall (fun s => countedState s = true)
                 ["running"; "dead"; "exited"]).
Proof.
  apply (state_counts_cover_known_states ["running"; "dead"; "exited"]).
  unfold maxInt64. simpl. lia.
Defined.

(** ** Looking an image up *)

Lemma prefix_refl (s : string) : String.prefix s s = true.
Proof.
  pose proof (prefix_append s "") as H. now rewrite append_empty_r in H.
Qed.

Lemma Contains_refl (s : string) : Contains s s = true.
Proof.
  unfold Contains, Index. destruct s as [|x s]; [reflexivity |].
  rewrite indexFrom_cons, prefix_refl. reflexivity.
Qed.

Lemma existsb_tag_rule (tags : list string) (imageID : string) :
  existsb (fun tag => String.eqb tag imageID || Contains tag imageID) tags
  = existsb (fun tag => Contains tag imageID) tags.
Proof.
  induction tags as [|tag tags IH]; [reflexivity |]. simpl. rewrite IH.
  destruct (String.eqb_spec tag imageID) as [->|_]; [| reflexivity].
  now rewrite Contains_refl.
Qed.

Lemma findImage_cons (img : LocalImage) (rest : list LocalImage)
  (imageID : string) :
  ImageID img <> "" ->
  findImage (img :: rest) imageID
  = if matchesImage img imageID then ImageID img else findImage rest imageID.
Proof.
  intros Hne. cbn [findImage]. unfold matchesImage, HasPrefix.
  rewrite existsb_tag_rule.
  assert (H1 : String.eqb (ImageID img) imageID = true ->
               String.prefix imageID (ImageID img) = true).
  { intros E. apply String.eqb_eq in E. rewrite E. apply prefix_refl. }
  assert (H2 : String.eqb (ImageID img) ("sha256:" +:+ imageID) = true ->
               String.prefix ("sha256:" +:+ imageID) (ImageID img) = true).
  { intros E. apply String.eqb_eq in E. rewrite E. apply prefix_refl. }
  destruct (String.eqb (ImageID img) imageID).
  { rewrite (H1 eq_refl), orb_true_r. reflexivity. }
  destruct (String.eqb (ImageID img) ("sha256:" +:+ imageID)).
  { rewrite (H2 eq_refl). reflexivity. }
  clear H1 H2. cbn [orb].
  destruct (String.prefix ("sha256:" +:+ imageID) (ImageID img)
            || String.prefix imageID (ImageID img)); [reflexivity |].
  cbn [orb]. destruct (existsb _ (ImageTags img)); [| reflexivity].
  apply String.eqb_neq in Hne. now rewrite Hne.
Qed.

(** With image IDs that are not empty, the lookup gives the first listed
    image whose ID starts with the requested text, with or without
    ["sha256:"] before it, or one of whose tags contains the text
    anywhere; it gives [""] exactly when no image is such. *)
Theorem findImage_first_match (images : list LocalImage) (imageID : string) :
  Forall (fun img => ImageID img <> "") images ->
  (findImage images imageID = ""
   <-> forall img, In img images -> matchesImage img imageID = false)
  /\ forall pre img post,
       images = pre ++ img :: post ->
       (forall img', In img' pre -> matchesImage img' imageID = false) ->
       matchesImage img imageID = true ->
       findImage images imageID = ImageID img.
Proof.
  induction 1 as [|x images Hx Himgs IH].
  - split.
    + split; [intros _ img [] | reflexivity].
    + intros [|? ?] img post E; discriminate E.
  - rewrite (findImage_cons x images imageID Hx).
    destruct IH as [IHnone IHfirst].
    destruct (matchesImage x imageID) eqn:Em.
    + split.
      * split; [contradiction |].
        intros Hno. specialize (Hno x (or_introl eq_refl)). congruence.
      * intros [|y pre] img post E Hno Hm; simpl in E;
          injection E as <- E; [reflexivity |].
        specialize (Hno x (or_introl eq_refl)). congruence.
    + split.
      * rewrite IHnone. split.
        -- intros Hno img [<- | Hin]; auto.
        -- intros Hno img Hin. apply Hno. now right.
      * intros [|y pre] img post E Hno Hm; simpl in E; injection E as <- E.
        -- congruence.
        -- apply (IHfirst pre img post E); auto.
           intros img' Hin. apply Hno. now right.
Qed.

Lemma findImage_first_match_witness :
  (findImage [ {| ImageID := "sha256:aa11"; ImageTags := ["redis:7"] |};
               {| ImageID := "sha256:bb22"; ImageTags := ["nginx:latest"] |} ]
             "gin" = ""
   <-> forall img,
         In img [ {| ImageID := "sha256:aa11"; ImageTags := ["redis:7"] |};
                  {| ImageID := "sha256:bb22";
                     ImageTags := ["nginx:latest"] |} ] ->
         matchesImage img "gin" = false)
  /\ forall pre img post,
       [ {| ImageID := "sha256:aa11"; ImageTags := ["redis:7"] |};
         {| ImageID := "sha256:bb22"; ImageTags := ["nginx:latest"] |} ]
       = pre ++ img :: post ->
       (forall img', In img' pre -> matchesImage img' "gin" = false) ->
       matchesImage img "gin" = true ->
       findImage [ {| ImageID := "sha256:aa11"; ImageTags := ["redis:7"] |};
                   {| ImageID := "sha256:bb22";
                      ImageTags := ["nginx:latest"] |} ] "gin"
       = ImageID img.
Proof.
  apply (findImage_first_match
           [ {| ImageID := "sha256:aa11"; ImageTags := ["redis:7"] |};
             {| ImageID := "sha256:bb22"; ImageTags := ["nginx:latest"] |} ]
           "gin").
  repeat constructor; discriminate.
Defined.

Example findImage_by_substring :
  findImage [ {| ImageID := "sha256:aa11"; ImageTags := ["redis:7"] |};
              {| ImageID := "sha256:bb22"; ImageTags := ["nginx:latest"] |} ]
            "gin"
  = "sha256:bb22".
Proof. reflexivity. Qed.

(** ** [GET /stop/:id] and [GET /start/:id] *)

Lemma routeServe_bind_continue {R A : Type} (m : Route R A)
  (k : A -> Route R R) (t t' : list RouteCall) (a : A) :
  m t = (Continue a, t') -> routeServe (routeBind m k) t = routeServe (k a) t'.
Proof. intros H. unfold routeServe, routeBind. rewrite H. reflexivity. Qed.

Lemma routeConnect_trace (W : RouteWorld) :
  exists d,
    snd (routeConnect W []) = d /\
    (d = [RouteNewClient] \/ d = [RouteNewClient; RoutePing]).
Proof.
  unfold routeConnect, routeBind, routeCall.
  destruct (routeNewClient W []); [eexists; split; [reflexivity | now left] |].
  destruct (routePing W _); eexists; (split; [reflexivity | now right]).
Qed.

(** When every listed ID has 12 bytes or more, a container named by ID,
    short ID or name is stopped under its full ID, in one call that sets
    no timeout (the bulk stop sets 30 seconds); the answer is 200 and
    echoes the id as requested when the daemon stops it, and 500 with the
    daemon's error otherwise. *)
Theorem stop_found_by_full_id (W : RouteWorld) (containerID : string)
  (cs : list Container) (c : Container) (t1 : list RouteCall) :
  routeConnect W [] = (Continue tt, t1) ->
  routeContainerList W t1 = Ok cs ->
  longIDs cs ->
  In c cs ->
  matchesID c containerID || matchesName c containerID = true ->
  exists c',
    In c' cs /\
    (matchesID c' containerID = true \/ matchesName c' containerID = true) /\
    routeServe (stopHandler W containerID) []
    = (match routeStop W (t1 ++ [RouteContainerList true]) (ID c') None with
       | Some err =>
           {| status := StatusInternalServerError;
              body := [("error", "Error stopping container: " +:+ err)] |}
       | None =>
           {| status := StatusOK;
              body := [("message",
                "Container " +:+ containerID +:+ " stopped successfully")] |}
       end,
       t1 ++ [RouteContainerList true; RouteContainerStop (ID c') None]).
Proof.
  intros Hc Hl Hlong Hin Hm. unfold stopHandler.
  rewrite (routeServe_bind_continue _ _ _ _ _ Hc).
  unfold routeServe, routeBind at 1, routeCall at 1. rewrite Hl.
  destruct (findContainer_result containerID cs Hlong "")
    as (target & -> & [[_ Hno] | (c' & Hin' & <- & Hm')]).
  - exfalso. destruct (Hno c Hin) as [H1 H2]. rewrite H1, H2 in Hm.
    discriminate.
  - exists c'. split; [exact Hin' |]. split; [exact Hm' |].
    pose proof (longIDs_nonempty cs c' Hlong Hin') as Hne.
    apply String.eqb_neq in Hne. rewrite Hne.
    unfold routeBind, routeCall. rewrite <- app_assoc. simpl.
    now destruct (routeStop W _ (ID c') None).
Qed.

Lemma stop_found_by_full_id_witness :
  exists c',
    In c' [container "4f2a9c0b7d1e88aa" "/web" [8081]] /\
    (matchesID c' "4f2a9c0b7d1e" = true
     \/ matchesName c' "4f2a9c0b7d1e" = true) /\
    routeServe (stopHandler
                  (calmRoutes [container "4f2a9c0b7d1e88aa" "/web" [8081]]
                              [] [] "")
                  "4f2a9c0b7d1e") []
    = (match routeStop
               (calmRoutes [container "4f2a9c0b7d1e88aa" "/web" [8081]]
                           [] [] "")
               ([RouteNewClient; RoutePing] ++ [RouteContainerList true])
               (ID c') None
       with
       | Some err =>
           {| status := StatusInternalServerError;
              body := [("error", "Error stopping container: " +:+ err)] |}
       | None =>
           {| status := StatusOK;
              body := [("message",
                "Container " +:+ "4f2a9c0b7d1e"
                +:+ " stopped successfully")] |}
       end,
       [RouteNewClient; RoutePing]
       ++ [RouteContainerList true; RouteContainerStop (ID c') None]).
Proof.
  apply (stop_found_by_full_id
           (calmRoutes [container "4f2a9c0b7d1e88aa" "/web" [8081]] [] [] "")
           "4f2a9c0b7d1e" [container "4f2a9c0b7d1e88aa" "/web" [8081]]
           (container "4f2a9c0b7d1e88aa" "/web" [8081])
           [RouteNewClient; RoutePing]).
  - reflexivity.
  - reflexivity.
  - repeat constructor; simpl; lia.
  - left. reflexivity.
  - reflexivity.
Defined.

(** Whatever the daemon answers, [GET /start/:id] starts a container
    only as its last call, right after inspecting that same container and
    finding it not running: a container reported as running is never
    started. *)
Theorem start_only_when_not_running (W : RouteWorld) (containerID : string) :
  exists pre,
    Forall (fun c => forall id, c <> RouteContainerStart id) pre /\
    (snd (routeServe (startHandler W containerID) []) = pre
     \/ exists target,
          routeInspect W pre target = Ok false /\
          snd (routeServe (startHandler W containerID) [])
          = pre ++ [RouteContainerInspect target;
                    RouteContainerStart target]).
Proof.
  remember (snd (routeServe (startHandler W containerID) [])) as tr eqn:Htr.
  assert (Hs : forall (h : Route Response Response) t,
             snd (routeServe h t) = snd (h t)).
  { intros h t. unfold routeServe. now destruct (h t) as [[r|r] t']. }
  rewrite Hs in Htr. clear Hs.
  unfold startHandler, routeBind at 1 in Htr.
  destruct (routeConnect_trace W) as (d & Hd & Hshape).
  assert (Hq : Forall (fun c => forall id, c <> RouteContainerStart id) d).
  { destruct Hshape as [-> | ->]; repeat constructor; discriminate. }
  destruct (routeConnect W []) as [[r|[]] t1]; simpl in Hd; subst t1.
  { exists d. subst tr. split; [exact Hq | now left]. }
  unfold routeBind at 1, routeCall at 1 in Htr.
  assert (Hq' : Forall (fun c => forall id, c <> RouteContainerStart id)
                       (d ++ [RouteContainerList true])).
  { apply Forall_app. split; [exact Hq |]. repeat constructor. discriminate. }
  destruct (routeContainerList W d) as [cs|e];
    [| exists (d ++ [RouteContainerList true]); subst tr;
       split; [exact Hq' | now left]].
  destruct (findContainerNamed cs containerID "" "") as [[target name]|];
    [| exists (d ++ [RouteContainerList true]); subst tr;
       split; [exact Hq' | now left]].
  destruct (String.eqb target "");
    [exists (d ++ [RouteContainerList true]); subst tr;
     split; [exact Hq' | now left] |].
  unfold routeBind at 1, routeCall at 1 in Htr.
  destruct (routeInspect W (d ++ [RouteContainerList true]) target)
    as [[|]|e] eqn:Hi.
  - exists ((d ++ [RouteContainerList true]) ++ [RouteContainerInspect target]).
    subst tr. split; [| now left].
    apply Forall_app. split; [exact Hq' |]. repeat constructor. discriminate.
  - exists (d ++ [RouteContainerList true]). split; [exact Hq' |].
    right. exists target. split; [exact Hi |].
    unfold routeBind, routeCall in Htr. subst tr.
    destruct (routeStart W _ target);
      [| destruct (String.length target <? 12)%nat];
      simpl; rewrite <- app_assoc; reflexivity.
  - exists ((d ++ [RouteContainerList true]) ++ [RouteContainerInspect target]).
    subst tr. split; [| now left].
    apply Forall_app. split; [exact Hq' |]. repeat constructor. discriminate.
Qed.

(** ** [DELETE /images/:id] *)

Lemma deleteImageHandler_connected (W : RouteWorld) (imageID : string) :
  routeNewClient W [] = None ->
  routePing W [RouteNewClient] = None ->
  routeServe (deleteImageHandler W imageID) []
  = match routeImageRemove W [RouteNewClient; RoutePing] imageID true with
    | None =>
        ({| answer :=
              {| status := StatusOK;
                 body := [("message",
                   "Image " +:+ imageID +:+ " removed successfully")] |};
            available_images := [] |},
         [RouteNewClient; RoutePing; RouteImageRemove imageID true])
    | Some _ =>
        match routeImageList W
                [RouteNewClient; RoutePing; RouteImageRemove imageID true]
        with
        | Err err =>
            ({| answer :=
                  {| status := StatusInternalServerError;
                     body := [("error", "Error listing images: " +:+ err)] |};
                available_images := [] |},
             [RouteNewClient; RoutePing; RouteImageRemove imageID true;
              RouteImageList])
        | Ok images =>
            if String.eqb (findImage images imageID) "" then
              (match availableImages images with
               | None =>
                   {| answer :=
                        {| status := StatusInternalServerError; body := [] |};
                      available_images := [] |}
               | Some available =>
                   {| answer :=
                        {| status := 404;
                           body := [("error",
                             "Image not found: " +:+ imageID)] |};
                      available_images := available |}
               end,
               [RouteNewClient; RoutePing; RouteImageRemove imageID true;
                RouteImageList])
            else
              (match routeImageRemove W
                       [RouteNewClient; RoutePing;
                        RouteImageRemove imageID true; RouteImageList]
                       (findImage images imageID) true
               with
               | Some err =>
                   {| answer :=
                        {| status := StatusInternalServerError;
                           body := [("error",
                             "Error removing image: " +:+ err)] |};
                      available_images := [] |}
               | None =>
                   {| answer :=
                        {| status := StatusOK;
                           body := [("message",
                             "Image " +:+ imageID
                             +:+ " removed successfully")] |};
                      available_images := [] |}
               end,
               [RouteNewClient; RoutePing; RouteImageRemove imageID true;
                RouteImageList;
                RouteImageRemove (findImage images imageID) true])
        end
    end.
Proof.
  intros Hc Hp.
  unfold routeServe, deleteImageHandler, routeBind, routeCall.
  rewrite Hc. cbn [app]. rewrite Hp. cbn [app].
  destruct (routeImageRemove W [RouteNewClient; RoutePing] imageID true);
    [| reflexivity].
  cbn [app].
  destruct (routeImageList W _) as [images|e]; [| reflexivity].
  destruct (String.eqb (findImage images imageID) "").
  - now destruct (availableImages images).
  - cbn [app].
    now destruct (routeImageRemove W _ (findImage images imageID) true).
Qed.

(** Whatever the daemon answers, a delete request removes at most twice,
    always by force: first under the text as requested, and only if that
    failed, under the ID of the listed image the lookup found. *)
Theorem delete_image_call_budget (W : RouteWorld) (imageID : string) :
  List.filter isImageRemove
    (snd (routeServe (deleteImageHandler W imageID) [])) = []
  \/ List.filter isImageRemove
       (snd (routeServe (deleteImageHandler W imageID) []))
     = [RouteImageRemove imageID true]
  \/ exists images,
       routeImageRemove W [RouteNewClient; RoutePing] imageID true <> None /\
       routeImageList W
         [RouteNewClient; RoutePing; RouteImageRemove imageID true]
       = Ok images /\
       findImage images imageID <> "" /\
       List.filter isImageRemove
         (snd (routeServe (deleteImageHandler W imageID) []))
       = [RouteImageRemove imageID true;
          RouteImageRemove (findImage images imageID) true].
Proof.
  destruct (routeNewClient W []) as [e|] eqn:Hc.
  { left. unfold routeServe, deleteImageHandler, routeBind, routeCall.
    rewrite Hc. reflexivity. }
  destruct (routePing W [RouteNewClient]) as [e|] eqn:Hp.
  { left. unfold routeServe, deleteImageHandler, routeBind, routeCall.
    rewrite Hc. cbn [app]. rewrite Hp. reflexivity. }
  rewrite (deleteImageHandler_connected W imageID Hc Hp).
  destruct (routeImageRemove W [RouteNewClient; RoutePing] imageID true)
    as [e|] eqn:Hr; [| right; left; reflexivity].
  destruct (routeImageList W _) as [images|e'] eqn:Hl;
    [| right; left; reflexivity].
  destruct (String.eqb_spec (findImage images imageID) "") as [E|E];
    [right; left; reflexivity |].
  right. right. exists images. repeat split; auto; discriminate.
Qed.

(** When removing under the requested text fails, an image one of whose
    tags contains that text anywhere, or whose ID starts with it, is
    removed in its place: the request is not answered 404. *)
Theorem delete_image_falls_back_on_lookup (W : RouteWorld)
  (imageID err : string) (images : list LocalImage) (img : LocalImage) :
  routeNewClient W [] = None ->
  routePing W [RouteNewClient] = None ->
  routeImageRemove W [RouteNewClient; RoutePing] imageID true = Some err ->
  routeImageList W [RouteNewClient; RoutePing; RouteImageRemove imageID true]
  = Ok images ->
  Forall (fun img => ImageID img <> "") images ->
  In img images ->
  matchesImage img imageID = true ->
  exists img',
    In img' images /\ matchesImage img' imageID = true /\
    snd (routeServe (deleteImageHandler W imageID) [])
    = [RouteNewClient; RoutePing; RouteImageRemove imageID true;
       RouteImageList; RouteImageRemove (ImageID img') true] /\
    status (answer (fst (routeServe (deleteImageHandler W imageID) [])))
    <> 404.
Proof.
  intros Hc Hp Hr Hl Hne Hin Hm.
  rewrite (deleteImageHandler_connected W imageID Hc Hp), Hr, Hl.
  assert (Hfound : exists img',
             In img' images /\ matchesImage img' imageID = true /\
             findImage images imageID = ImageID img').
  { clear Hl. induction Hne as [|x images Hx Hne IH]; [destruct Hin |].
    rewrite (findImage_cons x images imageID Hx).
    destruct (matchesImage x imageID) eqn:Ex.
    - exists x. split; [now left | auto].
    - destruct Hin as [-> | Hin]; [congruence |].
      destruct (IH Hin) as (img' & Hin' & Hm' & Hf).
      exists img'. split; [now right | auto]. }
  destruct Hfound as (img' & Hin' & Hm' & Hf).
  exists img'. split; [exact Hin' |]. split; [exact Hm' |].
  assert (Hid : ImageID img' <> "").
  { rewrite List.Forall_forall in Hne. exact (Hne img' Hin'). }
  rewrite Hf. apply String.eqb_neq in Hid. rewrite Hid.
  split; [reflexivity |].
  destruct (routeImageRemove W _ (ImageID img') true); simpl; discriminate.
Qed.

Lemma delete_image_falls_back_on_lookup_witness :
  exists img',
    In img' [ {| ImageID := "sha256:aa11"; ImageTags := ["redis:7"] |};
              {| ImageID := "sha256:bb22"; ImageTags := ["nginx:latest"] |} ]
    /\ matchesImage img' "gin" = true /\
    snd (routeServe
           (deleteImageHandler
              (calmRoutes []
                 [ {| ImageID := "sha256:aa11"; ImageTags := ["redis:7"] |};
                   {| ImageID := "sha256:bb22";
                      ImageTags := ["nginx:latest"] |} ] [] "gin")
              "gin") [])
    = [RouteNewClient; RoutePing; RouteImageRemove "gin" true;
       RouteImageList; RouteImageRemove (ImageID img') true] /\
    status (answer (fst (routeServe
           (deleteImageHandler
              (calmRoutes []
                 [ {| ImageID := "sha256:aa11"; ImageTags := ["redis:7"] |};
                   {| ImageID := "sha256:bb22";
                      ImageTags := ["nginx:latest"] |} ] [] "gin")
              "gin") [])))
    <> 404.
Proof.
  apply (delete_image_falls_back_on_lookup
           (calmRoutes []
              [ {| ImageID := "sha256:aa11"; ImageTags := ["redis:7"] |};
                {| ImageID := "sha256:bb22";
                   ImageTags := ["nginx:latest"] |} ] [] "gin")
           "gin" "No such image: gin"
           [ {| ImageID := "sha256:aa11"; ImageTags := ["redis:7"] |};
             {| ImageID := "sha256:bb22"; ImageTags := ["nginx:latest"] |} ]
           {| ImageID := "sha256:bb22"; ImageTags := ["nginx:latest"] |}).
  - reflexivity.
  - reflexivity.
  - reflexivity.
  - reflexivity.
  - repeat constructor; discriminate.
  - right. left. reflexivity.
  - reflexivity.
Defined.

Lemma availableImages_lists (images : list LocalImage) :
  forall available,
    availableImages images = Some available ->
    forall img, In img images ->
      In (slice (ImageID img) 0 12) available /\
      forall tag, In tag (ImageTags img) -> In tag available.
Proof.
  induction images as [|x images IH]; intros available H img Hin;
    [destruct Hin |].
  cbn [availableImages] in H.
  destruct (String.length (ImageID x) <? 12)%nat; [discriminate |].
  destruct (availableImages images) as [l|]; [| discriminate].
  injection H as <-. destruct Hin as [<- | Hin].
  - split.
    + apply in_or_app. right. now left.
    + intros tag Ht. apply in_or_app. now left.
  - destruct (IH l eq_refl img Hin) as [Hid Htags]. split.
    + apply in_or_app. right. now right.
    + intros tag Ht. apply in_or_app. right. right. auto.
Qed.

(** When removing under the requested text fails and no listed image
    matches it, the request is answered 404 with the text echoed and with
    every tag and every short ID of the listed images; nothing else is
    removed. *)
Theorem delete_unknown_image_is_404 (W : RouteWorld) (imageID err : string)
  (images : list LocalImage) :
  routeNewClient W [] = None ->
  routePing W [RouteNewClient] = None ->
  routeImageRemove W [RouteNewClient; RoutePing] imageID true = Some err ->
  routeImageList W [RouteNewClient; RoutePing; RouteImageRemove imageID true]
  = Ok images ->
  Forall (fun img => (12 <= String.length (ImageID img))%nat) images ->
  (forall img, In img images -> matchesImage img imageID = false) ->
  exists available,
    routeServe (deleteImageHandler W imageID) []
    = ({| answer :=
            {| status := 404;
               body := [("error", "Image not found: " +:+ imageID)] |};
          available_images := available |},
       [RouteNewClient; RoutePing; RouteImageRemove imageID true;
        RouteImageList]) /\
    forall img, In img images ->
      In (slice (ImageID img) 0 12) available /\
      forall tag, In tag (ImageTags img) -> In tag available.
Proof.
  intros Hc Hp Hr Hl Hlong Hno.
  rewrite (deleteImageHandler_connected W imageID Hc Hp), Hr, Hl.
  assert (Hnone : findImage images imageID = "").
  { clear Hl. induction Hlong as [|x images Hx _ IH]; [reflexivity |].
    rewrite findImage_cons
      by (intros E; rewrite E in Hx; simpl in Hx; lia).
    rewrite (Hno x (or_introl eq_refl)). apply IH.
    intros img Hin. apply Hno. now right. }
  rewrite Hnone. simpl String.eqb. cbv iota.
  assert (Hav : exists available, availableImages images = Some available).
  { clear Hl Hno Hnone. induction Hlong as [|x images Hx _ IH].
    - exists []. reflexivity.
    - destruct IH as [l Hl]. cbn [availableImages]. rewrite Hl.
      replace (String.length (ImageID x) <? 12)%nat with false
        by (symmetry; apply Nat.ltb_ge; lia).
      eexists. reflexivity. }
  destruct Hav as [available Hav]. rewrite Hav.
  exists available. split; [reflexivity |].
  exact (availableImages_lists images available Hav).
Qed.

Lemma delete_unknown_image_is_404_witness :
  exists available,
    routeServe
      (deleteImageHandler
         (calmRoutes []
            [ {| ImageID := "sha256:aa11bb22cc33"; ImageTags := ["redis:7"] |} ]
            [] "mysql")
         "mysql") []
    = ({| answer :=
            {| status := 404;
               body := [("error", "Image not found: " +:+ "mysql")] |};
          available_images := available |},
       [RouteNewClient; RoutePing; RouteImageRemove "mysql" true;
        RouteImageList]) /\
    forall img,
      In img [ {| ImageID := "sha256:aa11bb22cc33";
                  ImageTags := ["redis:7"] |} ] ->
      In (slice (ImageID img) 0 12) available /\
      forall tag, In tag (ImageTags img) -> In tag available.
Proof.
  apply (delete_unknown_image_is_404
           (calmRoutes []
              [ {| ImageID := "sha256:aa11bb22cc33";
                   ImageTags := ["redis:7"] |} ] [] "mysql")
           "mysql" "No such image: mysql"
           [ {| ImageID := "sha256:aa11bb22cc33"; ImageTags := ["redis:7"] |} ]).
  - reflexivity.
  - reflexivity.
  - reflexivity.
  - reflexivity.
  - repeat constructor; simpl; lia.
  - intros img [<- | []]. reflexivity.
Defined.
